(** * Worklog: time-range overlap checks and the analytics day aggregation

    A shallow embedding of the computational fragments of the worklog
    application:

    - [utils/timeUtils.ts], in its two revisions: the earlier three-clause
      overlap predicate over a session list ([TimeUtilsLegacy]) and the
      current pairwise half-open test used by [checkForSessionOverlap]
      ([TimeUtils]);
    - the [chartData] computation of [components/AnalyticsPage.tsx]
      ([Analytics]), together with [getPreviousPeriodDates] and
      [handleCustomRangeSubmit], and the windows the page offers
      ([DateRanges]);
    - saving a session ([App]) from the session form
      ([WorkSessionForm]);
    - the log grouped by day and its deletion handler
      ([WorkSessionLog]), the duration texts ([ProjectPanel]) and the day
      calendar ([DayCalendar]);
    - friend requests and the username page, under the rule of
      [firestore.rules] for the [users] collection ([Friends]).

    Modelling conventions.

    - A JavaScript [Date] is its time value, an integer number of
      milliseconds since the epoch ([Z]).  A Firestore [Timestamp] is a
      pair of integer [seconds] and [nanoseconds]; the instant either
      denotes is counted in nanoseconds ([TimeUtils.instant]),
      independently of the conversion the code applies.
    - The Firestore query [where('userId','==',uid)] is a filter over the
      list of stored documents; nothing else of the database is needed.
    - Durations and hours are whole hundredths of an hour by
      construction ([Math.round(x) / 100]); the model keeps them as exact
      rationals ([Qc]), with [Math.round] as [floor (x + 1/2)], and the
      JavaScript number that holds such a value is the binary64 number
      nearest to it ([toNumber]).
    - Focus levels are JavaScript numbers as they are: binary64
      floating-point numbers ([float], the kernel's primitive type) with
      the IEEE 754 operations, rounding to nearest, ties to even.  The
      weighted focus level of a bucket is computed with these
      operations, as the code computes it.
    - The owner's local calendar is a zone with a constant offset [tz]
      (milliseconds east of UTC) over the instants considered.  The text
      [YYYY-MM-DD] produced by [getLocalDateString] is in one-to-one
      correspondence with the local calendar day, so the model keys the
      buckets by the local day number (days since the epoch). *)

From Stdlib Require Import Floats.
From Stdlib Require Import ZArith List Bool Lia QArith Qcanon Qround.
From Stdlib Require Import Permutation Lqa Sorted.
From stdpp Require Import base numbers list strings gmap.
Import ListNotations.

Local Open Scope Z_scope.

(* ------------------------------------------------------------------ *)
(** ** The earlier revision of [timeUtils.ts] *)

Module TimeUtilsLegacy.

(** Endpoints are the values the relational operators compare: instants
    on one common scale. *)
Record TimeRange := mkTimeRange { startTime : Z; endTime : Z }.

Record Session := mkSession
  { id : string; s_startTime : Z; s_endTime : Z }.

(** The callback passed to [sessions.some] in [hasOverlap]. *)
Definition overlapsSession (newSession : TimeRange) (session : Session)
  : bool :=
  let existingRange :=
    {| startTime := s_startTime session; endTime := s_endTime session |} in
  ((startTime newSession >=? startTime existingRange)
     && (startTime newSession <? endTime existingRange))
  || ((endTime newSession >? startTime existingRange)
        && (endTime newSession <=? endTime existingRange))
  || ((startTime newSession <=? startTime existingRange)
        && (endTime newSession >=? endTime existingRange)).

Definition hasOverlap (sessions : list Session) (newSession : TimeRange)
  : bool :=
  existsb (overlapsSession newSession) sessions.

Definition checkForOverlap (sessions : list Session)
    (newSession : TimeRange) : bool :=
  if (length sessions =? 0)%nat then false
  else hasOverlap sessions newSession.

End TimeUtilsLegacy.

(* ------------------------------------------------------------------ *)
(** ** The current revision of [timeUtils.ts] *)

Module TimeUtils.

Inductive TimeValue :=
| DateV (ms : Z)
| TimestampV (seconds nanoseconds : Z).

Record TimeRange := mkTimeRange
  { startTime : TimeValue; endTime : TimeValue }.

(** [x instanceof Date ? x : new Date(x.seconds * 1000)], as a time
    value. *)
Definition toDate (t : TimeValue) : Z :=
  match t with
  | DateV ms => ms
  | TimestampV seconds _ => seconds * 1000
  end.

Definition hasOverlap (range1 range2 : TimeRange) : bool :=
  let start1 := toDate (startTime range1) in
  let end1 := toDate (endTime range1) in
  let start2 := toDate (startTime range2) in
  let end2 := toDate (endTime range2) in
  (start1 <? end2) && (start2 <? end1).

(** A document of the [workSessions] collection, reduced to the fields
    the check reads. *)
Record SessionDoc := mkSessionDoc
  { doc_id : string;
    doc_userId : string;
    doc_startTime : TimeValue;
    doc_endTime : TimeValue }.

(** [getDocs(query(collection(db,'workSessions'), where('userId','==',userId)))] *)
Definition getDocs (workSessions : list SessionDoc) (userId : string)
  : list SessionDoc :=
  List.filter (fun doc => String.eqb (doc_userId doc) userId) workSessions.

(** Truthiness of an optional string argument: [undefined] and the empty
    string are falsy. *)
Definition truthy (s : option string) : bool :=
  match s with
  | None => false
  | Some str => negb (String.eqb str "")
  end.

Definition keepDoc (excludeSessionId : option string) (doc : SessionDoc)
  : bool :=
  if truthy excludeSessionId
  then match excludeSessionId with
       | Some x => negb (String.eqb (doc_id doc) x)
       | None => true
       end
  else true.

Definition rangeOf (session : SessionDoc) : TimeRange :=
  {| startTime := doc_startTime session; endTime := doc_endTime session |}.

Definition checkForSessionOverlap (workSessions : list SessionDoc)
    (userId : string) (startTime endTime : Z)
    (excludeSessionId : option string) : bool :=
  let querySnapshot := getDocs workSessions userId in
  let sessions := List.filter (keepDoc excludeSessionId) querySnapshot in
  let newSession :=
    {| startTime := DateV startTime; endTime := DateV endTime |} in
  existsb (fun session => hasOverlap newSession (rangeOf session)) sessions.

(** The instant a time value denotes, in nanoseconds since the epoch: a
    [Date] counts milliseconds, a [Timestamp] seconds and nanoseconds. *)
Definition instant (t : TimeValue) : Z :=
  match t with
  | DateV ms => ms * 1000000
  | TimestampV seconds nanoseconds => seconds * 1000000000 + nanoseconds
  end.

(** The half-open intersection test [s1 < e2 /\ s2 < e1] on the instants
    two ranges denote. *)
Definition half_open (r1 r2 : TimeRange) : Prop :=
  instant (startTime r1) < instant (endTime r2)
  /\ instant (startTime r2) < instant (endTime r1).

Definition well_formed (r : TimeRange) : Prop :=
  instant (startTime r) < instant (endTime r).

(** A time value without a fraction of a second that [toDate] would
    drop: any [Date], and a [Timestamp] whose [nanoseconds] are 0. *)
Definition whole_second (t : TimeValue) : Prop :=
  match t with
  | DateV _ => True
  | TimestampV _ nanoseconds => nanoseconds = 0
  end.

Definition whole_seconds (r : TimeRange) : Prop :=
  whole_second (startTime r) /\ whole_second (endTime r).

(** Two snapshots of the collection that agree everywhere but on the
    time range of the documents named [x]. *)
Definition differ_only_at (x : string) (d d' : SessionDoc) : Prop :=
  doc_id d = doc_id d' /\ doc_userId d = doc_userId d'
  /\ (doc_id d <> x -> d = d').

(** The range a legacy session or candidate denotes, for comparing
    the two revisions. *)
Definition ofLegacyRange (r : TimeUtilsLegacy.TimeRange) : TimeRange :=
  {| startTime := DateV (TimeUtilsLegacy.startTime r);
     endTime := DateV (TimeUtilsLegacy.endTime r) |}.

Definition ofLegacySession (s : TimeUtilsLegacy.Session) : TimeRange :=
  {| startTime := DateV (TimeUtilsLegacy.s_startTime s);
     endTime := DateV (TimeUtilsLegacy.s_endTime s) |}.

End TimeUtils.

(* ------------------------------------------------------------------ *)
(** ** [components/AnalyticsPage.tsx]: the [chartData] aggregation *)

Module Analytics.

Local Open Scope Qc_scope.

(** A JavaScript number holding the integer [n]. *)
Definition num (n : Z) : Qc := Qc_of_Z n.

(** [Math.round]: the nearest integer, ties towards plus infinity. *)
Definition Math_round (x : Qc) : Qc :=
  num (Qfloor (this (x + Q2Qc (1 # 2)))).

(** The JavaScript number that holds the integer [n] (exactly, below
    2^53 in size). *)
Definition ofZ (n : Z) : float :=
  match n with
  | Z0 => 0%float
  | Zpos _ => PrimFloat.of_uint63 (Uint63.of_Z n)
  | Zneg p => PrimFloat.opp (PrimFloat.of_uint63 (Uint63.of_Z (Zpos p)))
  end.

(** The JavaScript number nearest to a rational: the quotient of its
    numerator and denominator, which the division rounds correctly when
    both are below 2^53.  This is the number [Math.round(x) / 100] leaves
    for a count of hundredths. *)
Definition toNumber (q : Qc) : float :=
  (ofZ (Qnum (this q)) / ofZ (Zpos (Qden (this q))))%float.

(** The rational a finite JavaScript number is (0 for the others). *)
Definition valueOf (x : float) : Qc :=
  match Prim2SF x with
  | S754_finite s m e =>
      Q2Qc ((if s then -1 else 1) * inject_Z (Zpos m) * Qpower 2 e)%Q
  | _ => 0
  end.

(** [x || 0] on a number: 0 when [x] is 0 or [NaN]. *)
Definition orZero (x : float) : float :=
  if (PrimFloat.eqb x 0 || PrimFloat.is_nan x)%bool then 0%float else x.

Record WorkSession := mkWorkSession
  { id : string;
    startTime_seconds : Z;
    endTime_seconds : Z;
    focusLevel : float }.

(** The interface declares [previousHours] and [previousFocusLevel]
    optional, yet every object [chartData] pushes carries both as
    numbers; [x!] is [x], and [x || 0] is [x] on hours (0 stays 0) and
    [orZero x] on a focus level.  Only [comparisonDate] can be
    [undefined].  The property [focusLevel] of a bucket is the field
    [p_focusLevel] here, [focusLevel] being taken by the session
    record. *)
Record ChartDataPoint := mkPoint
  { date : Z;
    hours : Qc;
    p_focusLevel : float;
    isToday : bool;
    previousHours : Qc;
    previousFocusLevel : float;
    comparisonDate : option Z }.

Record DateRange := mkDateRange { start : Z; end_ : Z }.

Definition getPreviousPeriodDates (start end_ : Z) : DateRange :=
  let duration := (end_ - start)%Z in
  let previousEnd := (start - 1)%Z in
  let previousStart := (previousEnd - duration)%Z in
  {| start := previousStart; end_ := previousEnd |}.

Definition durationInHours (session : WorkSession) : Qc :=
  Math_round
    (num (endTime_seconds session - startTime_seconds session) / num 36)
  / num 100.

(** [const d = dates.find(p); if (d) { ...mutate d... }] on the array
    of buckets. *)
Fixpoint updateFirst (p : ChartDataPoint -> bool)
    (f : ChartDataPoint -> ChartDataPoint)
    (dates : list ChartDataPoint) : list ChartDataPoint :=
  match dates with
  | [] => []
  | d :: rest => if p d then f d :: rest else d :: updateFirst p f rest
  end.

(** The update both [forEach] bodies apply to a pair of accumulated
    hours and focus level (see [addCurrent_accumulate],
    [addPrevious_accumulate]); [read] is how the body reads the focus
    level accumulated so far. *)
Definition accumulateWith (read : float -> float) (acc : Qc * float)
    (session : WorkSession) : Qc * float :=
  let '(h, F) := acc in
  let d := durationInHours session in
  (Math_round ((h + d) * num 100) / num 100,
   if decide (h = 0) then focusLevel session
   else
     ((read F * toNumber h + focusLevel session * toNumber d)
      / (toNumber h + toNumber d))%float).

Definition accumulate : Qc * float -> WorkSession -> Qc * float :=
  accumulateWith (fun F => F).

Definition accumulatePrevious : Qc * float -> WorkSession -> Qc * float :=
  accumulateWith orZero.

(** The body of the first [forEach], on the bucket found. *)
Definition addCurrent (session : WorkSession)
    (existingDay : ChartDataPoint) : ChartDataPoint :=
  let durationInHours := durationInHours session in
  let focus :=
    if decide (hours existingDay = 0) then focusLevel session
    else
      let totalHours :=
        (toNumber (hours existingDay) + toNumber durationInHours)%float in
      ((p_focusLevel existingDay * toNumber (hours existingDay)
        + focusLevel session * toNumber durationInHours)
       / totalHours)%float in
  {| date := date existingDay;
     hours :=
       Math_round ((hours existingDay + durationInHours) * num 100)
       / num 100;
     p_focusLevel := focus;
     isToday := isToday existingDay;
     previousHours := previousHours existingDay;
     previousFocusLevel := previousFocusLevel existingDay;
     comparisonDate := comparisonDate existingDay |}.

(** The body of the second [forEach], on the bucket found. *)
Definition addPrevious (session : WorkSession)
    (existingDay : ChartDataPoint) : ChartDataPoint :=
  let durationInHours := durationInHours session in
  let focus :=
    if decide (previousHours existingDay = 0) then focusLevel session
    else
      let totalHours :=
        (toNumber (previousHours existingDay)
         + toNumber durationInHours)%float in
      ((orZero (previousFocusLevel existingDay)
        * toNumber (previousHours existingDay)
        + focusLevel session * toNumber durationInHours)
       / totalHours)%float in
  {| date := date existingDay;
     hours := hours existingDay;
     p_focusLevel := p_focusLevel existingDay;
     isToday := isToday existingDay;
     previousHours :=
       Math_round ((previousHours existingDay + durationInHours) * num 100)
       / num 100;
     previousFocusLevel := focus;
     comparisonDate := comparisonDate existingDay |}.

(** Outcome of evaluating a function body. *)
Inductive Completion (A : Type) :=
| Normal (value : A)
| Throw (condition : string).
Arguments Normal {A} value.
Arguments Throw {A} condition.

Inductive SubmitResult :=
| Ignored
| Alerted (message : string)
| RangeSet (range : DateRange).

(** Duration of a session in hundredths of an hour, to the nearest
    one; [durationInHours] is this count over 100
    (see [durationInHours_centi]). *)
Definition centiHours (session : WorkSession) : Z :=
  ((endTime_seconds session - startTime_seconds session + 18) / 36)%Z.

(** Duration of a session in hours, not rounded. *)
Definition exactDurationInHours (session : WorkSession) : Qc :=
  num (endTime_seconds session - startTime_seconds session) / num 3600.

(** A session that does not end before it starts.  For such sessions
    the divisor [totalHours] of the focus update is never zero. *)
Definition nonneg (session : WorkSession) : Prop :=
  (startTime_seconds session <= endTime_seconds session)%Z.

Definition sumQc (l : list Qc) : Qc := fold_right Qcplus 0 l.

Definition centiTotal (l : list WorkSession) : Z :=
  fold_right Z.add 0%Z (map centiHours l).

Definition total (duration : WorkSession -> Qc) (l : list WorkSession)
  : Qc :=
  sumQc (map duration l).

Definition weighted (duration : WorkSession -> Qc)
    (l : list WorkSession) : Qc :=
  sumQc (map (fun s => valueOf (focusLevel s) * duration s) l).

(** Duration-weighted mean of the focus levels of [l], in exact
    arithmetic. *)
Definition weightedMean (duration : WorkSession -> Qc)
    (l : list WorkSession) : Qc :=
  weighted duration l / total duration l.

(** The focus level the running update leaves after the sessions of
    [records], in their order: the first session with hours so far at 0
    sets its own focus level, and each further session of focus level
    [f] and rounded duration [d] replaces [focus] by
    [(focus * hours + f * d) / (hours + d)], computed in binary64,
    [hours] being the sum of the rounded durations so far. *)
Fixpoint runningFocus (hoursSoFar : Qc) (focus : float)
    (records : list WorkSession) : float :=
  match records with
  | [] => focus
  | session :: rest =>
      let d := durationInHours session in
      runningFocus (hoursSoFar + d)
        (if decide (hoursSoFar = 0) then focusLevel session
         else
           ((focus * toNumber hoursSoFar + focusLevel session * toNumber d)
            / (toNumber hoursSoFar + toNumber d))%float)
        rest
  end.

(** The same update in exact arithmetic, on the rationals the focus
    levels are: the reference the binary64 result is rounded from. *)
Fixpoint runningMean (hoursSoFar mean : Qc) (records : list WorkSession)
  : Qc :=
  match records with
  | [] => mean
  | session :: rest =>
      let d := durationInHours session in
      runningMean (hoursSoFar + d)
        (if decide (hoursSoFar = 0) then valueOf (focusLevel session)
         else
           (mean * hoursSoFar + valueOf (focusLevel session) * d)
           / (hoursSoFar + d))
        rest
  end.

Section LocalCalendar.

(** Offset of the owner's zone, in milliseconds east of UTC. *)
Variable tz : Z.

Definition DAY : Z := 86400000.

Definition localDay (t : Z) : Z := ((t + tz) / DAY)%Z.

(** [YYYY-MM-DD] of the local date, as the local day number. *)
Definition getLocalDateString (date : Z) : Z := localDay date.

(** [d.setHours(0, 0, 0, 0)] *)
Definition startOfDay (t : Z) : Z := (localDay t * DAY - tz)%Z.

(** [d.setHours(23, 59, 59, 999)] *)
Definition endOfDay (t : Z) : Z :=
  (localDay t * DAY + (DAY - 1) - tz)%Z.

(** [d.setDate(d.getDate() + 1)] *)
Definition nextDate (t : Z) : Z := (t + DAY)%Z.

Section ChartData.

Variable sessions : list WorkSession.
Variable dateRange : DateRange.
Variable showComparison : bool.
(** [new Date()] at the time of the call. *)
Variable now : Z.

Definition previousPeriod : option DateRange :=
  if showComparison
  then Some (getPreviousPeriodDates (start dateRange) (end_ dateRange))
  else None.

(** The object pushed for [currentDate]. *)
Definition newPoint (currentDate : Z) : ChartDataPoint :=
  let today := startOfDay now in
  let isToday := (localDay currentDate =? localDay today)%Z in
  let dateStr := getLocalDateString currentDate in
  let comparisonDate :=
    match previousPeriod with
    | Some _ =>
        let comparisonTime :=
          (currentDate - (end_ dateRange - start dateRange))%Z in
        Some (getLocalDateString comparisonTime)
    | None => None
    end in
  {| date := dateStr;
     hours := 0;
     p_focusLevel := 0%float;
     isToday := isToday;
     previousHours := 0;
     previousFocusLevel := 0%float;
     comparisonDate := comparisonDate |}.

(** [while (currentDate <= rangeEndDate) { push; next day }], at
    most [fuel] iterations. *)
Fixpoint datesLoop (fuel : nat) (currentDate : Z)
  : list ChartDataPoint :=
  match fuel with
  | O => []
  | S fuel' =>
      if (currentDate <=? end_ dateRange)%Z
      then newPoint currentDate :: datesLoop fuel' (nextDate currentDate)
      else []
  end.

(** A number of iterations after which the loop condition has
    failed (see [datesLoop_fuel]). *)
Definition loopBound : nat :=
  Z.to_nat ((end_ dateRange - start dateRange) / DAY + 1).

Definition dates0 : list ChartDataPoint :=
  datesLoop loopBound (start dateRange).

Definition rangeStart : Z := startOfDay (start dateRange).
Definition rangeEnd : Z := endOfDay (end_ dateRange).

Definition sessionDate (session : WorkSession) : Z :=
  (startTime_seconds session * 1000)%Z.

Definition filteredSessions : list WorkSession :=
  List.filter
    (fun session =>
       (rangeStart <=? sessionDate session)%Z
       && (sessionDate session <=? rangeEnd)%Z)
    sessions.

Definition processCurrent (dates : list ChartDataPoint)
    (session : WorkSession) : list ChartDataPoint :=
  let dateStr := getLocalDateString (sessionDate session) in
  updateFirst (fun d => (date d =? dateStr)%Z) (addCurrent session)
    dates.

Definition previousSessions (previousPeriod : DateRange)
  : list WorkSession :=
  List.filter
    (fun session =>
       (start previousPeriod <=? sessionDate session)%Z
       && (sessionDate session <=? end_ previousPeriod)%Z)
    sessions.

Definition targetDate (previousPeriod : DateRange)
    (session : WorkSession) : Z :=
  (sessionDate session + (end_ dateRange - end_ previousPeriod))%Z.

Definition processPrevious (previousPeriod : DateRange)
    (dates : list ChartDataPoint) (session : WorkSession)
  : list ChartDataPoint :=
  let targetDateStr :=
    getLocalDateString (targetDate previousPeriod session) in
  updateFirst (fun d => (date d =? targetDateStr)%Z)
    (addPrevious session) dates.

Definition chartData_range : list ChartDataPoint :=
  let dates := dates0 in
  let dates := fold_left processCurrent filteredSessions dates in
  match previousPeriod with
  | Some previousPeriod =>
      fold_left (processPrevious previousPeriod)
        (previousSessions previousPeriod) dates
  | None => dates
  end.

End ChartData.

(** The instants the loop of [chartData] visits, and their local
    days. *)
Definition visited (dateRange : DateRange) : list Z :=
  map (fun k => (start dateRange + Z.of_nat k * DAY)%Z)
    (seq 0 (loopBound dateRange)).

Definition enumeratedDays (dateRange : DateRange) : list Z :=
  map (fun k => (localDay (start dateRange) + Z.of_nat k)%Z)
    (seq 0 (loopBound dateRange)).

(** The sessions of [l] that start on local day [k]. *)
Definition attributed (k : Z) (l : list WorkSession)
  : list WorkSession :=
  List.filter
    (fun s => (getLocalDateString (sessionDate s) =? k)%Z) l.

(** The previous-period sessions of [l] whose target date is local
    day [k]. *)
Definition attributedPrevious (dateRange previousPeriod : DateRange)
    (k : Z) (l : list WorkSession) : list WorkSession :=
  List.filter
    (fun s =>
       (getLocalDateString (targetDate dateRange previousPeriod s)
        =? k)%Z) l.

(** One [forEach] step as seen from a single bucket. *)
Definition stepCurrent (b : ChartDataPoint) (s : WorkSession)
  : ChartDataPoint :=
  if (date b =? getLocalDateString (sessionDate s))%Z
  then addCurrent s b else b.

Definition stepPrevious (dateRange previousPeriod : DateRange)
    (b : ChartDataPoint) (s : WorkSession) : ChartDataPoint :=
  if (date b
      =? getLocalDateString (targetDate dateRange previousPeriod s))%Z
  then addPrevious s b else b.

(** What the two passes make of the bucket pushed as [b0]. *)
Definition finalBucket (sessions : list WorkSession)
    (dateRange : DateRange) (showComparison : bool)
    (b0 : ChartDataPoint) : ChartDataPoint :=
  let b :=
    fold_left stepCurrent (filteredSessions sessions dateRange) b0 in
  match previousPeriod dateRange showComparison with
  | Some previousPeriod =>
      fold_left (stepPrevious dateRange previousPeriod)
        (previousSessions sessions previousPeriod) b
  | None => b
  end.

(** Time of day of an instant on the local clock, in milliseconds. *)
Definition timeOfDay (t : Z) : Z := ((t + tz) mod DAY)%Z.

(** The local days from that of [start] to that of [end_]. *)
Definition calendarDays (start end_ : Z) : list Z :=
  map (fun k => (localDay start + Z.of_nat k)%Z)
    (seq 0 (Z.to_nat (localDay end_ - localDay start + 1))).

(** Step 3 of the specified algorithm applied to a window: the
    records whose start lies between the start of the window's first
    day and the end of its last day. *)
Definition filterNormalized (window : DateRange)
    (l : list WorkSession) : list WorkSession :=
  List.filter
    (fun session =>
       (startOfDay (start window) <=? sessionDate session)%Z
       && (sessionDate session <=? endOfDay (end_ window))%Z) l.

(** The [useMemo] callback; [dateRange] is [null] while the custom
    range entry of [DATE_RANGES] is selected. *)
Definition chartData (sessions : list WorkSession)
    (dateRange : option DateRange) (showComparison : bool) (now : Z)
  : list ChartDataPoint :=
  match dateRange with
  | None => []
  | Some dateRange => chartData_range sessions dateRange showComparison now
  end.

(** The callback has no [throw] statement and calls nothing that
    throws: it always completes normally with the array. *)
Definition chartData_completion (sessions : list WorkSession)
    (dateRange : option DateRange) (showComparison : bool) (now : Z)
  : Completion (list ChartDataPoint) :=
  Normal (chartData sessions dateRange showComparison now).

(** The callback reports a condition to its caller. *)
Definition reports (c : Completion (list ChartDataPoint)) : Prop :=
  exists condition, c = Throw condition.

(** What a consumer of a returned bucket reads as its weighted
    quality score: the [focusLevel] property, which every bucket
    carries as a number ([None] stands for [undefined]). *)
Definition weightedQualityScore (b : ChartDataPoint) : option float :=
  Some (p_focusLevel b).

(** [handleCustomRangeSubmit].  The two form fields hold either the
    empty string ([None]) or a date [YYYY-MM-DD], which [new Date]
    reads as midnight UTC of that day (given here by its day
    number). *)
Definition handleCustomRangeSubmit
    (customStartDate customEndDate : option Z) : SubmitResult :=
  match customStartDate, customEndDate with
  | Some ds, Some de =>
      let start := startOfDay (ds * DAY) in
      let end_ := endOfDay (de * DAY) in
      if (start >? end_)%Z
      then Alerted "Start date must be before end date"
      else RangeSet {| start := start; end_ := end_ |}
  | _, _ => Ignored
  end.

End LocalCalendar.

End Analytics.

(* ------------------------------------------------------------------ *)
(** ** [App.tsx]: saving a session from the form *)

Module App.

Import TimeUtils.

(** [Timestamp.fromDate(date)]: whole seconds and the remaining
    milliseconds as nanoseconds. *)
Definition Timestamp_fromDate (ms : Z) : TimeValue :=
  TimestampV (ms / 1000) (ms mod 1000 * 1000000).

Inductive Outcome :=
| NotSignedIn
| OverlapAlert
| Saved
| SaveFailed.

Definition updateTimes (id : string) (startTime endTime : TimeValue)
    (doc : SessionDoc) : SessionDoc :=
  if String.eqb (doc_id doc) id
  then {| doc_id := doc_id doc;
          doc_userId := doc_userId doc;
          doc_startTime := startTime;
          doc_endTime := endTime |}
  else doc.

(** [updateDoc(doc(db, 'workSessions', id), {...})]: rewrites the fields
    of the document with that id, and throws when there is none. *)
Definition updateDoc (workSessions : list SessionDoc) (id : string)
    (startTime endTime : TimeValue) : option (list SessionDoc) :=
  if existsb (fun doc => String.eqb (doc_id doc) id) workSessions
  then Some (map (updateTimes id startTime endTime) workSessions)
  else None.

(** [addDoc(collection(db, 'workSessions'), {...})]: a new document under
    the id [newId] that the store generates. *)
Definition addDoc (workSessions : list SessionDoc) (newId userId : string)
    (startTime endTime : TimeValue) : list SessionDoc :=
  workSessions ++ [mkSessionDoc newId userId startTime endTime].

(** [handleStartSession], on the [workSessions] collection.  [user] is
    the signed-in user's uid, [editingSession] the id of the session
    being edited, if any; reading and writing the store are taken to
    succeed except where a document is missing. *)
Definition handleStartSession (user : option string)
    (editingSession : option string) (newId : string)
    (data_startTime data_endTime : Z) (workSessions : list SessionDoc)
  : Outcome * list SessionDoc :=
  match user with
  | None => (NotSignedIn, workSessions)
  | Some uid =>
      let hasOverlap :=
        checkForSessionOverlap workSessions uid data_startTime data_endTime
          editingSession in
      if hasOverlap then (OverlapAlert, workSessions)
      else
        match editingSession with
        | Some id =>
            match updateDoc workSessions id
                    (Timestamp_fromDate data_startTime)
                    (Timestamp_fromDate data_endTime) with
            | Some workSessions' => (Saved, workSessions')
            | None => (SaveFailed, workSessions)
            end
        | None =>
            (Saved,
             addDoc workSessions newId uid
               (Timestamp_fromDate data_startTime)
               (Timestamp_fromDate data_endTime))
        end
  end.

(** No two different documents of user [v] overlap: the half-open
    intervals of the instants stored have no instant in common. *)
Definition apart (v : string) (workSessions : list SessionDoc) : Prop :=
  forall d d',
    In d workSessions -> In d' workSessions ->
    doc_id d <> doc_id d' ->
    doc_userId d = v -> doc_userId d' = v ->
    ~ half_open (rangeOf d) (rangeOf d').

Definition isTimestamp (t : TimeValue) : Prop :=
  match t with
  | TimestampV _ _ => True
  | DateV _ => False
  end.

(** A Timestamp on a whole second, as [Timestamp.fromDate] makes it of a
    [Date] on a whole second. *)
Definition secondTimestamp (t : TimeValue) : Prop :=
  match t with
  | TimestampV _ nanoseconds => nanoseconds = 0
  | DateV _ => False
  end.

(** The collection as the writers of the application keep it: ids are
    unique and times are Timestamps on whole seconds (the form and the
    sample data generator write whole minutes). *)
Definition wellKept (workSessions : list SessionDoc) : Prop :=
  List.NoDup (map doc_id workSessions)
  /\ List.Forall
       (fun d =>
          secondTimestamp (doc_startTime d)
          /\ secondTimestamp (doc_endTime d))
       workSessions.

End App.

(* ------------------------------------------------------------------ *)
(** ** [components/WorkSessionForm.tsx]: the two time fields *)

Module WorkSessionForm.

Inductive SubmitResult :=
| InvalidDates
| EndNotAfterStart
| ProjectNotCreated
| Submitted (startTime endTime : Z) (project : string).

Section LocalClock.

(** Offset of the local zone, in milliseconds east of UTC. *)
Variable tz : Z.

Definition MINUTE : Z := 60000.

(** [formatDateTimeForInput]: the text [YYYY-MM-DDTHH:mm] of the local
    date and time of [date].  Such texts are in one-to-one
    correspondence with the minutes of the local clock, and the model
    takes the number of the minute for the text. *)
Definition formatDateTimeForInput (date : Z) : Z := (date + tz) / MINUTE.

(** [parseInputToDate]: [new Date(value)] reads the text as a local
    date and time; a field whose text is no date ([None]) makes it throw
    ['Invalid date']. *)
Definition parseInputToDate (value : option Z) : option Z :=
  match value with
  | Some minute => Some (minute * MINUTE - tz)
  | None => None
  end.

(** The [useEffect] that fills the two fields: from the session being
    edited (its start and end seconds), or from the clock. *)
Definition initialFields (initialData : option (Z * Z)) (now : Z)
  : option Z * option Z :=
  match initialData with
  | Some (startSeconds, endSeconds) =>
      let start := startSeconds * 1000 in
      let end_ := endSeconds * 1000 in
      (Some (formatDateTimeForInput start),
       Some (formatDateTimeForInput end_))
  | None =>
      (Some (formatDateTimeForInput now), Some (formatDateTimeForInput now))
  end.

(** [handleSubmit].  [newProject] is [None] unless a project is created
    on the way, and then holds the id [addDoc] returned, or [None] when
    it threw. *)
Definition handleSubmit (startTime endTime : option Z)
    (selectedProject : string) (newProject : option (option string))
  : SubmitResult :=
  match parseInputToDate startTime, parseInputToDate endTime with
  | Some parsedStartTime, Some parsedEndTime =>
      if parsedEndTime <=? parsedStartTime then EndNotAfterStart
      else
        match newProject with
        | Some (Some id) => Submitted parsedStartTime parsedEndTime id
        | Some None => ProjectNotCreated
        | None => Submitted parsedStartTime parsedEndTime selectedProject
        end
  | _, _ => InvalidDates
  end.

End LocalClock.

End WorkSessionForm.

(* ------------------------------------------------------------------ *)
(** ** [components/AnalyticsPage.tsx]: choosing the window *)

Module DateRanges.

Import Analytics.

Section Calendar.

(** Day of the month of an instant on the local calendar
    ([Date.prototype.getDate]). *)
Variable getDate : Z -> Z.

(** [d.setDate(n)]: the same month and time of day, on day [n] of the
    month, days outside the month running over into its neighbours:
    [n - d.getDate()] whole days away from [d]. *)
Definition setDate (d n : Z) : Z := d + (n - getDate d) * DAY.

(** The entry 'Last 7 Days' of [DATE_RANGES], with its two readings of
    the clock, [new Date()] for [end] and then for [start]. *)
Definition last7Days (end_ start : Z) : DateRange :=
  {| start := setDate start (getDate end_ - 6); end_ := end_ |}.

(** The entry 'Last 30 Days'. *)
Definition last30Days (end_ start : Z) : DateRange :=
  {| start := setDate start (getDate end_ - 29); end_ := end_ |}.

(** [d.toISOString().split('T')[0]]: the date of [d] in UTC, as the
    number of the day. *)
Definition isoDate (d : Z) : Z := d / DAY.

(** [handleDateRangeClick] on the entry 'Custom Range': the texts put
    into [customStartDate] and [customEndDate].  [now] and [defaultStart]
    are its two readings of the clock. *)
Definition customRangeFields (dateRange : option DateRange)
    (now defaultStart : Z) : Z * Z :=
  let defaultStart := setDate defaultStart (getDate now - 7) in
  (isoDate (match dateRange with
            | Some range => start range
            | None => defaultStart
            end),
   isoDate (match dateRange with
            | Some range => end_ range
            | None => now
            end)).

End Calendar.

End DateRanges.

(* ------------------------------------------------------------------ *)
(** ** [components/WorkSessionLog.tsx]: the log grouped by day *)

Module WorkSessionLog.

(** A session of the log, reduced to the fields read here. *)
Record WorkSession := mkWorkSession
  { id : string;
    startTime_seconds : Z;
    endTime_seconds : Z }.

(** The text [calculateDuration] returns, by its three templates:
    [N minute(s)], [H hour(s)] and [H hour(s) M minute(s)], each number
    with the flag that adds the plural [s]. *)
Inductive DurationText :=
| MinutesText (minutes : Z) (plural : bool)
| HoursText (hours : Z) (plural : bool)
| HoursMinutesText (hours : Z) (hoursPlural : bool)
    (minutes : Z) (minutesPlural : bool).

(** [Math.round(n / 60)] on whole numbers (see [roundDiv60_Math_round]). *)
Definition roundDiv60 (n : Z) : Z := (2 * n + 60) / (2 * 60).

Definition calculateDuration (start end_ : Z) : DurationText :=
  let diffInMinutes := roundDiv60 (end_ - start) in
  if diffInMinutes <? 60
  then MinutesText diffInMinutes (negb (diffInMinutes =? 1))
  else
    let hours := diffInMinutes / 60 in
    let minutes := Z.rem diffInMinutes 60 in
    if minutes =? 0
    then HoursText hours (negb (hours =? 1))
    else HoursMinutesText hours (negb (hours =? 1))
           minutes (negb (minutes =? 1)).

(** The minutes a duration text stands for. *)
Definition minutesOf (text : DurationText) : Z :=
  match text with
  | MinutesText m _ => m
  | HoursText h _ => h * 60
  | HoursMinutesText h _ m _ => h * 60 + m
  end.

(** The object [groupedSessions]: its keys in insertion order, each
    with its array. *)
Definition GroupedSessions : Type := list (Z * list WorkSession).

(** [if (!acc[date]) acc[date] = []; acc[date].push(session)] *)
Fixpoint pushTo (date : Z) (session : WorkSession) (acc : GroupedSessions)
  : GroupedSessions :=
  match acc with
  | [] => [(date, [session])]
  | (key, group) :: rest =>
      if key =? date then (key, group ++ [session]) :: rest
      else (key, group) :: pushTo date session rest
  end.

(** [acc[date]], the empty array standing for a missing key. *)
Fixpoint groupOf (date : Z) (acc : GroupedSessions) : list WorkSession :=
  match acc with
  | [] => []
  | (key, group) :: rest =>
      if key =? date then group else groupOf date rest
  end.

(** [updatedGrouped[date] = group] *)
Fixpoint assign (date : Z) (group : list WorkSession)
    (acc : GroupedSessions) : GroupedSessions :=
  match acc with
  | [] => [(date, group)]
  | (key, g) :: rest =>
      if key =? date then (key, group) :: rest
      else (key, g) :: assign date group rest
  end.

(** [delete updatedGrouped[date]] *)
Definition deleteKey (date : Z) (acc : GroupedSessions) : GroupedSessions :=
  List.filter (fun entry => negb (fst entry =? date)) acc.

Section LocalCalendar.

(** Offset of the local zone, in milliseconds east of UTC. *)
Variable tz : Z.

(** The text [toLocaleDateString('en-US', {weekday, year, month, day})]
    gives for the start of a session, as the number of the local day. *)
Definition dateOf (session : WorkSession) : Z :=
  Analytics.localDay tz (startTime_seconds session * 1000).

(** The [reduce] that groups the sessions by date. *)
Definition groupSessions (sessionData : list WorkSession)
  : GroupedSessions :=
  fold_left (fun acc session => pushTo (dateOf session) session acc)
    sessionData [].

End LocalCalendar.

Definition keepSession (sessionId : string) (session : WorkSession) : bool :=
  negb (String.eqb (id session) sessionId).

(** [handleDelete], after [deleteDoc]: the new [sessions] ... *)
Definition updatedSessions (sessionId : string)
    (sessions : list WorkSession) : list WorkSession :=
  List.filter (keepSession sessionId) sessions.

(** ... and the new [groupedSessions]. *)
Definition updatedGrouped (sessionId : string)
    (groupedSessions : GroupedSessions) : GroupedSessions :=
  fold_left
    (fun updatedGrouped date =>
       let group :=
         List.filter (keepSession sessionId) (groupOf date updatedGrouped) in
       let updatedGrouped := assign date group updatedGrouped in
       if (length group =? 0)%nat then deleteKey date updatedGrouped
       else updatedGrouped)
    (map fst groupedSessions) groupedSessions.

(** Most recent first, as the query orders the sessions. *)
Definition newestFirst (sessions : list WorkSession) : Prop :=
  StronglySorted
    (fun a b => startTime_seconds b <= startTime_seconds a) sessions.

End WorkSessionLog.

(* ------------------------------------------------------------------ *)
(** ** [components/ProjectPanel.tsx]: the duration of a session *)

Module ProjectPanel.

(** [Nm], [Hh] or [Hh Mm]. *)
Inductive DurationText :=
| MinutesText (minutes : Z)
| HoursText (hours : Z)
| HoursMinutesText (hours minutes : Z).

Definition calculateDuration (start end_ : Z) : DurationText :=
  let hours := (end_ - start) / 3600 in
  let minutes := Z.rem (end_ - start) 3600 / 60 in
  if hours =? 0 then MinutesText minutes
  else if minutes =? 0 then HoursText hours
       else HoursMinutesText hours minutes.

Definition minutesOf (text : DurationText) : Z :=
  match text with
  | MinutesText m => m
  | HoursText h => h * 60
  | HoursMinutesText h m => h * 60 + m
  end.

End ProjectPanel.

(* ------------------------------------------------------------------ *)
(** ** The grouped log, in closed form *)

Module GroupedLog.
Import WorkSessionLog.

(** Keys strictly descending, as a newest-first list yields them. *)
Definition descending (keys : list Z) : Prop :=
  StronglySorted (fun a b => b < a) keys.

(** What the [forEach] of [handleDelete] computes, said at once: every
    group filtered, the groups left empty dropped. *)
Definition filteredGroups (sessionId : string) (G : GroupedSessions)
  : GroupedSessions :=
  List.filter (fun entry => negb (length (snd entry) =? 0)%nat)
    (map (fun entry =>
            (fst entry, List.filter (keepSession sessionId) (snd entry)))
       G).

End GroupedLog.

(* ------------------------------------------------------------------ *)
(** ** User profiles, friend requests and usernames *)
(** [UserProfile] of [types/User.ts], [sendFriendRequest] of
    [components/UserSearch.tsx], [acceptFriendRequest] and
    [rejectFriendRequest] of [components/FriendsList.tsx], [handleSubmit]
    of [components/UsernameSetup.tsx] *)

Module Friends.

Record FriendRequests := mkFriendRequests
  { incoming : list string;
    outgoing : list string }.

Record PrivacySettings := mkPrivacySettings
  { showWorkSessions : bool;
    showFocusStats : bool;
    showProjects : bool }.

(** The document of a user, [UserProfile] without the field of the
    search page's own state. *)
Record UserProfile := mkUserProfile
  { id : string;
    email : string;
    username : string;
    displayName : option string;
    createdAt : Z;
    friends : list string;
    friendRequests : FriendRequests;
    privacySettings : PrivacySettings }.

(** The collection [users], by document id. *)
Abbreviation Users := (gmap string UserProfile).

(** [arrayUnion(x)]: [x] is added unless the array holds it. *)
Definition arrayUnion (x : string) (array : list string) : list string :=
  if existsb (String.eqb x) array then array else array ++ [x].

(** [arrayRemove(x)]: every [x] is taken out. *)
Definition arrayRemove (x : string) (array : list string) : list string :=
  List.filter (fun y => negb (String.eqb y x)) array.

(** [isOwner(userId)] of [firestore.rules]: the request is made by a
    signed-in user, and that user is [userId]. *)
Definition isOwner (auth : option string) (userId : string) : bool :=
  match auth with
  | Some uid => String.eqb uid userId
  | None => false
  end.

(** [updateDoc(doc(db, 'users', key), ...)] by the user [auth].  The
    rules of the repository allow a write to [users/{userId}] only if
    [isOwner(userId)]; an allowed update is still refused when there is
    no such document. *)
Definition updateDoc (auth : option string) (key : string)
    (update : UserProfile -> UserProfile) (users : Users) : option Users :=
  if isOwner auth key
  then match users !! key with
       | Some profile => Some (<[key := update profile]> users)
       | None => None
       end
  else None.

(** [setDoc(doc(db, 'users', key), profile)] by the user [auth]: under
    the same rule, written whether or not the document exists. *)
Definition setDoc (auth : option string) (key : string)
    (profile : UserProfile) (users : Users) : option Users :=
  if isOwner auth key then Some (<[key := profile]> users) else None.

(** How the [try] of a handler ends, with the collection as it is then:
    at its last statement, at an early [return], or in its [catch]. *)
Inductive Outcome :=
| Completed (users : Users)
| Returned (users : Users)
| Caught (users : Users).

Definition stored (outcome : Outcome) : Users :=
  match outcome with
  | Completed users | Returned users | Caught users => users
  end.

(** The four updates of the request fields. *)
Definition addOutgoing (target : string) (p : UserProfile) : UserProfile :=
  {| id := id p; email := email p; username := username p;
     displayName := displayName p; createdAt := createdAt p;
     friends := friends p;
     friendRequests :=
       {| incoming := incoming (friendRequests p);
          outgoing := arrayUnion target (outgoing (friendRequests p)) |};
     privacySettings := privacySettings p |}.

Definition addIncoming (sender : string) (p : UserProfile) : UserProfile :=
  {| id := id p; email := email p; username := username p;
     displayName := displayName p; createdAt := createdAt p;
     friends := friends p;
     friendRequests :=
       {| incoming := arrayUnion sender (incoming (friendRequests p));
          outgoing := outgoing (friendRequests p) |};
     privacySettings := privacySettings p |}.

Definition removeIncoming (sender : string) (p : UserProfile)
  : UserProfile :=
  {| id := id p; email := email p; username := username p;
     displayName := displayName p; createdAt := createdAt p;
     friends := friends p;
     friendRequests :=
       {| incoming := arrayRemove sender (incoming (friendRequests p));
          outgoing := outgoing (friendRequests p) |};
     privacySettings := privacySettings p |}.

Definition removeOutgoing (target : string) (p : UserProfile)
  : UserProfile :=
  {| id := id p; email := email p; username := username p;
     displayName := displayName p; createdAt := createdAt p;
     friends := friends p;
     friendRequests :=
       {| incoming := incoming (friendRequests p);
          outgoing := arrayRemove target (outgoing (friendRequests p)) |};
     privacySettings := privacySettings p |}.

Definition addFriend (friend : string) (p : UserProfile) : UserProfile :=
  {| id := id p; email := email p; username := username p;
     displayName := displayName p; createdAt := createdAt p;
     friends := arrayUnion friend (friends p);
     friendRequests := friendRequests p;
     privacySettings := privacySettings p |}.

(** [sendFriendRequest] of the search page, for the signed-in user
    [uid]: the sender's document first, then the target's. *)
Definition sendFriendRequest (uid targetUserId : string) (users : Users)
  : Outcome :=
  match updateDoc (Some uid) uid (addOutgoing targetUserId) users with
  | None => Caught users
  | Some users =>
      match updateDoc (Some uid) targetUserId (addIncoming uid) users with
      | None => Caught users
      | Some users => Completed users
      end
  end.

(** [acceptFriendRequest] of the friends list, for the signed-in user
    [uid]. *)
Definition acceptFriendRequest (uid friendId : string) (users : Users)
  : Outcome :=
  match
    updateDoc (Some uid) uid
      (fun p => removeIncoming friendId (addFriend friendId p)) users
  with
  | None => Caught users
  | Some users =>
      match
        updateDoc (Some uid) friendId
          (fun p => removeOutgoing uid (addFriend uid p)) users
      with
      | None => Caught users
      | Some users => Completed users
      end
  end.

(** [rejectFriendRequest] of the friends list. *)
Definition rejectFriendRequest (uid friendId : string) (users : Users)
  : Outcome :=
  match updateDoc (Some uid) uid (removeIncoming friendId) users with
  | None => Caught users
  | Some users =>
      match updateDoc (Some uid) friendId (removeOutgoing uid) users with
      | None => Caught users
      | Some users => Completed users
      end
  end.

(** No two documents carry the same username. *)
Definition uniqueUsernames (users : Users) : Prop :=
  forall key1 key2 p1 p2,
    users !! key1 = Some p1 -> users !! key2 = Some p2 ->
    username p1 = username p2 -> key1 = key2.

Section UsernameSetup.

(** [String.prototype.toLowerCase]. *)
Variable toLowerCase : string -> string.

(** [query(collection(db, 'users'), where('username', '==', name))] *)
Definition usernameSnapshot (name : string) (users : Users)
  : list (string * UserProfile) :=
  List.filter (fun entry => String.eqb (username (snd entry)) name)
    (map_to_list users).

(** [handleSubmit] of the username page, for the signed-in user with
    the given [uid], [email] and [displayName], at the time [now]. *)
Definition handleSubmit (uid userEmail : string)
    (userDisplayName : option string) (now : Z) (name : string)
    (users : Users) : Outcome :=
  let usernameSnapshot := usernameSnapshot (toLowerCase name) users in
  if negb (length usernameSnapshot =? 0)%nat then Returned users
  else
    match
      setDoc (Some uid) uid
        {| id := uid;
           email := userEmail;
           username := toLowerCase name;
           displayName := userDisplayName;
           createdAt := now;
           friends := [];
           friendRequests := {| incoming := []; outgoing := [] |};
           privacySettings :=
             {| showWorkSessions := true;
                showFocusStats := true;
                showProjects := true |} |}
        users
    with
    | Some users => Completed users
    | None => Caught users
    end.

End UsernameSetup.

End Friends.

(* ------------------------------------------------------------------ *)
(** ** [components/DayCalendar.tsx]: the day calendar beside the log *)
(** With the filter that feeds it in [components/WorkSessionLog.tsx]. *)

Module DayCalendar.
Import WorkSessionLog.

Section LocalCalendar.

(** Offset of the local zone, in milliseconds east of UTC. *)
Variable tz : Z.

(** [Date.prototype.getHours] and [getMinutes], of an instant in
    milliseconds. *)
Definition getHours (t : Z) : Z :=
  ((t + tz) mod Analytics.DAY) / 3600000.

Definition getMinutes (t : Z) : Z :=
  ((t + tz) mod 3600000) / 60000.

(** [new Date(date).setHours(hour, 0, 0, 0)] *)
Definition setHours (date hour : Z) : Z :=
  Analytics.localDay tz date * Analytics.DAY - tz + hour * 3600000.

(** The sessions handed to the calendar: those whose start has the day,
    month and year of the selected date. *)
Definition shownSessions (selectedDate : Z) (sessions : list WorkSession)
  : list WorkSession :=
  List.filter
    (fun session =>
       Analytics.localDay tz (startTime_seconds session * 1000)
       =? Analytics.localDay tz selectedDate)
    sessions.

(** [for (let hour = 6; hour <= 23; hour++) slots.push(...)] *)
Definition timeSlots (date : Z) : list Z :=
  map (fun hour => setHours date (Z.of_nat hour)) (seq 6 18).

(** [top] of the line of a slot, in pixels. *)
Definition slotTop (time : Z) : Z := (getHours time - 6) * 60.

(** [startMinutes] and [durationMinutes] of a block: its [top] and
    [height], in pixels. *)
Definition startMinutes (session : WorkSession) : Z :=
  let startTime := startTime_seconds session * 1000 in
  (getHours startTime - 6) * 60 + getMinutes startTime.

Definition durationMinutes (session : WorkSession) : Qc :=
  let startTime := startTime_seconds session * 1000 in
  let endTime := endTime_seconds session * 1000 in
  (Analytics.num (endTime - startTime) / Analytics.num (1000 * 60))%Qc.

(** [top] and [height] of [sessionBlocks], in percent of the 17 hours. *)
Definition totalMinutes : Z := 17 * 60.

Definition sessionBlocks (sessions : list WorkSession)
  : list (WorkSession * Qc * Qc) :=
  map
    (fun session =>
       let top :=
         (Analytics.num (startMinutes session) / Analytics.num totalMinutes
          * Analytics.num 100)%Qc in
       let height :=
         (durationMinutes session / Analytics.num totalMinutes
          * Analytics.num 100)%Qc in
       (session, top, height))
    sessions.

End LocalCalendar.

End DayCalendar.

(* ------------------------------------------------------------------ *)
(** ** Facts about the overlap checks *)

Module TimeUtilsFacts.
Import TimeUtils.

Lemma instant_toDate (t : TimeValue) :
  whole_second t -> instant t = toDate t * 1000000.
Proof. destruct t as [ms|seconds n]; cbn; [reflexivity|]. intros ->. lia. Qed.

(** What the code compares, whatever the time values. *)
Lemma hasOverlap_toDate_test (r1 r2 : TimeRange) :
  hasOverlap r1 r2 = true
  <-> toDate (startTime r1) < toDate (endTime r2)
      /\ toDate (startTime r2) < toDate (endTime r1).
Proof.
  unfold hasOverlap. rewrite andb_true_iff, !Z.ltb_lt. reflexivity.
Qed.

Lemma hasOverlap_true (r1 r2 : TimeRange) :
  whole_seconds r1 -> whole_seconds r2 ->
  hasOverlap r1 r2 = true <-> half_open r1 r2.
Proof.
  intros [Hs1 He1] [Hs2 He2].
  rewrite hasOverlap_toDate_test. unfold half_open.
  rewrite !instant_toDate by assumption. lia.
Qed.

Lemma hasOverlap_false (r1 r2 : TimeRange) :
  whole_seconds r1 -> whole_seconds r2 ->
  hasOverlap r1 r2 = false <-> ~ half_open r1 r2.
Proof.
  intros H1 H2. rewrite <- (hasOverlap_true r1 r2 H1 H2).
  destruct (hasOverlap r1 r2); split; intros.
  - discriminate.
  - exfalso; auto.
  - discriminate.
  - reflexivity.
Qed.

Lemma keepDoc_excluded (x : string) (doc : SessionDoc) :
  truthy (Some x) = true ->
  keepDoc (Some x) doc = negb (String.eqb (doc_id doc) x).
Proof. unfold keepDoc. intros ->. reflexivity. Qed.

Lemma keepDoc_true_neq (x : string) (doc : SessionDoc) :
  truthy (Some x) = true ->
  keepDoc (Some x) doc = true <-> doc_id doc <> x.
Proof.
  intros Hx. rewrite (keepDoc_excluded _ _ Hx), negb_true_iff.
  rewrite <- String.eqb_neq. reflexivity.
Qed.

Lemma sessions_differ_only_at (x userId : string)
    (ws ws' : list SessionDoc) :
  truthy (Some x) = true ->
  Forall2 (differ_only_at x) ws ws' ->
  List.filter (keepDoc (Some x)) (getDocs ws userId)
  = List.filter (keepDoc (Some x)) (getDocs ws' userId).
Proof.
  intros Hx HF. unfold getDocs.
  induction HF as [|d d' l l' (Hid & Hu & Hsame) _ IH]; [reflexivity|].
  cbn [List.filter]. rewrite <- Hu.
  destruct (String.eqb (doc_userId d) userId); [|exact IH].
  cbn [List.filter].
  rewrite !(keepDoc_excluded _ _ Hx), <- Hid.
  destruct (String.eqb (doc_id d) x) eqn:E; cbn [negb].
  - exact IH.
  - apply String.eqb_neq in E. rewrite <- (Hsame E), IH. reflexivity.
Qed.

Lemma timestamp_fraction_is_dropped :
  let candidate := {| startTime := DateV 1000; endTime := DateV 1500 |} in
  let existing :=
    {| startTime := TimestampV 1 600000000; endTime := TimestampV 2 0 |} in
  let inner := {| startTime := DateV 100200; endTime := DateV 100500 |} in
  let outer :=
    {| startTime := TimestampV 100 0;
       endTime := TimestampV 100 900000000 |} in
  (well_formed candidate /\ well_formed existing
   /\ hasOverlap candidate existing = true
   /\ ~ half_open candidate existing)
  /\ (well_formed inner /\ well_formed outer
      /\ half_open inner outer
      /\ hasOverlap inner outer = false).
Proof.
  cbv zeta. unfold well_formed, half_open. cbn.
  repeat split; try lia; try reflexivity.
Qed.

(** C1, as the code has it.  A [Timestamp] is read at its whole second.
    For ranges whose Timestamps are on whole seconds, the pairwise test
    of [hasOverlap] is the half-open intersection test
    [s1 < e2 /\ s2 < e1] on the instants of the ranges;
    [checkForSessionOverlap] answers [true] exactly when some session it
    tests meets the candidate under that test, and [false] when there is
    none to test.  For well-formed ranges, a candidate ending where the
    existing range starts, or starting where it ends, does not overlap
    it, while a candidate sharing its start, contained in it, or
    identical to it does. *)
Theorem hasOverlap_half_open_on_whole_seconds
    (candidate existing : TimeRange)
    (workSessions : list SessionDoc) (userId : string)
    (excludeSessionId : option string) (s e : Z) :
  well_formed candidate ->
  well_formed existing ->
  whole_seconds candidate ->
  whole_seconds existing ->
  Forall (fun session => whole_seconds (rangeOf session)) workSessions ->
  (hasOverlap candidate existing = true <-> half_open candidate existing)
  /\ (checkForSessionOverlap workSessions userId s e excludeSessionId = true
      <-> exists session,
            In session (getDocs workSessions userId)
            /\ keepDoc excludeSessionId session = true
            /\ half_open {| startTime := DateV s; endTime := DateV e |}
                 (rangeOf session))
  /\ (List.filter (keepDoc excludeSessionId) (getDocs workSessions userId)
      = [] ->
      checkForSessionOverlap workSessions userId s e excludeSessionId
      = false)
  /\ (instant (endTime candidate) = instant (startTime existing) ->
      hasOverlap candidate existing = false)
  /\ (instant (startTime candidate) = instant (endTime existing) ->
      hasOverlap candidate existing = false)
  /\ (instant (startTime candidate) = instant (startTime existing) ->
      hasOverlap candidate existing = true)
  /\ (instant (startTime existing) <= instant (startTime candidate) ->
      instant (endTime candidate) <= instant (endTime existing) ->
      hasOverlap candidate existing = true)
  /\ (candidate = existing -> hasOverlap candidate existing = true).
Proof.
  unfold well_formed. intros Hc He Wc We Wall.
  assert (Wd : whole_seconds {| startTime := DateV s; endTime := DateV e |})
    by (split; exact I).
  assert (Ws : forall session,
             In session (getDocs workSessions userId) ->
             whole_seconds (rangeOf session)).
  { intros session Hin. unfold getDocs in Hin.
    apply filter_In in Hin as [Hin _].
    rewrite List.Forall_forall in Wall. exact (Wall _ Hin). }
  split; [apply hasOverlap_true; assumption|].
  split.
  { unfold checkForSessionOverlap. rewrite existsb_exists. split.
    - intros (session & Hin & Hov). apply filter_In in Hin as [Hin Hk].
      exists session. rewrite <- (hasOverlap_true _ _ Wd (Ws _ Hin)). auto.
    - intros (session & Hin & Hk & Hov). exists session. split.
      + apply filter_In. auto.
      + apply (hasOverlap_true _ _ Wd (Ws _ Hin)). exact Hov. }
  split.
  { unfold checkForSessionOverlap. intros ->. reflexivity. }
  repeat split; intros.
  - apply hasOverlap_false; [assumption..|]. unfold half_open. lia.
  - apply hasOverlap_false; [assumption..|]. unfold half_open. lia.
  - apply hasOverlap_true; [assumption..|]. unfold half_open. lia.
  - apply hasOverlap_true; [assumption..|]. unfold half_open. lia.
  - subst existing. apply hasOverlap_true; [assumption..|].
    unfold half_open. lia.
Qed.

Lemma hasOverlap_half_open_on_whole_seconds_witness :
  let candidate :=
    {| startTime := DateV 36000000; endTime := DateV 39600000 |} in
  let existing :=
    {| startTime := TimestampV 32400 0; endTime := TimestampV 36000 0 |} in
  let workSessions := [mkSessionDoc "s1" "u" (TimestampV 32400 0)
                         (TimestampV 36000 0)] in
  well_formed candidate /\ well_formed existing
  /\ whole_seconds candidate /\ whole_seconds existing
  /\ hasOverlap candidate existing = false
  /\ checkForSessionOverlap workSessions "u" 36000000 39600000 None
     = false.
Proof.
  intros candidate existing workSessions.
  assert (Hc : well_formed candidate) by (unfold well_formed; simpl; lia).
  assert (He : well_formed existing) by (unfold well_formed; simpl; lia).
  assert (Wc : whole_seconds candidate) by (split; exact I).
  assert (We : whole_seconds existing) by (split; reflexivity).
  assert (Wall : Forall (fun session => whole_seconds (rangeOf session))
                   workSessions).
  { repeat constructor. }
  pose proof (hasOverlap_half_open_on_whole_seconds candidate existing
                workSessions "u" None 36000000 39600000 Hc He Wc We Wall)
    as (_ & _ & _ & _ & Habut & _).
  split; [exact Hc|]. split; [exact He|].
  split; [exact Wc|]. split; [exact We|].
  split; [apply Habut; reflexivity | reflexivity].
Defined.

(** C8.  With a (non-empty) [excludeSessionId], the sessions tested are
    those of the owner whose id differs from it, so the answer does not
    depend on the time range stored under that id: two snapshots of the
    collection that differ only there give the same answer. *)
Theorem checkForSessionOverlap_excluded_independent
    (workSessions workSessions' : list SessionDoc)
    (userId x : string) (s e : Z) :
  truthy (Some x) = true ->
  Forall2 (differ_only_at x) workSessions workSessions' ->
  Forall (fun session => doc_id session <> x)
    (List.filter (keepDoc (Some x)) (getDocs workSessions userId))
  /\ checkForSessionOverlap workSessions userId s e (Some x)
     = checkForSessionOverlap workSessions' userId s e (Some x).
Proof.
  intros Hx HF. split.
  - apply List.Forall_forall. intros session Hin.
    apply filter_In in Hin as [_ Hk].
    apply (keepDoc_true_neq _ _ Hx). exact Hk.
  - unfold checkForSessionOverlap.
    rewrite (sessions_differ_only_at x userId _ _ Hx HF). reflexivity.
Qed.

Lemma checkForSessionOverlap_excluded_independent_witness :
  let other := mkSessionDoc "s2" "u" (TimestampV 50000 0)
                 (TimestampV 53600 0) in
  let ws := [mkSessionDoc "s1" "u" (TimestampV 32400 0)
               (TimestampV 36000 0); other] in
  let ws' := [mkSessionDoc "s1" "u" (TimestampV 0 0)
                (TimestampV 99999 0); other] in
  checkForSessionOverlap ws "u" 34000000 35000000 (Some "s1")
  = checkForSessionOverlap ws' "u" 34000000 35000000 (Some "s1").
Proof.
  intros other ws ws'.
  apply (checkForSessionOverlap_excluded_independent ws ws' "u" "s1").
  - reflexivity.
  - repeat constructor; simpl; congruence.
Defined.

(** The length test of [checkForOverlap] changes nothing. *)
Lemma checkForOverlap_hasOverlap (sessions : list TimeUtilsLegacy.Session)
    (newSession : TimeUtilsLegacy.TimeRange) :
  TimeUtilsLegacy.checkForOverlap sessions newSession
  = TimeUtilsLegacy.hasOverlap sessions newSession.
Proof. destruct sessions; reflexivity. Qed.

(** C10.  On well-formed ranges whose endpoints are comparable
    instants, the three-clause test of the earlier revision and the
    single comparison [start1 < end2 && start2 < end1] of the current
    one are the same function, pairwise and over a session list. *)
Theorem three_clause_test_is_half_open
    (newSession : TimeUtilsLegacy.TimeRange)
    (sessions : list TimeUtilsLegacy.Session) :
  TimeUtilsLegacy.startTime newSession < TimeUtilsLegacy.endTime newSession ->
  Forall (fun session =>
            TimeUtilsLegacy.s_startTime session
            < TimeUtilsLegacy.s_endTime session) sessions ->
  Forall (fun session =>
            TimeUtilsLegacy.overlapsSession newSession session
            = hasOverlap (ofLegacyRange newSession)
                (ofLegacySession session)) sessions
  /\ TimeUtilsLegacy.hasOverlap sessions newSession
     = existsb (fun session =>
                  hasOverlap (ofLegacyRange newSession)
                    (ofLegacySession session)) sessions.
Proof.
  intros Hn Hs.
  assert (HF : Forall (fun session =>
            TimeUtilsLegacy.overlapsSession newSession session
            = hasOverlap (ofLegacyRange newSession)
                (ofLegacySession session)) sessions).
  { eapply List.Forall_impl; [|exact Hs]. intros session Hw. cbv beta in Hw.
    unfold TimeUtilsLegacy.overlapsSession, hasOverlap, ofLegacyRange,
      ofLegacySession. simpl.
    rewrite !Z.geb_leb, Z.gtb_ltb.
    apply eq_true_iff_eq.
    rewrite !orb_true_iff, !andb_true_iff, !Z.leb_le, !Z.ltb_lt. lia. }
  split; [exact HF|].
  unfold TimeUtilsLegacy.hasOverlap.
  induction HF as [|session l Heq _ IH]; [reflexivity|].
  inversion Hs; subst. simpl. rewrite Heq, IH by assumption. reflexivity.
Qed.

Lemma three_clause_test_is_half_open_witness :
  let newSession := TimeUtilsLegacy.mkTimeRange 36000 37800 in
  let sessions := [TimeUtilsLegacy.mkSession "s1" 32400 39600;
                   TimeUtilsLegacy.mkSession "s2" 39600 43200] in
  TimeUtilsLegacy.hasOverlap sessions newSession
  = existsb (fun session =>
               hasOverlap (ofLegacyRange newSession)
                 (ofLegacySession session)) sessions.
Proof.
  intros newSession sessions.
  apply (three_clause_test_is_half_open newSession sessions).
  - simpl. lia.
  - repeat constructor; simpl; lia.
Defined.

End TimeUtilsFacts.

(* ------------------------------------------------------------------ *)
(** ** Facts about the aggregation *)

Module AnalyticsFacts.
Import Analytics.

Local Open Scope Qc_scope.

(** *** Numbers *)

Lemma num_this (n : Z) : this (num n) = inject_Z n.
Proof. reflexivity. Qed.

Lemma num_add (a b : Z) : num (a + b) = num a + num b.
Proof.
  apply Qc_is_canon. unfold Qcplus, Q2Qc. cbn [this].
  rewrite Qred_correct, !num_this, inject_Z_plus. reflexivity.
Qed.

Lemma num_inj (a b : Z) : num a = num b -> a = b.
Proof.
  intros H. apply (f_equal this) in H. rewrite !num_this in H.
  injection H. auto.
Qed.

Lemma num_0 : num 0 = 0.
Proof. apply Qc_is_canon. reflexivity. Qed.

Lemma num_1 : num 1 = 1.
Proof. apply Qc_is_canon. reflexivity. Qed.

Lemma num_nonzero (n : Z) : n <> 0%Z -> num n <> 0.
Proof. intros Hn E. rewrite <- num_0 in E. apply num_inj in E. auto. Qed.

Lemma num_100_nonzero : num 100 <> 0.
Proof. apply num_nonzero. lia. Qed.

Lemma mult_cancel_r (x y z : Qc) : z <> 0 -> x * z = y * z -> x = y.
Proof.
  intros Hz E.
  replace x with (x * z / z) by (field; exact Hz).
  rewrite E. field. exact Hz.
Qed.

Lemma Qfloor_half_up (a b : Z) :
  (0 < b)%Z ->
  Qfloor (inject_Z a / inject_Z b + (1 # 2))%Q = ((2 * a + b) / (2 * b))%Z.
Proof.
  intros Hb. rewrite Zdiv_Qdiv. apply Qfloor_comp.
  rewrite inject_Z_plus, !inject_Z_mult.
  assert (~ inject_Z b == 0)%Q.
  { change 0%Q with (inject_Z 0). rewrite inject_Z_injective. lia. }
  field. auto.
Qed.

Lemma Math_round_div (a b : Z) :
  (0 < b)%Z -> Math_round (num a / num b) = num ((2 * a + b) / (2 * b)).
Proof.
  intros Hb. unfold Math_round. f_equal.
  rewrite <- (Qfloor_half_up a b Hb). apply Qfloor_comp.
  unfold Qcplus, Qcdiv, Qcmult, Qcinv, Q2Qc. cbn [this].
  rewrite !Qred_correct, !num_this. reflexivity.
Qed.

Lemma Math_round_num (n : Z) : Math_round (num n) = num n.
Proof.
  replace (num n) with (num n / num 1) at 1.
  - rewrite Math_round_div by lia. f_equal.
    rewrite Z.mul_1_r.
    replace (2 * n + 1)%Z with (1 + n * 2)%Z by lia.
    rewrite Z.div_add by lia. reflexivity.
  - rewrite num_1. field. discriminate.
Qed.

(** [Math.round(seconds / 36) / 100] is the duration in hundredths of an
    hour, to the nearest one, over 100. *)
Lemma durationInHours_centi (s : WorkSession) :
  durationInHours s = num (centiHours s) / num 100.
Proof.
  unfold durationInHours, centiHours. rewrite Math_round_div by lia.
  do 2 f_equal.
  replace (2 * 36)%Z with (36 * 2)%Z by lia.
  replace (2 * (endTime_seconds s - startTime_seconds s) + 36)%Z
    with ((endTime_seconds s - startTime_seconds s + 18) * 2)%Z by lia.
  rewrite Z.div_mul_cancel_r by lia. reflexivity.
Qed.

(** [Math.round((hours + d) * 100) / 100] adds exactly when both are
    counts of hundredths. *)
Lemma hours_step (H c : Z) :
  Math_round ((num H / num 100 + num c / num 100) * num 100) / num 100
  = num (H + c) / num 100.
Proof.
  replace ((num H / num 100 + num c / num 100) * num 100)
    with (num (H + c)).
  - rewrite Math_round_num. reflexivity.
  - rewrite num_add. field. exact num_100_nonzero.
Qed.

Lemma centi_eq_0 (H : Z) : num H / num 100 = 0 -> H = 0%Z.
Proof.
  intros E. apply num_inj. rewrite num_0.
  replace (num H) with (num H / num 100 * num 100)
    by (field; exact num_100_nonzero).
  rewrite E. ring.
Qed.

Lemma centiHours_nonneg (s : WorkSession) :
  (startTime_seconds s <= endTime_seconds s)%Z -> (0 <= centiHours s)%Z.
Proof. intros H. unfold centiHours. apply Z.div_pos; lia. Qed.

Lemma total_centi (l : list WorkSession) :
  total durationInHours l = num (centiTotal l) / num 100.
Proof.
  unfold total, centiTotal. induction l as [|s l IH]; simpl.
  - rewrite num_0. field. exact num_100_nonzero.
  - rewrite IH, durationInHours_centi, num_add. field.
    exact num_100_nonzero.
Qed.

Lemma map_this_inj (l l' : list Qc) : map this l = map this l' -> l = l'.
Proof.
  revert l'. induction l as [|x l IH]; intros [|y l'] H;
    try discriminate H; [reflexivity|].
  cbn [map] in H. injection H as Hx Hl. f_equal; [|exact (IH _ Hl)].
  apply Qc_is_canon. rewrite Hx. reflexivity.
Qed.

Lemma sumQc_perm (l1 l2 : list Qc) :
  Permutation l1 l2 -> sumQc l1 = sumQc l2.
Proof.
  unfold sumQc. induction 1; simpl; try congruence; ring.
Qed.

(** *** The array of buckets *)

(** When no bucket has the date sought, nothing changes: the session is
    dropped. *)
Lemma updateFirst_absent (k : Z) (f : ChartDataPoint -> ChartDataPoint)
    (dates : list ChartDataPoint) :
  ~ In k (map date dates) ->
  updateFirst (fun d => (date d =? k)%Z) f dates = dates.
Proof.
  induction dates as [|d rest IH]; simpl; [reflexivity|].
  intros Hn. destruct (Z.eqb_spec (date d) k) as [E|E].
  - exfalso. apply Hn. left. exact E.
  - rewrite IH; [reflexivity | tauto].
Qed.

Lemma map_if_absent (k : Z) (f : ChartDataPoint -> ChartDataPoint)
    (dates : list ChartDataPoint) :
  ~ In k (map date dates) ->
  map (fun d => if (date d =? k)%Z then f d else d) dates = dates.
Proof.
  induction dates as [|d rest IH]; simpl; [reflexivity|].
  intros Hn. destruct (Z.eqb_spec (date d) k) as [E|E].
  - exfalso. apply Hn. left. exact E.
  - rewrite IH; [reflexivity | tauto].
Qed.

(** With pairwise distinct dates, updating the bucket found is a
    pointwise operation. *)
Lemma updateFirst_pointwise (k : Z)
    (f : ChartDataPoint -> ChartDataPoint) (dates : list ChartDataPoint) :
  List.NoDup (map date dates) ->
  updateFirst (fun d => (date d =? k)%Z) f dates
  = map (fun d => if (date d =? k)%Z then f d else d) dates.
Proof.
  induction dates as [|d rest IH]; simpl; [reflexivity|].
  intros Hnd. inversion Hnd as [|? ? Hnotin Hrest]; subst.
  destruct (Z.eqb_spec (date d) k) as [E|E].
  - subst k. rewrite map_if_absent by exact Hnotin. reflexivity.
  - rewrite IH by exact Hrest. reflexivity.
Qed.

(** *** Accumulation in one bucket *)

Lemma addCurrent_accumulate (s : WorkSession) (b : ChartDataPoint) :
  (hours (addCurrent s b), p_focusLevel (addCurrent s b))
  = accumulate (hours b, p_focusLevel b) s.
Proof. reflexivity. Qed.

Lemma addPrevious_accumulate (s : WorkSession) (b : ChartDataPoint) :
  (previousHours (addPrevious s b), previousFocusLevel (addPrevious s b))
  = accumulatePrevious (previousHours b, previousFocusLevel b) s.
Proof. reflexivity. Qed.

Lemma accumulate_centi (read : float -> float) (H : Z) (F : float)
    (s : WorkSession) :
  fst (accumulateWith read (num H / num 100, F) s)
  = num (H + centiHours s) / num 100.
Proof.
  unfold accumulateWith. cbn [fst].
  rewrite durationInHours_centi, hours_step. reflexivity.
Qed.

(** The accumulated hours are the sum of the rounded durations,
    whatever the sessions and the focus levels. *)
Lemma accumulate_fold_hours (read : float -> float)
    (l : list WorkSession) (H : Z) (F : float) :
  fst (fold_left (accumulateWith read) l (num H / num 100, F))
  = num (H + centiTotal l) / num 100.
Proof.
  revert H F. induction l as [|s l IH]; intros H F.
  - simpl. rewrite Z.add_0_r. reflexivity.
  - cbn [fold_left].
    pose proof (accumulate_centi read H F s) as E.
    destruct (accumulateWith read (num H / num 100, F) s) as [h' F'].
    cbn [fst] in E. subst h'. rewrite IH.
    unfold centiTotal. simpl. do 2 f_equal. lia.
Qed.

(** The update reads the duration and the focus level of a session,
    and nothing else. *)
Lemma accumulateWith_ext (read : float -> float) (acc : Qc * float)
    (s s' : WorkSession) :
  durationInHours s = durationInHours s' ->
  focusLevel s = focusLevel s' ->
  accumulateWith read acc s = accumulateWith read acc s'.
Proof.
  unfold accumulateWith. destruct acc as [h F]. intros -> ->. reflexivity.
Qed.

(** A first session sets the focus level, whatever it was. *)
Lemma accumulate_first (read : float -> float) (F : float)
    (s : WorkSession) :
  snd (accumulateWith read (0, F) s) = focusLevel s.
Proof.
  unfold accumulateWith. cbn [snd].
  destruct (decide (0 = 0)) as [_|H]; [reflexivity|]. exfalso. auto.
Qed.

(** The pair the first pass accumulates: the hours add up exactly, and
    the focus level is the one the running update leaves. *)
Lemma fold_accumulate_running (l : list WorkSession) (H : Z) (F : float) :
  fold_left accumulate l (num H / num 100, F)
  = (num (H + centiTotal l) / num 100,
     runningFocus (num H / num 100) F l).
Proof.
  revert H F. induction l as [|s l IH]; intros H F.
  - cbn [fold_left runningFocus]. unfold centiTotal. cbn [map fold_right].
    rewrite Z.add_0_r. reflexivity.
  - cbn [fold_left runningFocus].
    pose proof (accumulate_centi (fun F => F) H F s) as E.
    unfold accumulate at 2.
    destruct (accumulateWith (fun F => F) (num H / num 100, F) s)
      as [h' F'] eqn:Eacc.
    cbn [fst] in E. subst h'. fold accumulate.
    rewrite IH. f_equal.
    + unfold centiTotal. cbn [map fold_right]. do 2 f_equal. lia.
    + assert (Eh : num H / num 100 + durationInHours s
                   = num (H + centiHours s) / num 100).
      { rewrite durationInHours_centi, num_add. field.
        exact num_100_nonzero. }
      rewrite Eh. f_equal.
      unfold accumulateWith in Eacc. injection Eacc as _ <-. reflexivity.
Qed.

(** In exact arithmetic the running update keeps the mean weighted by
    the rounded durations: the mean times the hours is the sum of the
    focus levels weighted by the rounded durations. *)
Lemma runningMean_weighted (l : list WorkSession) :
  List.Forall nonneg l ->
  forall (H : Z) (F : Qc),
    (0 <= H)%Z ->
    runningMean (num H / num 100) F l * (num (H + centiTotal l) / num 100)
    = F * (num H / num 100) + weighted durationInHours l.
Proof.
  induction 1 as [|s l Hs _ IH]; intros H F HH.
  - cbn [runningMean]. unfold centiTotal, weighted, sumQc.
    cbn [map fold_right]. rewrite Z.add_0_r. ring.
  - cbn [runningMean]. rewrite durationInHours_centi.
    pose proof (centiHours_nonneg s Hs) as Hc.
    assert (Eh : num H / num 100 + num (centiHours s) / num 100
                 = num (H + centiHours s) / num 100).
    { rewrite num_add. field. exact num_100_nonzero. }
    rewrite Eh.
    set (F' := if decide (num H / num 100 = 0) then _ else _).
    specialize (IH (H + centiHours s)%Z F' ltac:(lia)).
    replace (H + centiTotal (s :: l))%Z
      with (H + centiHours s + centiTotal l)%Z
      by (unfold centiTotal; cbn [map fold_right]; lia).
    rewrite IH. unfold weighted, sumQc. cbn [map fold_right].
    fold sumQc. rewrite durationInHours_centi.
    enough (E : F' * (num (H + centiHours s) / num 100)
                = F * (num H / num 100)
                  + valueOf (focusLevel s)
                    * (num (centiHours s) / num 100))
      by (rewrite E; ring).
    subst F'. destruct (decide (num H / num 100 = 0)) as [E0|E0].
    + rewrite E0. apply centi_eq_0 in E0. subst H.
      rewrite Z.add_0_l. ring.
    + rewrite num_add. field. split; [exact num_100_nonzero|].
      rewrite <- num_add. apply num_nonzero.
      assert (H <> 0%Z).
      { intros ->. apply E0. rewrite num_0. field.
        exact num_100_nonzero. }
      lia.
Qed.

(** For sessions that do not end before they start and last some
    hundredth of an hour together, the update in exact arithmetic
    yields the mean of the focus levels weighted by the rounded
    durations. *)
Lemma runningMean_weightedMean (l : list WorkSession) :
  List.Forall nonneg l ->
  total durationInHours l <> 0 ->
  runningMean 0 0 l = weightedMean durationInHours l.
Proof.
  intros Hnn Hnz.
  pose proof (runningMean_weighted l Hnn 0%Z 0 ltac:(lia)) as E.
  replace (num 0 / num 100) with (0 : Qc) in E
    by (rewrite num_0; field; exact num_100_nonzero).
  rewrite Z.add_0_l, <- total_centi in E.
  unfold weightedMean.
  apply (mult_cancel_r _ _ (total durationInHours l) Hnz).
  rewrite E. field. exact Hnz.
Qed.

Section Calendar.

Variable tz : Z.

(** *** The two passes, bucket by bucket *)

Lemma stepCurrent_date (b : ChartDataPoint) (s : WorkSession) :
  date (stepCurrent tz b s) = date b.
Proof. unfold stepCurrent. destruct (_ =? _)%Z; reflexivity. Qed.

Lemma stepPrevious_date (dr pp : DateRange) (b : ChartDataPoint)
    (s : WorkSession) :
  date (stepPrevious tz dr pp b s) = date b.
Proof. unfold stepPrevious. destruct (_ =? _)%Z; reflexivity. Qed.

(** The first pass leaves the date, the today mark and the comparison
    fields of a bucket alone. *)
Lemma fold_stepCurrent_frame (ss : list WorkSession)
    (b : ChartDataPoint) :
  let b' := fold_left (stepCurrent tz) ss b in
  date b' = date b /\ isToday b' = isToday b
  /\ previousHours b' = previousHours b
  /\ previousFocusLevel b' = previousFocusLevel b
  /\ comparisonDate b' = comparisonDate b.
Proof.
  revert b. induction ss as [|s ss IH]; intros b; simpl; [tauto|].
  destruct (IH (stepCurrent tz b s)) as (-> & -> & -> & -> & ->).
  unfold stepCurrent. destruct (_ =? _)%Z; simpl; tauto.
Qed.

(** The second pass leaves the current-period fields alone. *)
Lemma fold_stepPrevious_frame (dr pp : DateRange)
    (ss : list WorkSession) (b : ChartDataPoint) :
  let b' := fold_left (stepPrevious tz dr pp) ss b in
  date b' = date b /\ isToday b' = isToday b
  /\ hours b' = hours b
  /\ p_focusLevel b' = p_focusLevel b
  /\ comparisonDate b' = comparisonDate b.
Proof.
  revert b. induction ss as [|s ss IH]; intros b; simpl; [tauto|].
  destruct (IH (stepPrevious tz dr pp b s)) as (-> & -> & -> & -> & ->).
  unfold stepPrevious. destruct (_ =? _)%Z; simpl; tauto.
Qed.

Lemma fold_stepCurrent_accumulate (ss : list WorkSession)
    (b : ChartDataPoint) :
  let b' := fold_left (stepCurrent tz) ss b in
  (hours b', p_focusLevel b')
  = fold_left accumulate (attributed tz (date b) ss)
      (hours b, p_focusLevel b).
Proof.
  revert b. induction ss as [|s ss IH]; intros b; [reflexivity|].
  cbv zeta. cbn [fold_left]. specialize (IH (stepCurrent tz b s)).
  cbv zeta in IH. rewrite IH, stepCurrent_date.
  unfold attributed at 2. cbn [List.filter]. fold (attributed tz (date b) ss).
  unfold stepCurrent. rewrite (Z.eqb_sym (date b)).
  destruct (_ =? _)%Z; [|reflexivity].
  cbn [fold_left]. rewrite addCurrent_accumulate. reflexivity.
Qed.

Lemma fold_stepPrevious_accumulate (dr pp : DateRange)
    (ss : list WorkSession) (b : ChartDataPoint) :
  let b' := fold_left (stepPrevious tz dr pp) ss b in
  (previousHours b', previousFocusLevel b')
  = fold_left accumulatePrevious (attributedPrevious tz dr pp (date b) ss)
      (previousHours b, previousFocusLevel b).
Proof.
  revert b. induction ss as [|s ss IH]; intros b; [reflexivity|].
  cbv zeta. cbn [fold_left]. specialize (IH (stepPrevious tz dr pp b s)).
  cbv zeta in IH. rewrite IH, stepPrevious_date.
  unfold attributedPrevious at 2. cbn [List.filter].
  fold (attributedPrevious tz dr pp (date b) ss).
  unfold stepPrevious. rewrite (Z.eqb_sym (date b)).
  destruct (_ =? _)%Z; [|reflexivity].
  cbn [fold_left]. rewrite addPrevious_accumulate. reflexivity.
Qed.

Lemma fold_processCurrent (ss : list WorkSession)
    (dates : list ChartDataPoint) :
  List.NoDup (map date dates) ->
  fold_left (processCurrent tz) ss dates
  = map (fun b => fold_left (stepCurrent tz) ss b) dates.
Proof.
  revert dates. induction ss as [|s ss IH]; intros dates Hnd.
  - simpl. rewrite map_id. reflexivity.
  - cbn [fold_left]. unfold processCurrent at 2.
    rewrite updateFirst_pointwise by exact Hnd.
    rewrite IH.
    + rewrite map_map. apply map_ext. intros b. reflexivity.
    + rewrite map_map.
      erewrite map_ext; [exact Hnd|].
      intros b. simpl. destruct (_ =? _)%Z; reflexivity.
Qed.

Lemma fold_processPrevious (dr pp : DateRange) (ss : list WorkSession)
    (dates : list ChartDataPoint) :
  List.NoDup (map date dates) ->
  fold_left (processPrevious tz dr pp) ss dates
  = map (fun b => fold_left (stepPrevious tz dr pp) ss b) dates.
Proof.
  revert dates. induction ss as [|s ss IH]; intros dates Hnd.
  - simpl. rewrite map_id. reflexivity.
  - cbn [fold_left]. unfold processPrevious at 2.
    rewrite updateFirst_pointwise by exact Hnd.
    rewrite IH.
    + rewrite map_map. apply map_ext. intros b. reflexivity.
    + rewrite map_map.
      erewrite map_ext; [exact Hnd|].
      intros b. simpl. destruct (_ =? _)%Z; reflexivity.
Qed.

(** *** The enumeration of the window's days *)

Lemma localDay_add_days (t k : Z) :
  localDay tz (t + k * DAY) = (localDay tz t + k)%Z.
Proof.
  unfold localDay.
  replace (t + k * DAY + tz)%Z with (t + tz + k * DAY)%Z by lia.
  apply Z.div_add. unfold DAY. lia.
Qed.

Section Loop.

Variable dateRange : DateRange.
Variable showComparison : bool.
Variable now : Z.

Local Abbreviation loop := (datesLoop tz dateRange showComparison now).
Local Abbreviation point := (newPoint tz dateRange showComparison now).

Lemma datesLoop_visits (n : nat) (cur : Z) :
  (n <= Z.to_nat ((end_ dateRange - cur) / DAY + 1))%nat ->
  loop n cur
  = map point (map (fun k => (cur + Z.of_nat k * DAY)%Z) (seq 0 n)).
Proof.
  revert cur.
  induction n as [|n IH]; intros cur Hn; [reflexivity|].
  cbn [datesLoop]. unfold DAY in Hn.
  assert (Hle : (cur <= end_ dateRange)%Z)
    by (Z.to_euclidean_division_equations; lia).
  apply Z.leb_le in Hle. rewrite Hle.
  cbn [seq map]. rewrite Z.mul_0_l, Z.add_0_r. f_equal.
  unfold nextDate. rewrite IH.
  - rewrite <- seq_shift, !map_map. apply map_ext. intros k.
    f_equal. lia.
  - unfold DAY. Z.to_euclidean_division_equations. lia.
Qed.

(** The loop has stopped by itself within [loopBound] iterations:
    more fuel does not add a bucket. *)
Lemma datesLoop_fuel (fuel : nat) (cur : Z) :
  (Z.to_nat ((end_ dateRange - cur) / DAY + 1) <= fuel)%nat ->
  loop fuel cur
  = loop (Z.to_nat ((end_ dateRange - cur) / DAY + 1)) cur.
Proof.
  revert cur.
  induction fuel as [|fuel IH]; intros cur Hn.
  - replace (Z.to_nat _) with 0%nat by lia. reflexivity.
  - cbn [datesLoop]. destruct (Z.leb_spec cur (end_ dateRange)) as [Hle|Hgt].
    + assert (E : Z.to_nat ((end_ dateRange - cur) / DAY + 1)
                  = S (Z.to_nat ((end_ dateRange - nextDate cur) / DAY + 1))).
      { unfold nextDate, DAY. Z.to_euclidean_division_equations. lia. }
      rewrite E in *. cbn [datesLoop].
      apply Z.leb_le in Hle. rewrite Hle. f_equal. apply IH. lia.
    + replace (Z.to_nat _) with 0%nat; [reflexivity|].
      unfold DAY. Z.to_euclidean_division_equations. lia.
Qed.

Lemma dates0_visited :
  dates0 tz dateRange showComparison now
  = map point (visited dateRange).
Proof.
  unfold dates0, visited. apply datesLoop_visits.
  unfold loopBound. lia.
Qed.

Lemma dates0_date :
  map date (dates0 tz dateRange showComparison now)
  = enumeratedDays tz dateRange.
Proof.
  rewrite dates0_visited. unfold visited, enumeratedDays.
  rewrite !map_map. apply map_ext. intros k.
  cbn [newPoint date]. unfold getLocalDateString.
  apply localDay_add_days.
Qed.

Lemma enumeratedDays_NoDup : List.NoDup (enumeratedDays tz dateRange).
Proof using Type.
  clear showComparison now.
  unfold enumeratedDays. apply Finite.Injective_map_NoDup.
  - intros a b E. lia.
  - apply List.seq_NoDup.
Qed.

Lemma dates0_NoDup :
  List.NoDup (map date (dates0 tz dateRange showComparison now)).
Proof. rewrite dates0_date. exact enumeratedDays_NoDup. Qed.

(** An inverted window makes the loop body never run. *)
Lemma loopBound_inverted :
  (end_ dateRange < start dateRange)%Z -> loopBound dateRange = 0%nat.
Proof using Type.
  clear showComparison now tz.
  intros H. unfold loopBound, DAY.
  Z.to_euclidean_division_equations. lia.
Qed.

(** The number of buckets: one per local day from the first to the
    last, except that the last day is not reached when the window
    starts at a later time of day than it ends. *)
Lemma loopBound_days :
  (start dateRange <= end_ dateRange)%Z ->
  Z.of_nat (loopBound dateRange)
  = (localDay tz (end_ dateRange) - localDay tz (start dateRange)
     + (if (timeOfDay tz (start dateRange)
            <=? timeOfDay tz (end_ dateRange))%Z
        then 1 else 0))%Z.
Proof using Type.
  clear showComparison now.
  intros H. unfold loopBound, localDay, timeOfDay, DAY.
  destruct (Z.leb_spec ((start dateRange + tz) mod 86400000)
              ((end_ dateRange + tz) mod 86400000));
    Z.to_euclidean_division_equations; lia.
Qed.

Lemma enumeratedDays_calendarDays :
  (start dateRange <= end_ dateRange)%Z ->
  (timeOfDay tz (start dateRange) <= timeOfDay tz (end_ dateRange))%Z ->
  enumeratedDays tz dateRange
  = calendarDays tz (start dateRange) (end_ dateRange).
Proof using Type.
  clear showComparison now.
  intros H Ht. unfold enumeratedDays, calendarDays. do 2 f_equal.
  pose proof (loopBound_days H) as E.
  apply Z.leb_le in Ht. rewrite Ht in E. lia.
Qed.

(** When the window starts at a later time of day than it ends, the
    loop stops one day short: the local day of the window's end gets
    no bucket. *)
Lemma enumeratedDays_short :
  (start dateRange <= end_ dateRange)%Z ->
  (timeOfDay tz (end_ dateRange) < timeOfDay tz (start dateRange))%Z ->
  enumeratedDays tz dateRange
  = map (fun k => (localDay tz (start dateRange) + Z.of_nat k)%Z)
      (seq 0 (Z.to_nat (localDay tz (end_ dateRange)
                        - localDay tz (start dateRange))))
  /\ ~ In (localDay tz (end_ dateRange)) (enumeratedDays tz dateRange).
Proof using Type.
  clear showComparison now.
  intros H Ht. pose proof (loopBound_days H) as E.
  apply Z.leb_gt in Ht. rewrite Ht in E.
  assert (Hn : loopBound dateRange
               = Z.to_nat (localDay tz (end_ dateRange)
                           - localDay tz (start dateRange))) by lia.
  unfold enumeratedDays. rewrite Hn. split; [reflexivity|].
  rewrite in_map_iff. intros (k & Hk & Hin). apply in_seq in Hin. lia.
Qed.

End Loop.

(** *** The buckets returned *)

Section Buckets.

Variable sessions : list WorkSession.
Variable dateRange : DateRange.
Variable showComparison : bool.
Variable now : Z.

Local Abbreviation filtered := (filteredSessions tz sessions dateRange).
Local Abbreviation point := (newPoint tz dateRange showComparison now).
Local Abbreviation final :=
  (finalBucket tz sessions dateRange showComparison).

Lemma chartData_range_pointwise :
  chartData_range tz sessions dateRange showComparison now
  = map final (dates0 tz dateRange showComparison now).
Proof.
  unfold chartData_range, finalBucket.
  pose proof (dates0_NoDup dateRange showComparison now) as Hnd.
  rewrite fold_processCurrent by exact Hnd.
  destruct (previousPeriod dateRange showComparison) as [pp|];
    [|reflexivity].
  rewrite fold_processPrevious.
  - rewrite map_map. reflexivity.
  - rewrite map_map. erewrite map_ext; [exact Hnd|].
    intros b. apply fold_stepCurrent_frame.
Qed.

Lemma final_current (b0 : ChartDataPoint) :
  date (final b0) = date b0
  /\ isToday (final b0) = isToday b0
  /\ comparisonDate (final b0) = comparisonDate b0
  /\ (hours (final b0), p_focusLevel (final b0))
     = fold_left accumulate (attributed tz (date b0) filtered)
         (hours b0, p_focusLevel b0).
Proof.
  unfold finalBucket.
  set (b := fold_left (stepCurrent tz) _ b0).
  pose proof (fold_stepCurrent_frame
                (filteredSessions tz sessions dateRange) b0)
    as (Hd & Ht & _ & _ & Hc).
  pose proof (fold_stepCurrent_accumulate
                (filteredSessions tz sessions dateRange) b0) as Ha.
  cbv zeta in Hd, Ht, Hc, Ha. fold b in Hd, Ht, Hc, Ha.
  destruct (previousPeriod dateRange showComparison) as [pp|].
  - pose proof (fold_stepPrevious_frame dateRange pp
                  (previousSessions sessions pp) b)
      as (Hd' & Ht' & Hh' & Hf' & Hc').
    cbv zeta in Hd', Ht', Hh', Hf', Hc'.
    rewrite Hd', Ht', Hc', Hh', Hf'. auto.
  - auto.
Qed.

(** Each bucket carries the local day of the instant the loop
    visited and the sum of the rounded durations of the sessions
    attributed to that day. *)
Lemma final_point (cur : Z) :
  let b := final (point cur) in
  let k := localDay tz cur in
  date b = k
  /\ isToday b = (k =? localDay tz now)%Z
  /\ hours b = total durationInHours (attributed tz k filtered).
Proof.
  cbv zeta.
  destruct (final_current (point cur)) as (Hd & Ht & _ & Ha).
  assert (Hk : date (point cur) = localDay tz cur) by reflexivity.
  rewrite Hk in *. clear Hk.
  assert (H0 : (hours (point cur), p_focusLevel (point cur))
               = (num 0 / num 100, 0%float)).
  { cbn [newPoint hours p_focusLevel]. f_equal.
    rewrite num_0. field. exact num_100_nonzero. }
  rewrite H0 in Ha.
  split; [exact Hd|]. split.
  { rewrite Ht. cbn [newPoint isToday].
    f_equal. unfold startOfDay, localDay, DAY.
    Z.to_euclidean_division_equations. lia. }
  apply (f_equal fst) in Ha. cbn [fst] in Ha.
  rewrite Ha. unfold accumulate.
  rewrite accumulate_fold_hours, total_centi. reflexivity.
Qed.

Lemma chartData_range_date :
  map date (chartData_range tz sessions dateRange showComparison now)
  = enumeratedDays tz dateRange.
Proof.
  rewrite chartData_range_pointwise, map_map.
  rewrite <- (dates0_date dateRange showComparison now).
  apply map_ext. intros b0. apply final_current.
Qed.

Lemma chartData_range_buckets (b : ChartDataPoint) :
  In b (chartData_range tz sessions dateRange showComparison now) ->
  In (date b) (enumeratedDays tz dateRange)
  /\ isToday b = (date b =? localDay tz now)%Z
  /\ hours b = total durationInHours (attributed tz (date b) filtered).
Proof.
  intros Hin. split.
  { rewrite <- chartData_range_date. apply in_map. exact Hin. }
  rewrite chartData_range_pointwise, dates0_visited in Hin.
  rewrite map_map in Hin. apply in_map_iff in Hin as (cur & <- & _).
  pose proof (final_point cur) as (Hd & Ht & Hh).
  rewrite Hd. auto.
Qed.

Lemma chartData_range_accumulate (b : ChartDataPoint) :
  In b (chartData_range tz sessions dateRange showComparison now) ->
  (hours b, p_focusLevel b)
  = fold_left accumulate (attributed tz (date b) filtered) (0, 0%float).
Proof.
  intros Hin.
  rewrite chartData_range_pointwise, dates0_visited in Hin.
  rewrite map_map in Hin. apply in_map_iff in Hin as (cur & <- & _).
  destruct (final_current (point cur)) as (Hd & _ & _ & Ha).
  rewrite Hd. exact Ha.
Qed.

(** The comparison fields of a bucket, when a previous period is
    computed. *)
Lemma final_previous (pp : DateRange) (cur : Z) :
  previousPeriod dateRange showComparison = Some pp ->
  let b := final (point cur) in
  let prev :=
    attributedPrevious tz dateRange pp (localDay tz cur)
      (previousSessions sessions pp) in
  previousHours b = total durationInHours prev
  /\ previousFocusLevel b
     = snd (fold_left accumulatePrevious prev (0, 0%float))
  /\ comparisonDate b
     = Some (localDay tz (cur - (end_ dateRange - start dateRange))).
Proof.
  intros Hpp. cbv zeta. unfold finalBucket.
  rewrite Hpp.
  set (b1 := fold_left (stepCurrent tz) _ (point cur)).
  pose proof (fold_stepCurrent_frame
                (filteredSessions tz sessions dateRange) (point cur))
    as (Hd1 & _ & Hh1 & Hf1 & Hc1).
  cbv zeta in Hd1, Hh1, Hf1, Hc1. fold b1 in Hd1, Hh1, Hf1, Hc1.
  pose proof (fold_stepPrevious_frame dateRange pp
                (previousSessions sessions pp) b1)
    as (_ & _ & _ & _ & Hc2).
  pose proof (fold_stepPrevious_accumulate dateRange pp
                (previousSessions sessions pp) b1) as Ha.
  cbv zeta in Hc2, Ha.
  set (b2 := fold_left (stepPrevious tz dateRange pp) _ b1) in *.
  rewrite Hd1, Hh1, Hf1 in Ha.
  assert (Hk : date (point cur) = localDay tz cur) by reflexivity.
  rewrite Hk in Ha. clear Hk.
  cbn [newPoint previousHours previousFocusLevel] in Ha.
  split; [|split].
  - apply (f_equal fst) in Ha. cbn [fst] in Ha. rewrite Ha.
    replace (0 : Qc) with (num 0 / num 100)
      by (rewrite num_0; field; exact num_100_nonzero).
    unfold accumulatePrevious.
    rewrite accumulate_fold_hours, total_centi. reflexivity.
  - apply (f_equal snd) in Ha. exact Ha.
  - rewrite Hc2, Hc1. unfold newPoint.
    rewrite Hpp. reflexivity.
Qed.

(** Without comparison the second pass does not run. *)
Lemma final_no_previous (cur : Z) :
  previousPeriod dateRange showComparison = None ->
  previousHours (final (point cur)) = 0
  /\ previousFocusLevel (final (point cur)) = 0%float
  /\ comparisonDate (final (point cur)) = None.
Proof.
  intros Hpp. unfold finalBucket. rewrite Hpp.
  pose proof (fold_stepCurrent_frame
                (filteredSessions tz sessions dateRange) (point cur))
    as (_ & _ & Hh1 & Hf1 & Hc1).
  cbv zeta in Hh1, Hf1, Hc1. rewrite Hh1, Hf1, Hc1.
  unfold newPoint. rewrite Hpp. auto.
Qed.

End Buckets.

(** *** Sessions and the days of the window *)

(** A previous-period session is sent to an instant of the window. *)
Lemma targetDate_in_window (sessions : list WorkSession)
    (dateRange : DateRange) (s : WorkSession) :
  let previousPeriod :=
    getPreviousPeriodDates (start dateRange) (end_ dateRange) in
  In s (previousSessions sessions previousPeriod) ->
  (start dateRange <= targetDate dateRange previousPeriod s
   <= end_ dateRange)%Z.
Proof using Type.
  clear tz.
  cbv zeta. unfold previousSessions, targetDate, getPreviousPeriodDates.
  rewrite filter_In, andb_true_iff, !Z.leb_le. cbn [start end_]. lia.
Qed.

Lemma filteredSessions_In (sessions : list WorkSession)
    (dateRange : DateRange) (s : WorkSession) :
  In s (filteredSessions tz sessions dateRange)
  <-> In s sessions
      /\ (localDay tz (start dateRange) <= localDay tz (sessionDate s)
          <= localDay tz (end_ dateRange))%Z.
Proof.
  unfold filteredSessions. rewrite filter_In, andb_true_iff.
  rewrite !Z.leb_le.
  unfold rangeStart, rangeEnd, startOfDay, endOfDay, localDay, DAY.
  split; intros [Hin H]; (split; [exact Hin|]);
    Z.to_euclidean_division_equations; lia.
Qed.

Lemma total_cons (dur : WorkSession -> Qc) (s : WorkSession)
    (l : list WorkSession) :
  total dur (s :: l) = dur s + total dur l.
Proof. reflexivity. Qed.

Lemma total_filter_split (dur : WorkSession -> Qc)
    (p q : WorkSession -> bool) (l : list WorkSession) :
  (forall s, p s = true -> q s = false) ->
  total dur (List.filter (fun s => p s || q s) l)
  = total dur (List.filter p l) + total dur (List.filter q l).
Proof.
  intros Hpq. induction l as [|s l IH]; cbn [List.filter].
  - unfold total, sumQc. simpl. ring.
  - destruct (p s) eqn:Ep; cbn [orb].
    + rewrite (Hpq s Ep), !total_cons, IH. ring.
    + destruct (q s); rewrite ?total_cons, IH; ring.
Qed.

(** Summing the per-day totals over pairwise distinct days counts each
    session that starts on one of those days once. *)
Lemma total_over_days (dur : WorkSession -> Qc) (days : list Z)
    (l : list WorkSession) :
  List.NoDup days ->
  sumQc (map (fun k => total dur (attributed tz k l)) days)
  = total dur
      (List.filter
         (fun s => existsb (Z.eqb (getLocalDateString tz (sessionDate s)))
                     days) l).
Proof.
  induction 1 as [|k days Hk _ IH]; cbn [map existsb].
  - unfold sumQc. simpl.
    induction l as [|s l IHl]; [reflexivity|]. exact IHl.
  - change (sumQc (?x :: ?r)) with (x + sumQc r). rewrite IH.
    unfold attributed. rewrite <- total_filter_split.
    + reflexivity.
    + intros s E. apply Z.eqb_eq in E.
      destruct (existsb _ days) eqn:Ex; [|reflexivity].
      apply existsb_exists in Ex as (k' & Hin & E').
      apply Z.eqb_eq in E'. exfalso. apply Hk. congruence.
Qed.

Lemma filter_all {A : Type} (p : A -> bool) (l : list A) :
  (forall x, In x l -> p x = true) -> List.filter p l = l.
Proof.
  induction l as [|x l IH]; intros H; cbn [List.filter]; [reflexivity|].
  rewrite (H x (or_introl eq_refl)), IH; [reflexivity|].
  intros y Hy. apply H. right. exact Hy.
Qed.

Lemma calendarDays_In (start end_ k : Z) :
  In k (calendarDays tz start end_)
  <-> (localDay tz start <= k <= localDay tz end_)%Z.
Proof.
  unfold calendarDays. rewrite in_map_iff. split.
  - intros (n & <- & Hn). apply in_seq in Hn. lia.
  - intros H. exists (Z.to_nat (k - localDay tz start)). split; [lia|].
    apply in_seq. lia.
Qed.

Lemma filter_perm {A : Type} (p : A -> bool) (l l' : list A) :
  Permutation l l' -> Permutation (List.filter p l) (List.filter p l').
Proof.
  induction 1 as [|x l l' _ IH|x y l|l l' l'' _ IH1 _ IH2];
    cbn [List.filter].
  - constructor.
  - destruct (p x); [constructor|]; exact IH.
  - destruct (p x), (p y); try reflexivity. constructor.
  - etransitivity; eassumption.
Qed.

Lemma total_perm (dur : WorkSession -> Qc) (l l' : list WorkSession) :
  Permutation l l' -> total dur l = total dur l'.
Proof.
  intros H. unfold total. apply sumQc_perm, Permutation_map. exact H.
Qed.

Lemma weighted_perm (dur : WorkSession -> Qc)
    (l l' : list WorkSession) :
  Permutation l l' -> weighted dur l = weighted dur l'.
Proof.
  intros H. unfold weighted. apply sumQc_perm, Permutation_map. exact H.
Qed.

Lemma chartData_range_hours (sessions : list WorkSession)
    (dateRange : DateRange) (showComparison : bool) (now : Z) :
  map hours (chartData_range tz sessions dateRange showComparison now)
  = map (fun k =>
           total durationInHours
             (attributed tz k (filteredSessions tz sessions dateRange)))
      (enumeratedDays tz dateRange).
Proof.
  rewrite chartData_range_pointwise, dates0_visited.
  unfold visited, enumeratedDays. rewrite !map_map.
  apply map_ext. intros k.
  pose proof (final_point sessions dateRange showComparison now
                (start dateRange + Z.of_nat k * DAY))
    as (_ & _ & Hh).
  rewrite Hh, localDay_add_days. reflexivity.
Qed.

Lemma filteredSessions_normalized (sessions : list WorkSession)
    (dateRange : DateRange) :
  filteredSessions tz sessions dateRange
  = filterNormalized tz dateRange sessions.
Proof. reflexivity. Qed.

Lemma Forall2_map_diag {A B : Type} (R : B -> B -> Prop)
    (f g : A -> B) (l : list A) :
  (forall x, In x l -> R (f x) (g x)) ->
  Forall2 R (map f l) (map g l).
Proof.
  induction l as [|x l IH]; intros H; cbn [map]; constructor.
  - apply H. left. reflexivity.
  - apply IH. intros y Hy. apply H. right. exact Hy.
Qed.

End Calendar.

(** *** Scenario A *)

(** C9.  Over the single local day 2024-01-01 (day 19723 of the epoch),
    from 00:00:00 to 23:59:59, two sessions that start on that day and
    last two hours with focus 8 and one hour with focus 5 give exactly
    one bucket, of 3 hours and focus level (8*2 + 5*1)/3 = 7. *)
Theorem scenario_A_one_bucket
    (tz a1 a2 : Z) (id1 id2 : string) (showComparison : bool) (now : Z) :
  localDay tz (a1 * 1000) = 19723%Z ->
  localDay tz (a2 * 1000) = 19723%Z ->
  let window :=
    {| start := (19723 * DAY - tz)%Z;
       end_ := (19723 * DAY + 86399000 - tz)%Z |} in
  let records :=
    [ mkWorkSession id1 a1 (a1 + 7200) 8%float;
      mkWorkSession id2 a2 (a2 + 3600) 5%float ] in
  map (fun b => (date b, hours b, p_focusLevel b))
    (chartData tz records (Some window) showComparison now)
  = [(19723%Z, num 3, 7%float)].
Proof.
  intros H1 H2 window records. cbn [chartData].
  rewrite chartData_range_pointwise, dates0_visited.
  assert (Hv : visited window = [start window]).
  { unfold visited, loopBound. subst window. cbn [start end_].
    replace (19723 * DAY + 86399000 - tz - (19723 * DAY - tz))%Z
      with 86399000%Z by lia.
    change (Z.to_nat (86399000 / DAY + 1)) with 1%nat.
    cbn [seq map Z.of_nat]. f_equal. lia. }
  rewrite Hv. cbn [map].
  destruct (final_current tz records window showComparison
              (newPoint tz window showComparison now (start window)))
    as (Hd & _ & _ & Hacc).
  remember (finalBucket tz records window showComparison
              (newPoint tz window showComparison now (start window)))
    as bucket eqn:Eb.
  clear Eb.
  assert (Hk : localDay tz (start window) = 19723%Z).
  { subst window. cbn [start]. unfold localDay, DAY.
    Z.to_euclidean_division_equations. lia. }
  cbn [newPoint date hours p_focusLevel] in Hd, Hacc.
  unfold getLocalDateString in Hd, Hacc. rewrite Hk in Hd, Hacc.
  assert (Hf : filteredSessions tz records window = records).
  { apply filter_all. intros s Hs.
    assert (Hs' : localDay tz (sessionDate s) = 19723%Z).
    { destruct Hs as [<-|[<-|[]]]; assumption. }
    apply andb_true_iff. rewrite !Z.leb_le.
    unfold rangeStart, rangeEnd, startOfDay, endOfDay.
    subst window. cbn [start end_]. revert Hs'. unfold localDay, DAY.
    Z.to_euclidean_division_equations. lia. }
  rewrite Hf in Hacc.
  assert (Ha : attributed tz 19723 records = records).
  { apply filter_all. intros s Hs. apply Z.eqb_eq.
    destruct Hs as [<-|[<-|[]]]; assumption. }
  rewrite Ha in Hacc.
  assert (Hd1 : durationInHours (mkWorkSession id1 a1 (a1 + 7200) 8%float)
                = durationInHours (mkWorkSession "" 0 7200 8%float)).
  { rewrite !durationInHours_centi. unfold centiHours.
    cbn [startTime_seconds endTime_seconds].
    replace (a1 + 7200 - a1 + 18)%Z with 7218%Z by lia. reflexivity. }
  assert (Hd2 : durationInHours (mkWorkSession id2 a2 (a2 + 3600) 5%float)
                = durationInHours (mkWorkSession "" 0 3600 5%float)).
  { rewrite !durationInHours_centi. unfold centiHours.
    cbn [startTime_seconds endTime_seconds].
    replace (a2 + 3600 - a2 + 18)%Z with 3618%Z by lia. reflexivity. }
  assert (E : fold_left accumulate records (0, 0%float)
              = (num 3, 7%float)).
  { subst records. cbn [fold_left]. unfold accumulate.
    rewrite (accumulateWith_ext _ (0, 0%float) _ _ Hd1 eq_refl).
    rewrite (accumulateWith_ext _ _ _ _ Hd2 eq_refl).
    apply injective_projections; cbn [fst snd].
    - apply Qc_is_canon. vm_compute. reflexivity.
    - vm_compute. reflexivity. }
  rewrite E in Hacc. injection Hacc as Hh Hfocus.
  rewrite Hd, Hh, Hfocus. reflexivity.
Qed.

Lemma scenario_A_one_bucket_witness :
  map (fun b => (date b, hours b, p_focusLevel b))
    (chartData 0
       [ mkWorkSession "a" 1704099600 (1704099600 + 7200) 8%float;
         mkWorkSession "b" 1704114000 (1704114000 + 3600) 5%float ]
       (Some {| start := (19723 * DAY - 0)%Z;
                end_ := (19723 * DAY + 86399000 - 0)%Z |})
       false 1704099600000)
  = [(19723%Z, num 3, 7%float)].
Proof.
  apply (scenario_A_one_bucket 0 1704099600 1704114000 "a" "b" false
           1704099600000); reflexivity.
Defined.

(** *** Inverted windows *)

Lemma inverted_window_reports_nothing :
  ~ reports
      (chartData_completion 0
         [ mkWorkSession "a" 1704099600 1704106800 8%float ]
         (Some {| start := 1704153600000; end_ := 1704067200000 |})
         false 1704099600000).
Proof. intros [condition H]. discriminate H. Qed.

(** C4, as the code has it.  For a window whose start is after its end
    the callback completes normally with the empty array: no condition
    is raised.  Such a window is refused earlier, by the custom range
    form, which alerts and sets no range exactly when the chosen start
    day is after the chosen end day; a range it does set is not
    inverted. *)
Theorem inverted_window_yields_empty_array
    (tz : Z) (sessions : list WorkSession) (dateRange : DateRange)
    (showComparison : bool) (now ds de : Z) :
  (end_ dateRange < start dateRange)%Z ->
  chartData_completion tz sessions (Some dateRange) showComparison now
  = Normal []
  /\ (handleCustomRangeSubmit tz (Some ds) (Some de)
      = Alerted "Start date must be before end date" <-> (de < ds)%Z)
  /\ (forall range,
        handleCustomRangeSubmit tz (Some ds) (Some de) = RangeSet range ->
        (start range <= end_ range)%Z).
Proof.
  intros Hinv. split.
  { unfold chartData_completion. f_equal. cbn [chartData].
    rewrite chartData_range_pointwise. unfold dates0.
    rewrite (loopBound_inverted dateRange Hinv). reflexivity. }
  unfold handleCustomRangeSubmit.
  destruct (Z.gtb_spec (startOfDay tz (ds * DAY)) (endOfDay tz (de * DAY)))
    as [Hgt|Hle].
  - split.
    + split; [intros _ | reflexivity].
      revert Hgt. unfold startOfDay, endOfDay, localDay, DAY.
      Z.to_euclidean_division_equations. lia.
    + intros range H. discriminate H.
  - split.
    + split; [intros H; discriminate H|].
      intros Hlt. exfalso. revert Hle Hlt.
      unfold startOfDay, endOfDay, localDay, DAY.
      Z.to_euclidean_division_equations. lia.
    + intros range H. injection H as <-. exact Hle.
Qed.

Lemma inverted_window_yields_empty_array_witness :
  chartData_completion 0
    [ mkWorkSession "a" 1704099600 1704106800 8%float ]
    (Some {| start := 1704153600000; end_ := 1704067200000 |})
    true 1704099600000
  = Normal [].
Proof.
  apply (inverted_window_yields_empty_array 0 _
           {| start := 1704153600000; end_ := 1704067200000 |}
           true 1704099600000 19724 19723).
  simpl. lia.
Defined.

(** *** The last day of the window *)

(** C5, at a window the "Last 7 Days" entry yields when the clock ticks
    between its two [new Date()] calls: the end is noon of 2024-01-07
    (local day 19729) and the start is one millisecond past noon, six
    days earlier.  The window spans the seven local days 19723..19729,
    but the loop pushes six buckets and stops before the last day; a
    session of that day passes the filter and is then attributed to no
    bucket. *)
Theorem last_day_bucket_missing :
  let dateRange :=
    {| start := 1704110400001; end_ := 1704628800000 |} in
  let sessions := [ mkWorkSession "a" 1704618000 1704621600 5%float ] in
  let buckets := chartData 0 sessions (Some dateRange) false 1704628800000 in
  (start dateRange <= end_ dateRange)%Z
  /\ calendarDays 0 (start dateRange) (end_ dateRange)
     = [19723; 19724; 19725; 19726; 19727; 19728; 19729]%Z
  /\ map date buckets = [19723; 19724; 19725; 19726; 19727; 19728]%Z
  /\ filteredSessions 0 sessions dateRange = sessions
  /\ attributed 0 19729 sessions = sessions
  /\ map hours buckets = [0; 0; 0; 0; 0; 0].
Proof.
  cbv zeta. split; [cbn [start end_]; lia|]. repeat split; reflexivity.
Qed.

(** *** Buckets without sessions *)

Lemma empty_day_score_is_a_number :
  ~ (forall b,
        In b (chartData 0 []
                (Some {| start := (19723 * DAY)%Z;
                         end_ := (19723 * DAY + 86399000)%Z |})
                false 1704099600000) ->
        weightedQualityScore b = None).
Proof.
  intros H.
  specialize (H _ (or_introl eq_refl)). discriminate H.
Qed.

(** C7, as the code has it.  A bucket to which no session is attributed
    has [hours = 0] and carries the number 0 as its focus level, not
    [undefined]; when no session passes the filter this holds of every
    bucket. *)
Theorem empty_bucket_carries_zero
    (tz : Z) (sessions : list WorkSession) (dateRange : DateRange)
    (showComparison : bool) (now : Z) (b : ChartDataPoint) :
  In b (chartData tz sessions (Some dateRange) showComparison now) ->
  (attributed tz (date b) (filteredSessions tz sessions dateRange) = [] ->
   hours b = 0 /\ p_focusLevel b = 0%float
   /\ weightedQualityScore b = Some 0%float)
  /\ (filteredSessions tz sessions dateRange = [] ->
      hours b = 0 /\ p_focusLevel b = 0%float
      /\ weightedQualityScore b = Some 0%float).
Proof.
  intros Hin. cbn [chartData] in Hin.
  apply chartData_range_accumulate in Hin.
  assert (H : attributed tz (date b)
                (filteredSessions tz sessions dateRange) = [] ->
              hours b = 0 /\ p_focusLevel b = 0%float
              /\ weightedQualityScore b = Some 0%float).
  { intros E. rewrite E in Hin. cbn [fold_left] in Hin.
    injection Hin as Hh Hf. unfold weightedQualityScore.
    rewrite Hh, Hf. auto. }
  split; [exact H|].
  intros E. apply H. rewrite E. reflexivity.
Qed.

Lemma empty_bucket_carries_zero_witness :
  let b := newPoint 0 {| start := (19723 * DAY)%Z;
                         end_ := (19723 * DAY + 86399000)%Z |}
             false 1704099600000 (19723 * DAY)%Z in
  hours b = 0 /\ p_focusLevel b = 0%float
  /\ weightedQualityScore b = Some 0%float.
Proof.
  intros b.
  apply (empty_bucket_carries_zero 0 []
           {| start := (19723 * DAY)%Z;
              end_ := (19723 * DAY + 86399000)%Z |}
           false 1704099600000 b).
  - left. reflexivity.
  - reflexivity.
Defined.

(** *** Weighted focus level of a bucket *)

Lemma rounded_durations_weigh_the_mean :
  let window := {| start := (19723 * DAY)%Z;
                   end_ := (19723 * DAY + 86399000)%Z |} in
  let sessions :=
    [ mkWorkSession "a" 1704099600 (1704099600 + 19) 10%float;
      mkWorkSession "b" 1704103200 (1704103200 + 53) 1%float ] in
  ~ (forall b,
        In b (chartData 0 sessions (Some window) false 1704099600000) ->
        valueOf (p_focusLevel b)
        = weightedMean exactDurationInHours
            (attributed 0 (date b) (filteredSessions 0 sessions window))).
Proof.
  intros window sessions H.
  specialize (H _ (or_introl eq_refl)).
  apply (f_equal this) in H. vm_compute in H. discriminate H.
Qed.

(** The running update rounds at every step: two sessions of three
    minutes and focus 3 leave a bucket at 3.0000000000000004
    ([0x1.8000000000001p+1]), and three sessions of six minutes with
    focus 1, 1 and 4 leave it at 2 or at 1.9999999999999996
    ([0x1.ffffffffffffep+0]) according to their order. *)
Lemma running_focus_rounds_and_depends_on_order :
  let window := {| start := (19723 * DAY)%Z;
                   end_ := (19723 * DAY + 86399000)%Z |} in
  let session (seconds : Z) (focus : float) :=
    mkWorkSession "" 1704099600 (1704099600 + seconds) focus in
  let focusLevels (sessions : list WorkSession) :=
    map p_focusLevel
      (chartData 0 sessions (Some window) false 1704099600000) in
  focusLevels [session 180 3%float; session 180 3%float]
  = [0x1.8000000000001p+1%float]
  /\ focusLevels [session 360 1%float; session 360 1%float;
                  session 360 4%float]
     = [2%float]
  /\ focusLevels [session 360 4%float; session 360 1%float;
                  session 360 1%float]
     = [0x1.ffffffffffffep+0%float].
Proof. cbv zeta. repeat split; vm_compute; reflexivity. Qed.

(** C2, as the code has it.  Each duration is rounded to the nearest
    hundredth of an hour before it is used.  The hours of a bucket are
    the sum of the rounded durations of the sessions attributed to it,
    and reordering the sessions changes the hours of no bucket.  The
    focus level of a bucket is what the running update leaves after
    those sessions in their order, computed in binary64 with the
    rounded durations as weights; a bucket with one session carries
    that session's focus level.  In exact arithmetic, for sessions that
    do not end before they start, the same update is the mean weighted
    by the rounded durations. *)
Theorem hours_sum_and_running_focus
    (tz : Z) (sessions sessions' : list WorkSession)
    (dateRange : DateRange) (showComparison : bool) (now : Z) :
  Permutation sessions sessions' ->
  (forall b,
      In b (chartData tz sessions (Some dateRange) showComparison now) ->
      let records :=
        attributed tz (date b) (filteredSessions tz sessions dateRange) in
      hours b = total durationInHours records
      /\ p_focusLevel b = runningFocus 0 0%float records
      /\ (forall s, records = [s] -> p_focusLevel b = focusLevel s)
      /\ (List.Forall nonneg sessions -> hours b <> 0 ->
          runningMean 0 0 records = weightedMean durationInHours records))
  /\ Forall2
       (fun b b' => date b = date b' /\ hours b = hours b')
       (chartData tz sessions (Some dateRange) showComparison now)
       (chartData tz sessions' (Some dateRange) showComparison now).
Proof.
  intros Hperm. split.
  - intros b Hin. cbn [chartData] in Hin. cbv zeta.
    pose proof (chartData_range_accumulate tz sessions dateRange
                  showComparison now b Hin) as Hacc.
    apply chartData_range_buckets in Hin as (_ & _ & Hh).
    assert (Hf : p_focusLevel b
                 = runningFocus 0 0%float
                     (attributed tz (date b)
                        (filteredSessions tz sessions dateRange))).
    { apply (f_equal snd) in Hacc. cbn [snd] in Hacc. rewrite Hacc.
      replace (0 : Qc) with (num 0 / num 100)
        by (rewrite num_0; field; exact num_100_nonzero).
      rewrite fold_accumulate_running. reflexivity. }
    split; [exact Hh|]. split; [exact Hf|]. split.
    + intros s Es. rewrite Hf, Es. cbn [runningFocus].
      destruct (decide (0 = 0)) as [_|Hn]; [reflexivity|].
      exfalso. apply Hn. reflexivity.
    + intros Hnn Hnz. apply runningMean_weightedMean.
      * apply List.Forall_forall. intros s Hs.
        rewrite List.Forall_forall in Hnn. apply Hnn.
        unfold attributed, filteredSessions in Hs.
        apply filter_In in Hs as [Hs _].
        apply filter_In in Hs as [Hs _]. exact Hs.
      * rewrite <- Hh. exact Hnz.
  - cbn [chartData]. rewrite !chartData_range_pointwise, !dates0_visited.
    rewrite !map_map. apply Forall2_map_diag. intros cur _.
    pose proof (final_point tz sessions dateRange showComparison now cur)
      as (Hd & _ & Hh).
    pose proof (final_point tz sessions' dateRange showComparison now cur)
      as (Hd' & _ & Hh').
    assert (Hp : Permutation
                   (attributed tz (localDay tz cur)
                      (filteredSessions tz sessions dateRange))
                   (attributed tz (localDay tz cur)
                      (filteredSessions tz sessions' dateRange))).
    { unfold attributed, filteredSessions. do 2 apply filter_perm.
      exact Hperm. }
    rewrite (total_perm _ _ _ Hp) in Hh.
    split; congruence.
Qed.

Lemma hours_sum_and_running_focus_witness :
  let window := {| start := (19723 * DAY)%Z;
                   end_ := (19723 * DAY + 86399000)%Z |} in
  let a := mkWorkSession "a" 1704099600 (1704099600 + 19) 10%float in
  let b := mkWorkSession "b" 1704103200 (1704103200 + 53) 1%float in
  Forall2
    (fun b b' => date b = date b' /\ hours b = hours b')
    (chartData 0 [a; b] (Some window) false 1704099600000)
    (chartData 0 [b; a] (Some window) false 1704099600000).
Proof.
  intros window a b.
  pose proof (hours_sum_and_running_focus 0 [a; b] [b; a]
                window false 1704099600000 (perm_swap b a [])) as [_ H].
  exact H.
Defined.

(** *** Sum of the bucket hours *)

Lemma bucket_hours_sum_rounded_durations :
  let window := {| start := (19723 * DAY)%Z;
                   end_ := (19723 * DAY + 86399000)%Z |} in
  let sessions :=
    [ mkWorkSession "a" 1704099600 (1704099600 + 19) 10%float ] in
  sumQc (map hours
           (chartData 0 sessions (Some window) false 1704099600000))
  <> total exactDurationInHours (filterNormalized 0 window sessions).
Proof.
  intros window sessions H.
  apply (f_equal this) in H. vm_compute in H. discriminate H.
Qed.

(** C3, as the code has it.  For a window that starts no later in the
    day than it ends, the hours of all buckets add up to the sum of the
    durations, each rounded to the nearest hundredth of an hour, of the
    sessions whose start lies on a local day of the window (from the
    start of its first day to the end of its last); each such session
    counts in the bucket of the local day of its start. *)
Theorem bucket_hours_sum_over_window
    (tz : Z) (sessions : list WorkSession) (dateRange : DateRange)
    (showComparison : bool) (now : Z) :
  (start dateRange <= end_ dateRange)%Z ->
  (timeOfDay tz (start dateRange) <= timeOfDay tz (end_ dateRange))%Z ->
  let buckets :=
    chartData tz sessions (Some dateRange) showComparison now in
  let inWindow := filterNormalized tz dateRange sessions in
  sumQc (map hours buckets) = total durationInHours inWindow
  /\ (forall s,
        In s inWindow
        <-> In s sessions
            /\ (localDay tz (start dateRange)
                <= localDay tz (sessionDate s)
                <= localDay tz (end_ dateRange))%Z)
  /\ (forall b,
        In b buckets ->
        hours b = total durationInHours (attributed tz (date b) inWindow)).
Proof.
  intros Hle Htod. cbv zeta. cbn [chartData].
  rewrite <- filteredSessions_normalized.
  split; [|split].
  - rewrite chartData_range_hours.
    rewrite total_over_days by apply enumeratedDays_NoDup.
    f_equal. apply filter_all. intros s Hs.
    apply filteredSessions_In in Hs as [_ Hs].
    apply existsb_exists. exists (localDay tz (sessionDate s)).
    split; [|apply Z.eqb_refl].
    rewrite (enumeratedDays_calendarDays tz dateRange Hle Htod).
    apply calendarDays_In. exact Hs.
  - intros s. apply filteredSessions_In.
  - intros b Hin. apply chartData_range_buckets in Hin. tauto.
Qed.

Lemma bucket_hours_sum_over_window_witness :
  let window := {| start := (19723 * DAY)%Z;
                   end_ := (19723 * DAY + 86399000)%Z |} in
  let sessions :=
    [ mkWorkSession "a" 1704099600 (1704099600 + 19) 10%float;
      mkWorkSession "b" 1704103200 (1704103200 + 3600) 4%float ] in
  sumQc (map hours
           (chartData 0 sessions (Some window) false 1704099600000))
  = total durationInHours (filterNormalized 0 window sessions).
Proof.
  intros window sessions.
  assert (Hle : (start window <= end_ window)%Z)
    by (subst window; cbn [start end_]; lia).
  assert (Htod : (timeOfDay 0 (start window)
                  <= timeOfDay 0 (end_ window))%Z)
    by (subst window; cbn [start end_]; discriminate).
  pose proof (bucket_hours_sum_over_window 0 sessions window false
                1704099600000 Hle Htod) as (Hsum & _).
  exact Hsum.
Defined.

(** *** Comparison with the previous period *)

(** C6, at the window "Last 7 Days" yields at noon of 2024-01-14 in
    the zone of UTC: from 2024-01-08 12:00 to 2024-01-14 12:00.  The
    previous period runs from 2024-01-02 11:59:59.999 to 2024-01-08
    11:59:59.999, and the second filter compares with these two instants
    as they are, where the first filter widens the window to whole
    days.  A session at 09:00 on 2024-01-02 lies within the previous
    period taken by whole days and is left out of the comparison; a
    session at 10:00 on 2024-01-08 counts in the hours of its own day,
    the first of the window, and once more in the comparison hours of
    2024-01-14. *)
Theorem previous_period_is_not_whole_days :
  let dateRange :=
    {| start := 1704715200000; end_ := 1705233600000 |} in
  let previousPeriod :=
    getPreviousPeriodDates (start dateRange) (end_ dateRange) in
  let early := mkWorkSession "a" 1704186000 1704189600 6%float in
  let late := mkWorkSession "b" 1704708000 1704711600 7%float in
  let buckets :=
    chartData 0 [early; late] (Some dateRange) true 1705233600000 in
  previousPeriod = {| start := 1704196799999; end_ := 1704715199999 |}
  /\ filterNormalized 0 previousPeriod [early; late] = [early; late]
  /\ previousSessions [early; late] previousPeriod = [late]
  /\ filteredSessions 0 [early; late] dateRange = [late]
  /\ map date buckets
     = [19730; 19731; 19732; 19733; 19734; 19735; 19736]%Z
  /\ map hours buckets = [num 1; 0; 0; 0; 0; 0; 0]
  /\ map previousHours buckets = [0; 0; 0; 0; 0; 0; num 1].
Proof.
  cbv zeta. split; [reflexivity|].
  repeat split; try reflexivity.
  - apply map_this_inj. vm_compute. reflexivity.
  - apply map_this_inj. vm_compute. reflexivity.
Qed.

End AnalyticsFacts.

(* ------------------------------------------------------------------ *)
(** ** More on the overlap check and on saving a session *)

Module OverlapFacts.
Import TimeUtils App.

(** The pairwise test does not care which range is the candidate. *)
Lemma hasOverlap_sym (range1 range2 : TimeRange) :
  hasOverlap range1 range2 = hasOverlap range2 range1.
Proof. unfold hasOverlap. apply andb_comm. Qed.

(** X1.  On ranges that start before they end and whose Timestamps are
    on whole seconds, the test says exactly whether the two half-open
    intervals of instants share an instant. *)
Theorem hasOverlap_common_instant (range1 range2 : TimeRange) :
  well_formed range1 ->
  well_formed range2 ->
  whole_seconds range1 ->
  whole_seconds range2 ->
  hasOverlap range1 range2 = true
  <-> exists t,
        instant (startTime range1) <= t < instant (endTime range1)
        /\ instant (startTime range2) <= t < instant (endTime range2).
Proof.
  unfold well_formed. intros H1 H2 W1 W2.
  rewrite (TimeUtilsFacts.hasOverlap_true _ _ W1 W2).
  unfold half_open. split.
  - intros [Ha Hb].
    exists (Z.max (instant (startTime range1)) (instant (startTime range2))).
    lia.
  - intros (t & Ha & Hb). lia.
Qed.

Lemma hasOverlap_common_instant_witness :
  let range1 :=
    {| startTime := DateV 36000000; endTime := DateV 39600000 |} in
  let range2 :=
    {| startTime := TimestampV 37800 0; endTime := TimestampV 41400 0 |} in
  hasOverlap range1 range2 = true
  <-> exists t,
        instant (startTime range1) <= t < instant (endTime range1)
        /\ instant (startTime range2) <= t < instant (endTime range2).
Proof.
  intros range1 range2.
  apply (hasOverlap_common_instant range1 range2).
  - unfold well_formed. simpl. lia.
  - unfold well_formed. simpl. lia.
  - split; exact I.
  - split; reflexivity.
Defined.

Lemma checkForSessionOverlap_false (workSessions : list SessionDoc)
    (userId : string) (s e : Z) (excludeSessionId : option string) :
  checkForSessionOverlap workSessions userId s e excludeSessionId = false
  <-> forall d,
        In d workSessions -> doc_userId d = userId ->
        keepDoc excludeSessionId d = true ->
        hasOverlap {| startTime := DateV s; endTime := DateV e |} (rangeOf d)
        = false.
Proof.
  unfold checkForSessionOverlap, getDocs. split.
  - intros H d Hin Hu Hk.
    destruct (hasOverlap _ (rangeOf d)) eqn:E; [|reflexivity].
    rewrite <- H. symmetry. apply existsb_exists. exists d. split; [|exact E].
    apply filter_In. split; [|exact Hk].
    apply filter_In. split; [exact Hin|]. apply String.eqb_eq. exact Hu.
  - intros H. apply not_true_is_false. intros Ht.
    apply existsb_exists in Ht as (d & Hin & Hov).
    apply filter_In in Hin as [Hin Hk]. apply filter_In in Hin as [Hin Hu].
    apply String.eqb_eq in Hu. rewrite (H d Hin Hu Hk) in Hov.
    discriminate Hov.
Qed.

(** X2.  A save that passes the check against a collection passes it against
    any collection holding only documents of that one, and documents of
    other users never change the answer. *)
Theorem checkForSessionOverlap_only_owner_documents
    (workSessions fewer before others after : list SessionDoc)
    (userId : string) (s e : Z) (excludeSessionId : option string) :
  incl fewer workSessions ->
  List.Forall (fun d => doc_userId d <> userId) others ->
  (checkForSessionOverlap workSessions userId s e excludeSessionId = false ->
   checkForSessionOverlap fewer userId s e excludeSessionId = false)
  /\ checkForSessionOverlap (before ++ others ++ after) userId s e
       excludeSessionId
     = checkForSessionOverlap (before ++ after) userId s e excludeSessionId.
Proof.
  intros Hincl Hothers. split.
  - rewrite !checkForSessionOverlap_false. intros H d Hin. apply H.
    apply Hincl. exact Hin.
  - unfold checkForSessionOverlap, getDocs.
    rewrite !List.filter_app.
    assert (E : List.filter (fun doc => String.eqb (doc_userId doc) userId)
                  others = []).
    { induction Hothers as [|d l Hd _ IH]; [reflexivity|].
      cbn [List.filter]. apply String.eqb_neq in Hd. rewrite Hd. exact IH. }
    rewrite E. reflexivity.
Qed.

Lemma checkForSessionOverlap_only_owner_documents_witness :
  let mine := mkSessionDoc "s1" "u" (TimestampV 32400 0) (TimestampV 36000 0) in
  let theirs := mkSessionDoc "s2" "v" (TimestampV 36000 0) (TimestampV 39600 0) in
  checkForSessionOverlap ([mine] ++ [theirs] ++ []) "u" 36000000 39600000 None
  = checkForSessionOverlap ([mine] ++ []) "u" 36000000 39600000 None.
Proof.
  intros mine theirs.
  pose proof (checkForSessionOverlap_only_owner_documents
                [mine] [] [mine] [theirs] [] "u" 36000000 39600000 None)
    as H.
  apply H.
  - intros d [].
  - repeat constructor. simpl. discriminate.
Defined.

(** *** Saving keeps a user's sessions apart *)

Lemma hasOverlap_toDate (r1 r1' r2 r2' : TimeRange) :
  toDate (startTime r1) = toDate (startTime r1') ->
  toDate (endTime r1) = toDate (endTime r1') ->
  toDate (startTime r2) = toDate (startTime r2') ->
  toDate (endTime r2) = toDate (endTime r2') ->
  hasOverlap r1 r2 = hasOverlap r1' r2'.
Proof. unfold hasOverlap. intros -> -> -> ->. reflexivity. Qed.

(** What is stored for a candidate that passed against a stored
    document still passes against it: reading a Timestamp back gives
    whole seconds, and the candidate's instants are cut down to whole
    seconds. *)
Lemma stored_candidate_apart (s e : Z) (d : SessionDoc) :
  isTimestamp (doc_startTime d) -> isTimestamp (doc_endTime d) ->
  hasOverlap {| startTime := DateV s; endTime := DateV e |} (rangeOf d)
  = false ->
  hasOverlap
    {| startTime := Timestamp_fromDate s; endTime := Timestamp_fromDate e |}
    (rangeOf d) = false.
Proof.
  destruct d as [i u [?|S1 n1] [?|S2 n2]]; cbn; try tauto.
  intros _ _ H. apply not_true_is_false. intros Ht.
  apply not_true_iff_false in H. apply H.
  apply TimeUtilsFacts.hasOverlap_toDate_test in Ht.
  apply TimeUtilsFacts.hasOverlap_toDate_test.
  cbn in *. revert Ht. Z.to_euclidean_division_equations. lia.
Qed.

Lemma updateTimes_id (x : string) (S E : TimeValue) (d : SessionDoc) :
  doc_id (updateTimes x S E d) = doc_id d
  /\ doc_userId (updateTimes x S E d) = doc_userId d.
Proof.
  unfold updateTimes. destruct (String.eqb (doc_id d) x); auto.
Qed.

Lemma keepDoc_other (x : string) (d : SessionDoc) :
  doc_id d <> x -> keepDoc (Some x) d = true.
Proof.
  intros H. unfold keepDoc. destruct (truthy (Some x)); [|reflexivity].
  apply negb_true_iff, String.eqb_neq. exact H.
Qed.

(** The invariant in the terms of the check itself: whatever
    [handleStartSession] does to the collection, the ids stay unique,
    the times stay Timestamps, and no two different sessions of one user
    are reported as overlapping if none was before. *)
Lemma handleStartSession_keeps_check_silent
    (uid : string) (editingSession : option string) (newId : string)
    (data_startTime data_endTime : Z) (workSessions : list SessionDoc)
    (v : string) :
  List.NoDup (map doc_id workSessions)
  /\ List.Forall
       (fun d => isTimestamp (doc_startTime d) /\ isTimestamp (doc_endTime d))
       workSessions ->
  ~ In newId (map doc_id workSessions) ->
  (forall x d,
      editingSession = Some x -> In d workSessions -> doc_id d = x ->
      doc_userId d = uid) ->
  (forall d d',
      In d workSessions -> In d' workSessions ->
      doc_id d <> doc_id d' ->
      doc_userId d = v -> doc_userId d' = v ->
      hasOverlap (rangeOf d) (rangeOf d') = false) ->
  let workSessions' :=
    snd (handleStartSession (Some uid) editingSession newId
           data_startTime data_endTime workSessions) in
  (List.NoDup (map doc_id workSessions')
   /\ List.Forall
        (fun d =>
           isTimestamp (doc_startTime d) /\ isTimestamp (doc_endTime d))
        workSessions')
  /\ (forall d d',
        In d workSessions' -> In d' workSessions' ->
        doc_id d <> doc_id d' ->
        doc_userId d = v -> doc_userId d' = v ->
        hasOverlap (rangeOf d) (rangeOf d') = false).
Proof.
  intros [Hnd Hst] Hfresh Hown Hap. cbv zeta. unfold handleStartSession.
  destruct (checkForSessionOverlap _ _ _ _ _) eqn:Hchk;
    [cbn [snd]; split; [split|]; assumption|].
  rewrite checkForSessionOverlap_false in Hchk.
  assert (Hpass : forall d,
             In d workSessions -> doc_userId d = uid ->
             keepDoc editingSession d = true ->
             hasOverlap
               {| startTime := Timestamp_fromDate data_startTime;
                  endTime := Timestamp_fromDate data_endTime |}
               (rangeOf d) = false).
  { intros d Hin Hu Hk. rewrite List.Forall_forall in Hst.
    destruct (Hst d Hin) as [Hs He].
    apply stored_candidate_apart; auto. }
  destruct editingSession as [x|].
  - unfold updateDoc.
    destruct (existsb _ workSessions);
      [|cbn [snd]; split; [split|]; assumption].
    cbn [snd]. split; [split|].
    + rewrite map_map. erewrite map_ext; [exact Hnd|].
      intros d. apply updateTimes_id.
    + apply List.Forall_forall. intros d Hin.
      apply in_map_iff in Hin as (d0 & <- & Hin0).
      rewrite List.Forall_forall in Hst. specialize (Hst d0 Hin0).
      unfold updateTimes. destruct (String.eqb (doc_id d0) x); cbn; tauto.
    + intros d d' Hin Hin' Hne Hv Hv'.
      apply in_map_iff in Hin as (d0 & <- & Hin0).
      apply in_map_iff in Hin' as (d0' & <- & Hin0').
      destruct (updateTimes_id x (Timestamp_fromDate data_startTime)
                  (Timestamp_fromDate data_endTime) d0) as [Ei Eu].
      destruct (updateTimes_id x (Timestamp_fromDate data_startTime)
                  (Timestamp_fromDate data_endTime) d0') as [Ei' Eu'].
      rewrite Ei, Ei' in Hne. rewrite Eu in Hv. rewrite Eu' in Hv'.
      unfold updateTimes.
      destruct (String.eqb_spec (doc_id d0) x) as [Ex|Ex];
        destruct (String.eqb_spec (doc_id d0') x) as [Ex'|Ex'].
      * congruence.
      * assert (doc_userId d0 = uid) by (eapply Hown; eauto).
        apply Hpass; [exact Hin0' | congruence | apply keepDoc_other, Ex'].
      * assert (doc_userId d0' = uid) by (eapply Hown; eauto).
        rewrite hasOverlap_sym.
        apply Hpass; [exact Hin0 | congruence | apply keepDoc_other, Ex].
      * apply Hap; assumption.
  - cbn [snd]. unfold addDoc. split; [split|].
    + rewrite map_app. cbn [map doc_id].
      apply List.NoDup_app; [exact Hnd | |].
      * repeat constructor. intros [].
      * intros i Hi [<-|[]]. exact (Hfresh Hi).
    + apply Forall_app. split; [exact Hst|].
      repeat constructor.
    + intros d d' Hin Hin' Hne Hv Hv'.
      apply in_app_iff in Hin as [Hin|[<-|[]]];
        apply in_app_iff in Hin' as [Hin'|[<-|[]]].
      * apply Hap; assumption.
      * cbn [doc_userId] in Hv'. rewrite hasOverlap_sym.
        apply Hpass; [exact Hin | congruence | reflexivity].
      * cbn [doc_userId] in Hv.
        apply Hpass; [exact Hin' | congruence | reflexivity].
      * congruence.
Qed.

Lemma handleStartSession_times (P : TimeValue -> Prop)
    (uid : string) (editingSession : option string) (newId : string)
    (data_startTime data_endTime : Z) (workSessions : list SessionDoc) :
  List.Forall (fun d => P (doc_startTime d) /\ P (doc_endTime d))
    workSessions ->
  P (Timestamp_fromDate data_startTime) ->
  P (Timestamp_fromDate data_endTime) ->
  List.Forall (fun d => P (doc_startTime d) /\ P (doc_endTime d))
    (snd (handleStartSession (Some uid) editingSession newId
            data_startTime data_endTime workSessions)).
Proof.
  intros Hall Hs He. unfold handleStartSession.
  destruct (checkForSessionOverlap _ _ _ _ _); [exact Hall|].
  destruct editingSession as [x|].
  - unfold updateDoc. destruct (existsb _ workSessions); [|exact Hall].
    cbn [snd]. apply List.Forall_forall. intros d Hin.
    apply in_map_iff in Hin as (d0 & <- & Hin0).
    rewrite List.Forall_forall in Hall. specialize (Hall d0 Hin0).
    unfold updateTimes. destruct (String.eqb (doc_id d0) x); cbn; tauto.
  - cbn [snd]. unfold addDoc. apply Forall_app. split; [exact Hall|].
    repeat constructor; assumption.
Qed.

Lemma fromDate_second (ms : Z) :
  ms mod 1000 = 0 -> secondTimestamp (Timestamp_fromDate ms).
Proof. intros H. cbn. rewrite H. reflexivity. Qed.

Lemma secondTimestamp_whole (d : SessionDoc) :
  secondTimestamp (doc_startTime d) /\ secondTimestamp (doc_endTime d) ->
  (isTimestamp (doc_startTime d) /\ isTimestamp (doc_endTime d))
  /\ whole_seconds (rangeOf d).
Proof.
  destruct d as [i u [?|S1 n1] [?|S2 n2]]; cbn; unfold whole_seconds; cbn;
    tauto.
Qed.

(** On Timestamps of whole seconds the check is silent on two documents
    exactly when their intervals have no instant in common. *)
Lemma check_silent_iff_apart (v : string) (workSessions : list SessionDoc) :
  List.Forall
    (fun d =>
       secondTimestamp (doc_startTime d) /\ secondTimestamp (doc_endTime d))
    workSessions ->
  (forall d d',
      In d workSessions -> In d' workSessions ->
      doc_id d <> doc_id d' ->
      doc_userId d = v -> doc_userId d' = v ->
      hasOverlap (rangeOf d) (rangeOf d') = false)
  <-> apart v workSessions.
Proof.
  intros Hall. rewrite List.Forall_forall in Hall. unfold apart.
  split; intros H d d' Hin Hin' Hne Hv Hv'.
  - apply TimeUtilsFacts.hasOverlap_false;
      [apply secondTimestamp_whole, Hall, Hin
      |apply secondTimestamp_whole, Hall, Hin'
      |apply H; assumption].
  - apply TimeUtilsFacts.hasOverlap_false;
      [apply secondTimestamp_whole, Hall, Hin
      |apply secondTimestamp_whole, Hall, Hin'
      |apply H; assumption].
Qed.

(** X3.  When the times handed over are on whole seconds, as the form
    hands them over, then whatever [handleStartSession] does to the
    collection, the ids stay unique, the times stay Timestamps on whole
    seconds, and no two different sessions of one user overlap if none
    did before.  The id the store generates is new, and a session being
    edited belongs to the signed-in user. *)
Theorem handleStartSession_keeps_sessions_apart
    (uid : string) (editingSession : option string) (newId : string)
    (data_startTime data_endTime : Z) (workSessions : list SessionDoc)
    (v : string) :
  wellKept workSessions ->
  ~ In newId (map doc_id workSessions) ->
  (forall x d,
      editingSession = Some x -> In d workSessions -> doc_id d = x ->
      doc_userId d = uid) ->
  data_startTime mod 1000 = 0 ->
  data_endTime mod 1000 = 0 ->
  apart v workSessions ->
  let workSessions' :=
    snd (handleStartSession (Some uid) editingSession newId
           data_startTime data_endTime workSessions) in
  wellKept workSessions' /\ apart v workSessions'.
Proof.
  intros [Hnd Hst] Hfresh Hown Hs He Hap. cbv zeta.
  assert (Hst' : List.Forall
                   (fun d =>
                      isTimestamp (doc_startTime d)
                      /\ isTimestamp (doc_endTime d)) workSessions).
  { eapply List.Forall_impl; [|exact Hst].
    intros d Hd. apply secondTimestamp_whole. exact Hd. }
  pose proof (handleStartSession_keeps_check_silent uid editingSession
                newId data_startTime data_endTime workSessions v
                (conj Hnd Hst') Hfresh Hown
                (proj2 (check_silent_iff_apart v workSessions Hst) Hap))
    as [[Hnd' _] Hsilent].
  cbv zeta in Hnd', Hsilent.
  pose proof (handleStartSession_times secondTimestamp uid editingSession
                newId data_startTime data_endTime workSessions Hst
                (fromDate_second _ Hs) (fromDate_second _ He)) as Hsec.
  split; [split; assumption|].
  apply (check_silent_iff_apart v _ Hsec). exact Hsilent.
Qed.

End OverlapFacts.

Module SavingFacts.
Import TimeUtils App OverlapFacts.

Lemma handleStartSession_keeps_sessions_apart_witness :
  let workSessions :=
    [ mkSessionDoc "s1" "u" (TimestampV 32400 0) (TimestampV 36000 0);
      mkSessionDoc "s2" "u" (TimestampV 39600 0) (TimestampV 43200 0) ] in
  let workSessions' :=
    snd (handleStartSession (Some "u") None "s3" 36000000 39600000
           workSessions) in
  wellKept workSessions' /\ apart "u" workSessions'.
Proof.
  intros workSessions.
  apply (handleStartSession_keeps_sessions_apart "u" None "s3"
           36000000 39600000 workSessions "u").
  - split.
    + repeat constructor; simpl; intuition discriminate.
    + repeat constructor.
  - simpl. intuition discriminate.
  - intros x d H. discriminate H.
  - reflexivity.
  - reflexivity.
  - intros d d' [<-|[<-|[]]] [<-|[<-|[]]] Hne _ _;
      try (exfalso; apply Hne; reflexivity);
      unfold half_open; cbn; lia.
Defined.

(** X4.  Saving a stored session of the signed-in user again with the
    start and end it has is never refused, when the collection is kept
    on whole seconds and that user's sessions do not overlap one
    another. *)
Theorem resaving_with_same_instants_is_accepted
    (uid newId : string) (d0 : SessionDoc)
    (workSessions : list SessionDoc) (s e : Z) :
  wellKept workSessions ->
  apart uid workSessions ->
  In d0 workSessions ->
  doc_userId d0 = uid ->
  doc_id d0 <> "" ->
  instant (doc_startTime d0) = s * 1000000 ->
  instant (doc_endTime d0) = e * 1000000 ->
  fst (handleStartSession (Some uid) (Some (doc_id d0)) newId s e
         workSessions)
  = Saved.
Proof.
  intros [_ Hst] Hap Hin Hu Hid Es Ee. unfold handleStartSession.
  pose proof (proj2 (check_silent_iff_apart uid workSessions Hst) Hap)
    as Hsilent.
  assert (Hd0 : secondTimestamp (doc_startTime d0)
                /\ secondTimestamp (doc_endTime d0)).
  { rewrite List.Forall_forall in Hst. exact (Hst _ Hin). }
  assert (Hs : toDate (doc_startTime d0) = s).
  { destruct (doc_startTime d0) as [?|S n]; cbn in *; [tauto|].
    destruct Hd0 as [-> _]. lia. }
  assert (He : toDate (doc_endTime d0) = e).
  { destruct (doc_endTime d0) as [?|S n]; cbn in *; [tauto|].
    destruct Hd0 as [_ ->]. lia. }
  assert (Hchk : checkForSessionOverlap workSessions uid s e
                   (Some (doc_id d0)) = false).
  { apply checkForSessionOverlap_false. intros d Hd Hdu Hk.
    assert (Ht : truthy (Some (doc_id d0)) = true).
    { cbn. apply negb_true_iff, String.eqb_neq. exact Hid. }
    apply (TimeUtilsFacts.keepDoc_true_neq _ _ Ht) in Hk.
    rewrite (hasOverlap_toDate _ (rangeOf d0) _ (rangeOf d));
      try reflexivity; [|symmetry; assumption..].
    apply Hsilent; auto. }
  rewrite Hchk. unfold updateDoc.
  assert (Hex : existsb (fun doc => String.eqb (doc_id doc) (doc_id d0))
                  workSessions = true).
  { apply existsb_exists. exists d0. split; [exact Hin|].
    apply String.eqb_refl. }
  rewrite Hex. reflexivity.
Qed.

Lemma resaving_with_same_instants_is_accepted_witness :
  let d0 := mkSessionDoc "s1" "u" (TimestampV 32400 0) (TimestampV 36000 0) in
  let workSessions :=
    [ d0; mkSessionDoc "s2" "u" (TimestampV 36000 0) (TimestampV 43200 0) ] in
  fst (handleStartSession (Some "u") (Some "s1") "s3" 32400000 36000000
         workSessions)
  = Saved.
Proof.
  intros d0 workSessions.
  apply (resaving_with_same_instants_is_accepted "u" "s3" d0 workSessions).
  - split.
    + repeat constructor; simpl; intuition discriminate.
    + repeat constructor.
  - intros d d' [<-|[<-|[]]] [<-|[<-|[]]] Hne _ _;
      try (exfalso; apply Hne; reflexivity);
      unfold half_open; cbn; lia.
  - left. reflexivity.
  - reflexivity.
  - discriminate.
  - reflexivity.
  - reflexivity.
Defined.

End SavingFacts.

(* ------------------------------------------------------------------ *)
(** ** Facts about the session form *)

Module FormFacts.
Import WorkSessionForm.

(** X5.  Reading back the text the form shows gives the start of the local
    minute of the instant: never later than the instant, less than a
    minute earlier, and the instant itself exactly when it is a whole
    local minute; formatting what was read gives the text back. *)
Theorem parse_format_roundtrip (tz date minute : Z) :
  (exists parsed,
      parseInputToDate tz (Some (formatDateTimeForInput tz date))
      = Some parsed
      /\ parsed = date - (date + tz) mod MINUTE
      /\ parsed <= date < parsed + MINUTE)
  /\ (exists parsed,
         parseInputToDate tz (Some minute) = Some parsed
         /\ formatDateTimeForInput tz parsed = minute).
Proof.
  unfold parseInputToDate, formatDateTimeForInput, MINUTE. split.
  - eexists. split; [reflexivity|].
    Z.to_euclidean_division_equations. lia.
  - eexists. split; [reflexivity|].
    Z.to_euclidean_division_equations. lia.
Qed.

(** X6.  What the form submits starts strictly before it ends, and both
    instants are whole minutes of the local clock. *)
Theorem handleSubmit_submits_ordered_minutes
    (tz : Z) (startTime endTime : option Z) (selectedProject : string)
    (newProject : option (option string)) (s e : Z) (project : string) :
  handleSubmit tz startTime endTime selectedProject newProject
  = Submitted s e project ->
  s < e /\ (s + tz) mod MINUTE = 0 /\ (e + tz) mod MINUTE = 0
  /\ e - s >= MINUTE.
Proof.
  unfold handleSubmit, parseInputToDate.
  destruct startTime as [ms|]; [|discriminate].
  destruct endTime as [me|]; [|discriminate].
  destruct (Z.leb_spec (me * MINUTE - tz) (ms * MINUTE - tz)) as [Hle|Hlt];
    [discriminate|].
  intros H.
  assert (E : s = ms * MINUTE - tz /\ e = me * MINUTE - tz).
  { destruct newProject as [[id|]|]; inversion H; auto. }
  destruct E as [-> ->]. revert Hlt. unfold MINUTE.
  Z.to_euclidean_division_equations. lia.
Qed.

Lemma handleSubmit_submits_ordered_minutes_witness :
  1704099600000 < 1704103200000
  /\ (1704099600000 + 3600000) mod MINUTE = 0
  /\ (1704103200000 + 3600000) mod MINUTE = 0
  /\ 1704103200000 - 1704099600000 >= MINUTE.
Proof.
  apply (handleSubmit_submits_ordered_minutes 3600000
           (Some 28401720) (Some 28401780) "p" None
           1704099600000 1704103200000 "p").
  reflexivity.
Defined.

(** The form as it opens for a new session cannot be submitted
    untouched: both fields show the current minute, and the end must be
    after the start. *)
Lemma untouched_new_form_is_refused
    (tz now : Z) (selectedProject : string)
    (newProject : option (option string)) :
  let '(startTime, endTime) := initialFields tz None now in
  handleSubmit tz startTime endTime selectedProject newProject
  = EndNotAfterStart.
Proof.
  cbn. rewrite Z.leb_refl. reflexivity.
Qed.

(** X7.  The form opened on a stored session and submitted untouched hands
    back the stored start and end exactly when both are whole minutes of
    the local clock and at least a minute apart. *)
Theorem untouched_edit_form_resubmits
    (tz startSeconds endSeconds now : Z) (selectedProject : string) :
  (startSeconds * 1000 + tz) mod MINUTE = 0 ->
  (endSeconds * 1000 + tz) mod MINUTE = 0 ->
  startSeconds < endSeconds ->
  let '(startTime, endTime) :=
    initialFields tz (Some (startSeconds, endSeconds)) now in
  handleSubmit tz startTime endTime selectedProject None
  = Submitted (startSeconds * 1000) (endSeconds * 1000) selectedProject.
Proof.
  intros Hs He Hlt. cbn.
  assert (Es : formatDateTimeForInput tz (startSeconds * 1000) * MINUTE - tz
               = startSeconds * 1000).
  { revert Hs. unfold formatDateTimeForInput, MINUTE.
    Z.to_euclidean_division_equations. lia. }
  assert (Ee : formatDateTimeForInput tz (endSeconds * 1000) * MINUTE - tz
               = endSeconds * 1000).
  { revert He. unfold formatDateTimeForInput, MINUTE.
    Z.to_euclidean_division_equations. lia. }
  rewrite Es, Ee.
  destruct (Z.leb_spec (endSeconds * 1000) (startSeconds * 1000));
    [lia | reflexivity].
Qed.

Lemma untouched_edit_form_resubmits_witness :
  handleSubmit 3600000
    (Some (formatDateTimeForInput 3600000 (1704099600 * 1000)))
    (Some (formatDateTimeForInput 3600000 (1704103200 * 1000))) "p" None
  = Submitted (1704099600 * 1000) (1704103200 * 1000) "p".
Proof.
  apply (untouched_edit_form_resubmits 3600000 1704099600 1704103200 0 "p");
    reflexivity.
Defined.

End FormFacts.

(* ------------------------------------------------------------------ *)
(** ** More on the aggregation: shape of the result *)

Module ChartFacts.
Import Analytics AnalyticsFacts DateRanges.

Local Open Scope Z_scope.

Lemma chartData_length (tz : Z) (sessions : list WorkSession)
    (dateRange : DateRange) (showComparison : bool) (now : Z) :
  length (chartData tz sessions (Some dateRange) showComparison now)
  = loopBound dateRange.
Proof.
  cbn [chartData].
  rewrite <- (length_map date), chartData_range_date.
  unfold enumeratedDays. rewrite length_map, length_seq. reflexivity.
Qed.

Lemma filter_none {A : Type} (p : A -> bool) (l : list A) :
  (forall x, In x l -> p x = false) -> List.filter p l = [].
Proof.
  induction l as [|x l IH]; intros H; cbn [List.filter]; [reflexivity|].
  rewrite (H x (or_introl eq_refl)). apply IH.
  intros y Hy. apply H. right. exact Hy.
Qed.

(** X8.  The buckets carry consecutive local days in ascending order, from
    the local day of the window's start.  There is one per local day up
    to that of the window's end when the window starts no later in the
    day than it ends, one fewer when it starts later in the day, and
    none when the window is inverted. *)
Theorem chartData_consecutive_days
    (tz : Z) (sessions : list WorkSession) (dateRange : DateRange)
    (showComparison : bool) (now : Z) :
  let buckets :=
    chartData tz sessions (Some dateRange) showComparison now in
  map date buckets
  = map (fun k => localDay tz (start dateRange) + Z.of_nat k)
      (seq 0 (length buckets))
  /\ Z.of_nat (length buckets)
     = if start dateRange <=? end_ dateRange
       then localDay tz (end_ dateRange) - localDay tz (start dateRange)
            + (if timeOfDay tz (start dateRange)
                  <=? timeOfDay tz (end_ dateRange)
               then 1 else 0)
       else 0.
Proof.
  cbv zeta. rewrite chartData_length. split.
  - cbn [chartData]. apply chartData_range_date.
  - destruct (Z.leb_spec (start dateRange) (end_ dateRange)) as [H|H].
    + apply loopBound_days. exact H.
    + rewrite (loopBound_inverted dateRange H). reflexivity.
Qed.

(** X9.  Every bucket is marked as today exactly when its date is the local
    day of the clock reading, so at most one bucket is marked. *)
Theorem chartData_marks_today_once
    (tz : Z) (sessions : list WorkSession) (dateRange : DateRange)
    (showComparison : bool) (now : Z) :
  let buckets :=
    chartData tz sessions (Some dateRange) showComparison now in
  (forall b, In b buckets ->
             (isToday b = true <-> date b = localDay tz now))
  /\ (length (List.filter isToday buckets) <= 1)%nat.
Proof.
  cbv zeta. cbn [chartData].
  assert (H : forall b,
             In b (chartData_range tz sessions dateRange showComparison now)
             -> isToday b = (date b =? localDay tz now)).
  { intros b Hin. apply chartData_range_buckets in Hin. tauto. }
  split.
  - intros b Hin. rewrite (H b Hin). apply Z.eqb_eq.
  - pose proof (chartData_range_date tz sessions dateRange showComparison
                  now) as Hd.
    pose proof (enumeratedDays_NoDup tz dateRange) as Hnd.
    rewrite <- Hd in Hnd. clear Hd.
    induction (chartData_range tz sessions dateRange showComparison now)
      as [|b l IH]; [cbn; lia|].
    cbn [map] in Hnd. inversion Hnd as [|? ? Hnotin Hnd']; subst.
    cbn [List.filter].
    assert (IH' := IH (fun b' Hb' => H b' (or_intror Hb')) Hnd').
    destruct (isToday b) eqn:Eb; [|exact IH'].
    assert (E : List.filter isToday l = []).
    { apply filter_none. intros b' Hb'. apply not_true_is_false. intros Et.
      rewrite (H b' (or_intror Hb')) in Et. apply Z.eqb_eq in Et.
      rewrite (H b (or_introl eq_refl)) in Eb. apply Z.eqb_eq in Eb.
      apply Hnotin. rewrite Eb, <- Et. apply in_map. exact Hb'. }
    rewrite E. cbn. lia.
Qed.

End ChartFacts.

(* ------------------------------------------------------------------ *)
(** ** The windows the page offers *)

Module WindowFacts.
Import Analytics AnalyticsFacts DateRanges ChartFacts.

Local Open Scope Z_scope.

Lemma chartData_isToday (tz : Z) (sessions : list WorkSession)
    (dateRange : DateRange) (showComparison : bool) (now : Z) :
  map isToday (chartData tz sessions (Some dateRange) showComparison now)
  = map (fun k => k =? localDay tz now) (enumeratedDays tz dateRange).
Proof.
  cbn [chartData]. rewrite chartData_range_pointwise, dates0_visited.
  unfold visited, enumeratedDays. rewrite !map_map. apply map_ext.
  intros k.
  pose proof (final_point tz sessions dateRange showComparison now
                (start dateRange + Z.of_nat k * DAY)) as (_ & Ht & _).
  rewrite Ht, localDay_add_days. reflexivity.
Qed.

Lemma today_flags (D : Z) (n : nat) :
  map (fun k => D - Z.of_nat n + Z.of_nat k =? D) (seq 0 (S n))
  = repeat false n ++ [true].
Proof.
  rewrite seq_S, map_app. cbn [map Nat.add]. f_equal.
  - rewrite <- (length_seq n 0) at 2. rewrite <- map_const.
    apply map_ext_in. intros k Hk. apply in_seq in Hk.
    apply Z.eqb_neq. lia.
  - f_equal. apply Z.eqb_eq. lia.
Qed.

(** A window that ends at [t] and starts [n] whole days earlier. *)
Lemma days_back_window (tz : Z) (sessions : list WorkSession)
    (showComparison : bool) (now t : Z) (n : nat) :
  localDay tz now = localDay tz t ->
  let buckets :=
    chartData tz sessions
      (Some {| start := t - Z.of_nat n * DAY; end_ := t |})
      showComparison now in
  map date buckets
  = map (fun k => localDay tz t - Z.of_nat n + Z.of_nat k) (seq 0 (S n))
  /\ map isToday buckets = repeat false n ++ [true].
Proof.
  intros Hnow. cbv zeta.
  set (dr := {| start := t - Z.of_nat n * DAY; end_ := t |}).
  assert (Hb : loopBound dr = S n).
  { unfold loopBound, dr. cbn [start end_].
    replace (t - (t - Z.of_nat n * DAY)) with (Z.of_nat n * DAY) by lia.
    rewrite Z.div_mul by (unfold DAY; lia). lia. }
  assert (Hd : localDay tz (start dr) = localDay tz t - Z.of_nat n).
  { unfold dr. cbn [start].
    replace (t - Z.of_nat n * DAY) with (t + (- Z.of_nat n) * DAY) by lia.
    rewrite localDay_add_days. lia. }
  assert (He : enumeratedDays tz dr
               = map (fun k => localDay tz t - Z.of_nat n + Z.of_nat k)
                   (seq 0 (S n))).
  { unfold enumeratedDays. rewrite Hb, Hd. reflexivity. }
  split.
  - cbn [chartData]. rewrite chartData_range_date. exact He.
  - rewrite chartData_isToday, He, map_map, Hnow. apply today_flags.
Qed.

(** X10.  'Last 7 Days' and 'Last 30 Days', when both readings of the clock
    give the same instant: seven (thirty) buckets of consecutive days,
    the last of which is today and is the only one marked as today. *)
Theorem last_days_windows_end_today
    (tz : Z) (getDate : Z -> Z) (sessions : list WorkSession)
    (showComparison : bool) (t now : Z) :
  localDay tz now = localDay tz t ->
  let week :=
    chartData tz sessions (Some (last7Days getDate t t)) showComparison
      now in
  let month :=
    chartData tz sessions (Some (last30Days getDate t t)) showComparison
      now in
  map date week
  = map (fun k => localDay tz t - 6 + Z.of_nat k) (seq 0 7)
  /\ map isToday week = repeat false 6 ++ [true]
  /\ map date month
     = map (fun k => localDay tz t - 29 + Z.of_nat k) (seq 0 30)
  /\ map isToday month = repeat false 29 ++ [true].
Proof.
  intros Hnow. cbv zeta. unfold last7Days, last30Days, setDate.
  replace (t + (getDate t - 6 - getDate t) * DAY)
    with (t - Z.of_nat 6 * DAY) by lia.
  replace (t + (getDate t - 29 - getDate t) * DAY)
    with (t - Z.of_nat 29 * DAY) by lia.
  destruct (days_back_window tz sessions showComparison now t 6 Hnow)
    as [H1 H2].
  destruct (days_back_window tz sessions showComparison now t 29 Hnow)
    as [H3 H4].
  auto.
Qed.

Lemma last_days_windows_end_today_witness :
  map date
    (chartData 0 [] (Some (last7Days (fun _ => 7) 1704628800000
                             1704628800000)) false 1704628800000)
  = map (fun k => localDay 0 1704628800000 - 6 + Z.of_nat k) (seq 0 7).
Proof.
  apply (last_days_windows_end_today 0 (fun _ => 7) [] false
           1704628800000 1704628800000).
  reflexivity.
Defined.

(** X11.  'Last 7 Days', when the clock moves on between the two readings
    within one local day: the window spans seven local days but only six
    buckets come out, and today has none. *)
Theorem last7Days_misses_today_on_clock_tick
    (tz : Z) (getDate : Z -> Z) (sessions : list WorkSession)
    (showComparison : bool) (end_now start_now now : Z) :
  end_now < start_now ->
  localDay tz start_now = localDay tz end_now ->
  getDate start_now = getDate end_now ->
  let buckets :=
    chartData tz sessions (Some (last7Days getDate end_now start_now))
      showComparison now in
  map date buckets
  = map (fun k => localDay tz end_now - 6 + Z.of_nat k) (seq 0 6)
  /\ ~ In (localDay tz end_now) (map date buckets).
Proof.
  intros Hlt Hday Hdate. cbv zeta. unfold last7Days, setDate.
  rewrite Hdate.
  replace (start_now + (getDate end_now - 6 - getDate end_now) * DAY)
    with (start_now + (-6) * DAY) by lia.
  set (dr := {| start := start_now + -6 * DAY; end_ := end_now |}).
  assert (Hb : loopBound dr = 6%nat).
  { unfold loopBound, dr. cbn [start end_]. revert Hday.
    unfold localDay, DAY. Z.to_euclidean_division_equations. lia. }
  assert (Hd : localDay tz (start dr) = localDay tz end_now - 6).
  { unfold dr. cbn [start]. rewrite localDay_add_days. lia. }
  assert (He : map date
                 (chartData tz sessions (Some dr) showComparison now)
               = map (fun k => localDay tz end_now - 6 + Z.of_nat k)
                   (seq 0 6)).
  { cbn [chartData]. rewrite chartData_range_date.
    unfold enumeratedDays. rewrite Hb, Hd. reflexivity. }
  split; [exact He|].
  rewrite He, in_map_iff. intros (k & Hk & Hin).
  apply in_seq in Hin. lia.
Qed.

Lemma last7Days_misses_today_on_clock_tick_witness :
  ~ In (localDay 0 1704628800000)
      (map date
         (chartData 0 []
            (Some (last7Days (fun _ => 7) 1704628800000 1704628800001))
            false 1704628800001)).
Proof.
  apply (last7Days_misses_today_on_clock_tick 0 (fun _ => 7) [] false
           1704628800000 1704628800001 1704628800001).
  - lia.
  - reflexivity.
  - reflexivity.
Defined.

(** *** The custom range *)

Lemma custom_range_window (tz ds de : Z) :
  ds <= de ->
  handleCustomRangeSubmit tz (Some ds) (Some de)
  = RangeSet {| start := startOfDay tz (ds * DAY);
                end_ := endOfDay tz (de * DAY) |}
  /\ localDay tz (ds * DAY) = ds + tz / DAY
  /\ localDay tz (de * DAY) = de + tz / DAY.
Proof.
  intros Hle.
  assert (Hd : forall d, localDay tz (d * DAY) = d + tz / DAY).
  { intros d. unfold localDay.
    replace (d * DAY + tz) with (tz + d * DAY) by lia.
    rewrite Z.div_add by (unfold DAY; lia). lia. }
  split; [|split; apply Hd].
  unfold handleCustomRangeSubmit.
  destruct (Z.gtb_spec (startOfDay tz (ds * DAY)) (endOfDay tz (de * DAY)))
    as [Hgt|_]; [|reflexivity].
  exfalso. revert Hgt. unfold startOfDay, endOfDay. rewrite !Hd.
  unfold DAY. nia.
Qed.

(** X12.  A custom range from day [ds] to day [de] gives one bucket for each
    of the [de - ds + 1] days, in order.  The days are the chosen ones
    in a zone at or east of UTC, and the ones before them in a zone west
    of UTC, the chosen dates being read as midnight UTC. *)
Theorem custom_range_buckets
    (tz ds de : Z) (sessions : list WorkSession) (showComparison : bool)
    (now : Z) :
  ds <= de ->
  exists range,
    handleCustomRangeSubmit tz (Some ds) (Some de) = RangeSet range
    /\ map date (chartData tz sessions (Some range) showComparison now)
       = map (fun k => ds + tz / DAY + Z.of_nat k)
           (seq 0 (Z.to_nat (de - ds + 1)))
    /\ (0 <= tz < DAY -> tz / DAY = 0)
    /\ (- DAY <= tz < 0 -> tz / DAY = -1).
Proof.
  intros Hle.
  destruct (custom_range_window tz ds de Hle) as (Hr & Hs & He).
  eexists. split; [exact Hr|]. split.
  - cbn [chartData]. rewrite chartData_range_date.
    set (dr := {| start := startOfDay tz (ds * DAY);
                  end_ := endOfDay tz (de * DAY) |}).
    unfold enumeratedDays.
    assert (Hb : loopBound dr = Z.to_nat (de - ds + 1)).
    { unfold loopBound, dr, startOfDay, endOfDay. cbn [start end_].
      rewrite Hs, He. f_equal.
      replace ((de + tz / DAY) * DAY + (DAY - 1) - tz
               - ((ds + tz / DAY) * DAY - tz))
        with ((DAY - 1) + (de - ds) * DAY) by lia.
      rewrite Z.div_add by (unfold DAY; lia).
      change ((DAY - 1) / DAY) with 0. lia. }
    rewrite Hb. apply map_ext. intros k. unfold dr, startOfDay.
    cbn [start]. rewrite Hs.
    replace ((ds + tz / DAY) * DAY - tz)
      with (- tz + (ds + tz / DAY) * DAY) by lia.
    unfold localDay.
    replace (- tz + (ds + tz / DAY) * DAY + tz)
      with (0 + (ds + tz / DAY) * DAY) by lia.
    rewrite Z.div_add by (unfold DAY; lia).
    rewrite Z.div_0_l by (unfold DAY; lia). lia.
  - unfold DAY. split; intros H; Z.to_euclidean_division_equations; lia.
Qed.

Lemma custom_range_buckets_witness :
  exists range,
    handleCustomRangeSubmit (-18000000) (Some 19723) (Some 19725)
    = RangeSet range
    /\ map date (chartData (-18000000) [] (Some range) false 0)
       = map (fun k => 19723 + -18000000 / DAY + Z.of_nat k)
           (seq 0 (Z.to_nat (19725 - 19723 + 1)))
    /\ (0 <= -18000000 < DAY -> -18000000 / DAY = 0)
    /\ (- DAY <= -18000000 < 0 -> -18000000 / DAY = -1).
Proof.
  apply (custom_range_buckets (-18000000) 19723 19725 [] false 0). lia.
Defined.

(** X13.  Opening the custom range dialog again on a range it has set shows
    the chosen end date, and the chosen start date only in a zone at
    UTC: in every other zone less than a day from UTC it shows the day
    before. *)
Theorem custom_range_fields_after_submit
    (tz : Z) (getDate : Z -> Z) (ds de now defaultStart : Z) :
  ds <= de ->
  exists range,
    handleCustomRangeSubmit tz (Some ds) (Some de) = RangeSet range
    /\ (tz = 0 ->
        customRangeFields getDate (Some range) now defaultStart = (ds, de))
    /\ (0 < tz < DAY \/ - DAY < tz < 0 ->
        customRangeFields getDate (Some range) now defaultStart
        = (ds - 1, de)).
Proof.
  intros Hle.
  destruct (custom_range_window tz ds de Hle) as (Hr & Hs & He).
  eexists. split; [exact Hr|].
  unfold customRangeFields, isoDate, startOfDay, endOfDay. cbn [start end_].
  rewrite Hs, He. unfold DAY.
  split; intros H; f_equal; Z.to_euclidean_division_equations; lia.
Qed.

Lemma custom_range_fields_after_submit_witness :
  exists range,
    handleCustomRangeSubmit 3600000 (Some 19723) (Some 19725)
    = RangeSet range
    /\ (3600000 = 0 ->
        customRangeFields (fun _ => 1) (Some range) 0 0 = (19723, 19725))
    /\ (0 < 3600000 < DAY \/ - DAY < 3600000 < 0 ->
        customRangeFields (fun _ => 1) (Some range) 0 0
        = (19723 - 1, 19725)).
Proof.
  apply (custom_range_fields_after_submit 3600000 (fun _ => 1)
           19723 19725 0 0). lia.
Defined.

End WindowFacts.

(* ------------------------------------------------------------------ *)
(** ** More on the comparison with the previous period *)

Module ComparisonFacts.
Import Analytics AnalyticsFacts.

Local Open Scope Qc_scope.

(** X14.  Switching the comparison on changes nothing in the current-period
    fields of any bucket; with it off, the comparison fields stay at
    zero and there is no comparison date. *)
Theorem comparison_leaves_current_period
    (tz : Z) (sessions : list WorkSession) (dateRange : DateRange)
    (now : Z) :
  map (fun b => (date b, hours b, p_focusLevel b, isToday b))
    (chartData tz sessions (Some dateRange) true now)
  = map (fun b => (date b, hours b, p_focusLevel b, isToday b))
      (chartData tz sessions (Some dateRange) false now)
  /\ List.Forall
       (fun b => previousHours b = 0 /\ previousFocusLevel b = 0%float
                 /\ comparisonDate b = None)
       (chartData tz sessions (Some dateRange) false now).
Proof.
  cbn [chartData]. rewrite !chartData_range_pointwise, !dates0_visited.
  rewrite !map_map. split.
  - apply map_ext. intros cur.
    destruct (final_current tz sessions dateRange true
                (newPoint tz dateRange true now cur)) as (Hd & Ht & _ & Ha).
    destruct (final_current tz sessions dateRange false
                (newPoint tz dateRange false now cur))
      as (Hd' & Ht' & _ & Ha').
    rewrite Hd, Hd', Ht, Ht'.
    change (date (newPoint tz dateRange true now cur))
      with (date (newPoint tz dateRange false now cur)) in Ha.
    cbn [newPoint hours p_focusLevel] in Ha, Ha'.
    rewrite <- Ha' in Ha. injection Ha as -> ->. reflexivity.
  - apply List.Forall_forall. intros b Hin.
    apply in_map_iff in Hin as (cur & <- & _).
    apply (final_no_previous tz sessions dateRange false now cur).
    reflexivity.
Qed.

Lemma total_over_keys (key : WorkSession -> Z) (dur : WorkSession -> Qc)
    (days : list Z) (l : list WorkSession) :
  List.NoDup days ->
  sumQc (map (fun k => total dur (List.filter (fun s => (key s =? k)%Z) l))
           days)
  = total dur (List.filter (fun s => existsb (Z.eqb (key s)) days) l).
Proof.
  induction 1 as [|k days Hk _ IH]; cbn [map existsb].
  - unfold sumQc. simpl.
    induction l as [|s l IHl]; [reflexivity|]. exact IHl.
  - change (sumQc (?x :: ?r)) with (x + sumQc r). rewrite IH.
    rewrite <- total_filter_split.
    + reflexivity.
    + intros s E. apply Z.eqb_eq in E.
      destruct (existsb _ days) eqn:Ex; [|reflexivity].
      apply existsb_exists in Ex as (k' & Hin & E').
      apply Z.eqb_eq in E'. exfalso. apply Hk. congruence.
Qed.

(** X15.  With the comparison on, over a window that starts no later in the
    day than it ends, the comparison hours of all buckets add up to the
    rounded durations of all the previous-period sessions: none of them
    is dropped. *)
Theorem comparison_hours_sum
    (tz : Z) (sessions : list WorkSession) (dateRange : DateRange)
    (now : Z) :
  (start dateRange <= end_ dateRange)%Z ->
  (timeOfDay tz (start dateRange) <= timeOfDay tz (end_ dateRange))%Z ->
  sumQc (map previousHours
           (chartData tz sessions (Some dateRange) true now))
  = total durationInHours
      (previousSessions sessions
         (getPreviousPeriodDates (start dateRange) (end_ dateRange))).
Proof.
  intros Hle Htod. cbn [chartData].
  set (pp := getPreviousPeriodDates (start dateRange) (end_ dateRange)).
  assert (Hm : map previousHours
                 (chartData_range tz sessions dateRange true now)
               = map (fun k =>
                        total durationInHours
                          (attributedPrevious tz dateRange pp k
                             (previousSessions sessions pp)))
                   (enumeratedDays tz dateRange)).
  { rewrite chartData_range_pointwise, dates0_visited.
    unfold visited, enumeratedDays. rewrite !map_map.
    apply map_ext. intros k.
    pose proof (final_previous tz sessions dateRange true now pp
                  (start dateRange + Z.of_nat k * DAY) eq_refl)
      as (Hh & _).
    rewrite Hh, localDay_add_days. reflexivity. }
  rewrite Hm. unfold attributedPrevious.
  rewrite (total_over_keys
             (fun s => getLocalDateString tz (targetDate dateRange pp s)))
    by apply enumeratedDays_NoDup.
  f_equal. apply filter_all. intros s Hs.
  apply existsb_exists.
  exists (localDay tz (targetDate dateRange pp s)).
  split; [|apply Z.eqb_refl].
  rewrite (enumeratedDays_calendarDays tz dateRange Hle Htod).
  apply calendarDays_In.
  pose proof (targetDate_in_window sessions dateRange s Hs) as Hw.
  fold pp in Hw. revert Hw. unfold localDay, DAY.
  Z.to_euclidean_division_equations. lia.
Qed.

Lemma comparison_hours_sum_witness :
  let dateRange := {| start := 1704715200000; end_ := 1705233600000 |} in
  let sessions := [ mkWorkSession "a" 1704186000 1704189600 6%float;
                    mkWorkSession "b" 1704290400 1704297600 7%float ] in
  sumQc (map previousHours
           (chartData 0 sessions (Some dateRange) true 1705233600000))
  = total durationInHours
      (previousSessions sessions
         (getPreviousPeriodDates (start dateRange) (end_ dateRange))).
Proof.
  intros dateRange sessions.
  assert (Hle : (start dateRange <= end_ dateRange)%Z)
    by (subst dateRange; cbn [start end_]; lia).
  assert (Htod : (timeOfDay 0 (start dateRange)
                  <= timeOfDay 0 (end_ dateRange))%Z)
    by (subst dateRange; cbn [start end_]; discriminate).
  exact (comparison_hours_sum 0 sessions dateRange 1705233600000 Hle Htod).
Defined.

End ComparisonFacts.

(* ------------------------------------------------------------------ *)
(** ** Facts about the duration texts *)

Module DurationFacts.

Local Open Scope Z_scope.

Lemma roundDiv60_Math_round (n : Z) :
  Analytics.num (WorkSessionLog.roundDiv60 n)
  = Analytics.Math_round (Analytics.num n / Analytics.num 60)%Qc.
Proof.
  unfold WorkSessionLog.roundDiv60.
  rewrite AnalyticsFacts.Math_round_div by lia. reflexivity.
Qed.

(** X20.  The text of the log stands for the duration rounded to the nearest
    minute, half a minute going up: it is never more than 30 seconds
    off.  Its numbers are in
    range ([N minutes] below an hour, otherwise at least one hour and,
    if shown, 1 to 59 minutes), and the plural is left out exactly for
    the number 1. *)
Theorem log_duration_text (start end_ : Z) :
  let text := WorkSessionLog.calculateDuration start end_ in
  let shown := WorkSessionLog.minutesOf text in
  -30 <= (end_ - start) - 60 * shown < 30
  /\ match text with
     | WorkSessionLog.MinutesText m p =>
         m < 60 /\ (p = false <-> m = 1)
     | WorkSessionLog.HoursText h p =>
         1 <= h /\ (p = false <-> h = 1)
     | WorkSessionLog.HoursMinutesText h hp m mp =>
         1 <= h /\ 1 <= m <= 59
         /\ (hp = false <-> h = 1) /\ (mp = false <-> m = 1)
     end.
Proof.
  cbv zeta. unfold WorkSessionLog.calculateDuration,
    WorkSessionLog.roundDiv60.
  set (d := (2 * (end_ - start) + 60) / (2 * 60)).
  assert (Hd : -30 <= (end_ - start) - 60 * d < 30).
  { subst d. Z.to_euclidean_division_equations. lia. }
  assert (Hp : forall n, negb (n =? 1) = false <-> n = 1).
  { intros n. rewrite negb_false_iff. apply Z.eqb_eq. }
  destruct (Z.ltb_spec d 60) as [Hlt|Hge].
  - cbn [WorkSessionLog.minutesOf]. auto.
  - assert (Hr : Z.rem d 60 = d mod 60)
      by (apply Z.rem_mod_nonneg; lia).
    rewrite Hr.
    destruct (Z.eqb_spec (d mod 60) 0) as [E|E];
      cbn [WorkSessionLog.minutesOf].
    + split; [|split; [|apply Hp]];
        Z.to_euclidean_division_equations; lia.
    + split; [|split; [|split; [|split; apply Hp]]];
        Z.to_euclidean_division_equations; lia.
Qed.

(** X21.  For a session that does not end before it starts, the project panel
    shows the duration cut down to whole minutes where the log shows it
    rounded: the two agree when the odd seconds are fewer than 30, and
    the log shows one minute more otherwise. *)
Theorem panel_duration_truncates (start end_ : Z) :
  start <= end_ ->
  let panel :=
    ProjectPanel.minutesOf (ProjectPanel.calculateDuration start end_) in
  let log :=
    WorkSessionLog.minutesOf (WorkSessionLog.calculateDuration start end_) in
  panel = (end_ - start) / 60
  /\ log = panel + (if (end_ - start) mod 60 <? 30 then 0 else 1).
Proof.
  intros Hle. cbv zeta.
  assert (Hlog : WorkSessionLog.minutesOf
                   (WorkSessionLog.calculateDuration start end_)
                 = (2 * (end_ - start) + 60) / (2 * 60)).
  { unfold WorkSessionLog.calculateDuration, WorkSessionLog.roundDiv60.
    set (d := (2 * (end_ - start) + 60) / (2 * 60)).
    assert (0 <= d) by (subst d; Z.to_euclidean_division_equations; lia).
    destruct (Z.ltb_spec d 60); [reflexivity|].
    rewrite Z.rem_mod_nonneg by lia.
    destruct (Z.eqb_spec (d mod 60) 0); cbn [WorkSessionLog.minutesOf];
      Z.to_euclidean_division_equations; lia. }
  assert (Hpanel : ProjectPanel.minutesOf
                     (ProjectPanel.calculateDuration start end_)
                   = (end_ - start) / 60).
  { unfold ProjectPanel.calculateDuration.
    rewrite Z.rem_mod_nonneg by lia.
    destruct (Z.eqb_spec ((end_ - start) / 3600) 0) as [E|E];
      [|destruct (Z.eqb_spec ((end_ - start) mod 3600 / 60) 0) as [E'|E']];
      cbn [ProjectPanel.minutesOf];
      Z.to_euclidean_division_equations; lia. }
  rewrite Hlog, Hpanel. split; [reflexivity|].
  destruct (Z.ltb_spec ((end_ - start) mod 60) 30);
    Z.to_euclidean_division_equations; lia.
Qed.

Lemma panel_duration_truncates_witness :
  ProjectPanel.minutesOf (ProjectPanel.calculateDuration 0 3570)
  = (3570 - 0) / 60
  /\ WorkSessionLog.minutesOf (WorkSessionLog.calculateDuration 0 3570)
     = ProjectPanel.minutesOf (ProjectPanel.calculateDuration 0 3570)
       + (if (3570 - 0) mod 60 <? 30 then 0 else 1).
Proof.
  apply (panel_duration_truncates 0 3570). lia.
Defined.

End DurationFacts.

(* ------------------------------------------------------------------ *)
(** ** Facts about the grouped log *)

Module GroupingFacts.
Import WorkSessionLog.

Local Open Scope Z_scope.

(** *** One push *)

Lemma pushTo_groupOf (d k : Z) (s : WorkSession) (G : GroupedSessions) :
  groupOf k (pushTo d s G)
  = if d =? k then groupOf k G ++ [s] else groupOf k G.
Proof.
  induction G as [|[key g] rest IH]; cbn [pushTo groupOf].
  - destruct (Z.eqb_spec d k); reflexivity.
  - destruct (Z.eqb_spec key d) as [->|Hkd]; cbn [groupOf].
    + destruct (Z.eqb_spec d k); reflexivity.
    + destruct (Z.eqb_spec key k) as [->|Hkk].
      * destruct (Z.eqb_spec d k); [congruence | reflexivity].
      * exact IH.
Qed.

Lemma pushTo_keys (d : Z) (s : WorkSession) (G : GroupedSessions) :
  map fst (pushTo d s G)
  = if existsb (Z.eqb d) (map fst G) then map fst G else map fst G ++ [d].
Proof.
  induction G as [|[key g] rest IH]; cbn [pushTo map fst existsb app];
    [reflexivity|].
  rewrite (Z.eqb_sym d key).
  destruct (Z.eqb_spec key d) as [->|Hkd]; cbn [map fst orb].
  - reflexivity.
  - rewrite IH. destruct (existsb _ _); reflexivity.
Qed.

Lemma pushTo_keys_In (d k : Z) (s : WorkSession) (G : GroupedSessions) :
  In k (map fst (pushTo d s G)) <-> k = d \/ In k (map fst G).
Proof.
  rewrite pushTo_keys. destruct (existsb _ _) eqn:E.
  - split; [tauto|]. intros [->|H]; [|exact H].
    apply existsb_exists in E as (x & Hx & Ex).
    apply Z.eqb_eq in Ex. subst x. exact Hx.
  - rewrite in_app_iff. cbn. intuition congruence.
Qed.

Lemma pushTo_NoDup (d : Z) (s : WorkSession) (G : GroupedSessions) :
  List.NoDup (map fst G) -> List.NoDup (map fst (pushTo d s G)).
Proof.
  intros H. rewrite pushTo_keys. destruct (existsb _ _) eqn:E; [exact H|].
  apply List.NoDup_app; [exact H | repeat constructor; intros [] |].
  intros a Ha [<-|[]].
  assert (existsb (Z.eqb d) (map fst G) = true); [|congruence].
  apply existsb_exists. exists d. split; [exact Ha | apply Z.eqb_refl].
Qed.

Lemma pushTo_nonempty (d : Z) (s : WorkSession) (G : GroupedSessions) :
  List.Forall (fun e => snd e <> []) G ->
  List.Forall (fun e => snd e <> []) (pushTo d s G).
Proof.
  induction 1 as [|[key g] rest Hg Hrest IH]; cbn [pushTo].
  - repeat constructor. discriminate.
  - destruct (key =? d); constructor; auto.
    cbn. intros E. apply app_eq_nil in E as [_ E]. discriminate E.
Qed.

Lemma groupOf_absent (k : Z) (G : GroupedSessions) :
  ~ In k (map fst G) -> groupOf k G = [].
Proof.
  induction G as [|[key g] rest IH]; cbn [groupOf map fst];
    [reflexivity|].
  intros H. destruct (Z.eqb_spec key k) as [->|_].
  - exfalso. apply H. left. reflexivity.
  - apply IH. intros Hin. apply H. right. exact Hin.
Qed.

Lemma groupOf_entry (k : Z) (g : list WorkSession) (G : GroupedSessions) :
  List.NoDup (map fst G) -> In (k, g) G -> groupOf k G = g.
Proof.
  induction G as [|[key g'] rest IH]; cbn [groupOf map fst]; [intros _ []|].
  intros Hnd [E|Hin].
  - injection E as -> ->. rewrite Z.eqb_refl. reflexivity.
  - inversion Hnd as [|? ? Hnotin Hnd']; subst.
    destruct (Z.eqb_spec key k) as [->|_].
    + exfalso. apply Hnotin. apply (in_map fst) in Hin. exact Hin.
    + apply IH; assumption.
Qed.

(** *** The grouping *)

Section Grouping.

Variable tz : Z.

Abbreviation push :=
  (fun acc session => pushTo (dateOf tz session) session acc).

Lemma fold_push_groupOf (k : Z) (l : list WorkSession)
    (G : GroupedSessions) :
  groupOf k (fold_left push l G)
  = groupOf k G ++ List.filter (fun s => dateOf tz s =? k) l.
Proof.
  revert G. induction l as [|s l IH]; intros G; cbn [fold_left List.filter].
  - rewrite app_nil_r. reflexivity.
  - rewrite IH, pushTo_groupOf.
    destruct (dateOf tz s =? k); [rewrite <- app_assoc|]; reflexivity.
Qed.

Lemma fold_push_keys_In (k : Z) (l : list WorkSession)
    (G : GroupedSessions) :
  In k (map fst (fold_left push l G))
  <-> In k (map fst G) \/ exists s, In s l /\ dateOf tz s = k.
Proof.
  revert G. induction l as [|s l IH]; intros G; cbn [fold_left].
  - split; [tauto|]. intros [H|(s & [] & _)]. exact H.
  - rewrite IH, pushTo_keys_In. split.
    + intros [[->|H]|(x & Hx & Ex)]; eauto.
      * right. exists s. split; [left|]; reflexivity.
      * right. exists x. split; [right|]; assumption.
    + intros [H|(x & [<-|Hx] & Ex)]; eauto.
Qed.

Lemma fold_push_NoDup (l : list WorkSession) (G : GroupedSessions) :
  List.NoDup (map fst G) -> List.NoDup (map fst (fold_left push l G)).
Proof.
  revert G. induction l as [|s l IH]; intros G H; cbn [fold_left];
    [exact H|]. apply IH, pushTo_NoDup, H.
Qed.

Lemma fold_push_nonempty (l : list WorkSession) (G : GroupedSessions) :
  List.Forall (fun e => snd e <> []) G ->
  List.Forall (fun e => snd e <> []) (fold_left push l G).
Proof.
  revert G. induction l as [|s l IH]; intros G H; cbn [fold_left];
    [exact H|]. apply IH, pushTo_nonempty, H.
Qed.

Lemma groupSessions_partition (sessionData : list WorkSession) :
  let grouped := groupSessions tz sessionData in
  List.NoDup (map fst grouped)
  /\ (forall date group,
         In (date, group) grouped ->
         group <> []
         /\ group
            = List.filter (fun s => dateOf tz s =? date) sessionData)
  /\ (forall s, In s sessionData -> In (dateOf tz s) (map fst grouped)).
Proof.
  cbv zeta. unfold groupSessions.
  assert (Hnd : List.NoDup (map fst (fold_left push sessionData [])))
    by (apply fold_push_NoDup; constructor).
  split; [exact Hnd|]. split.
  - intros date group Hin. split.
    + pose proof (fold_push_nonempty sessionData [] (List.Forall_nil _))
        as Hne.
      rewrite List.Forall_forall in Hne. exact (Hne _ Hin).
    + rewrite <- (groupOf_entry date group _ Hnd Hin).
      rewrite fold_push_groupOf. reflexivity.
  - intros s Hs. apply fold_push_keys_In. right. exists s. auto.
Qed.

(** X22.  The grouped log has one entry per date that occurs, holding exactly
    the sessions of that date in the order of the list, and no entry is
    empty. *)
Theorem groupSessions_by_date (sessionData : list WorkSession) :
  let grouped := groupSessions tz sessionData in
  List.NoDup (map fst grouped)
  /\ (forall date group,
         In (date, group) grouped ->
         group <> []
         /\ group
            = List.filter (fun s => dateOf tz s =? date) sessionData)
  /\ (forall s, In s sessionData -> In (dateOf tz s) (map fst grouped)).
Proof.
  exact (groupSessions_partition sessionData).
Qed.

End Grouping.

End GroupingFacts.

(* ------------------------------------------------------------------ *)
(** ** Facts about the log after a deletion *)

Module DeleteFacts.
Import WorkSessionLog GroupedLog GroupingFacts.

Local Open Scope Z_scope.

Lemma descending_NoDup (keys : list Z) : descending keys -> List.NoDup keys.
Proof.
  induction 1 as [|k keys _ IH Hk]; constructor; [|exact IH].
  intros Hin. rewrite List.Forall_forall in Hk. specialize (Hk _ Hin). lia.
Qed.

Lemma newestFirst_snoc (l : list WorkSession) (s : WorkSession) :
  newestFirst (l ++ [s]) ->
  newestFirst l
  /\ List.Forall (fun a => startTime_seconds s <= startTime_seconds a) l.
Proof.
  unfold newestFirst. induction l as [|a l IH]; cbn [app]; intros H.
  - split; constructor.
  - apply StronglySorted_inv in H as [Hl Ha].
    destruct (IH Hl) as [IH1 IH2].
    rewrite List.Forall_forall in Ha. split.
    + constructor; [exact IH1|]. apply List.Forall_forall.
      intros x Hx. apply Ha. apply in_or_app. left. exact Hx.
    + constructor; [|exact IH2]. apply Ha. apply in_or_app. right.
      left. reflexivity.
Qed.

Lemma newestFirst_filter (f : WorkSession -> bool) (l : list WorkSession) :
  newestFirst l -> newestFirst (List.filter f l).
Proof.
  unfold newestFirst. induction 1 as [|a l _ IH Ha]; cbn [List.filter].
  - constructor.
  - destruct (f a); [|exact IH]. constructor; [exact IH|].
    rewrite List.Forall_forall in *. intros x Hx.
    apply List.filter_In in Hx as [Hx _]. exact (Ha _ Hx).
Qed.

(** Pushing a session whose date is not after any key keeps the keys
    descending and puts the session last. *)
Lemma pushTo_last (d : Z) (s : WorkSession) (G : GroupedSessions) :
  descending (map fst G) ->
  List.Forall (fun k => d <= k) (map fst G) ->
  concat (map snd (pushTo d s G)) = concat (map snd G) ++ [s]
  /\ descending (map fst (pushTo d s G)).
Proof.
  unfold descending.
  induction G as [|[key g] rest IH]; cbn [pushTo map fst snd concat];
    intros Hs Hd.
  - split; [reflexivity|]. repeat constructor.
  - apply StronglySorted_inv in Hs as [Hrest Hkey].
    inversion Hd as [|? ? Hk Hd']; subst.
    destruct (Z.eqb_spec key d) as [->|Hne]; cbn [map fst snd concat].
    + destruct rest as [|[k2 g2] rest].
      * cbn. rewrite !app_nil_r. split; [reflexivity|].
        repeat constructor.
      * exfalso. cbn in Hkey, Hd'.
        inversion Hkey; subst. inversion Hd'; subst. lia.
    + destruct (IH Hrest Hd') as [IH1 IH2].
      rewrite IH1, app_assoc. split; [reflexivity|].
      constructor; [exact IH2|].
      apply List.Forall_forall. intros k Hin.
      apply pushTo_keys_In in Hin as [->|Hin]; [lia|].
      rewrite List.Forall_forall in Hkey. exact (Hkey _ Hin).
Qed.

Lemma dateOf_mono (tz : Z) (a b : WorkSession) :
  startTime_seconds b <= startTime_seconds a -> dateOf tz b <= dateOf tz a.
Proof.
  intros H. unfold dateOf, Analytics.localDay.
  apply Z.div_le_mono; [unfold Analytics.DAY|]; lia.
Qed.

Lemma groupSessions_sorted (tz : Z) (l : list WorkSession) :
  newestFirst l ->
  concat (map snd (groupSessions tz l)) = l
  /\ descending (map fst (groupSessions tz l)).
Proof.
  unfold groupSessions.
  induction l as [|s l IH] using rev_ind; intros H.
  - split; [reflexivity | constructor].
  - apply newestFirst_snoc in H as [Hl Hs].
    destruct (IH Hl) as [IH1 IH2].
    rewrite fold_left_app. cbn [fold_left].
    destruct (pushTo_last (dateOf tz s) s _ IH2) as [P1 P2].
    + apply List.Forall_forall. intros k Hk.
      apply fold_push_keys_In in Hk as [[]|(a & Ha & <-)].
      apply dateOf_mono. rewrite List.Forall_forall in Hs. exact (Hs _ Ha).
    + rewrite P1, IH1. split; [reflexivity | exact P2].
Qed.

(** *** The loop of [handleDelete] *)

Lemma groupOf_app_absent (k : Z) (P R : GroupedSessions) :
  ~ In k (map fst P) -> groupOf k (P ++ R) = groupOf k R.
Proof.
  induction P as [|[key g] P IH]; cbn [app groupOf map fst];
    [reflexivity|].
  intros H. destruct (Z.eqb_spec key k) as [->|_].
  - exfalso. apply H. left. reflexivity.
  - apply IH. intros Hin. apply H. right. exact Hin.
Qed.

Lemma assign_app_absent (k : Z) (g' : list WorkSession)
    (P R : GroupedSessions) :
  ~ In k (map fst P) -> assign k g' (P ++ R) = P ++ assign k g' R.
Proof.
  induction P as [|[key g] P IH]; cbn [app assign map fst];
    [reflexivity|].
  intros H. destruct (Z.eqb_spec key k) as [->|_].
  - exfalso. apply H. left. reflexivity.
  - rewrite IH; [reflexivity|]. intros Hin. apply H. right. exact Hin.
Qed.

Lemma deleteKey_absent (k : Z) (G : GroupedSessions) :
  ~ In k (map fst G) -> deleteKey k G = G.
Proof.
  unfold deleteKey.
  induction G as [|[key g] G IH]; cbn [List.filter map fst];
    [reflexivity|].
  intros H. destruct (Z.eqb_spec key k) as [->|_]; cbn [negb].
  - exfalso. apply H. left. reflexivity.
  - rewrite IH; [reflexivity|]. intros Hin. apply H. right. exact Hin.
Qed.

Lemma forEach_filteredGroups (sessionId : string)
    (R P : GroupedSessions) :
  List.NoDup (map fst (P ++ R)) ->
  fold_left
    (fun updatedGrouped date =>
       let group :=
         List.filter (keepSession sessionId) (groupOf date updatedGrouped) in
       let updatedGrouped := assign date group updatedGrouped in
       if (length group =? 0)%nat then deleteKey date updatedGrouped
       else updatedGrouped)
    (map fst R) (P ++ R)
  = P ++ filteredGroups sessionId R.
Proof.
  revert P. induction R as [|[k g] R IH]; intros P Hnd;
    cbn [map fst fold_left].
  - reflexivity.
  - rewrite map_app in Hnd. cbn [map fst] in Hnd.
    assert (HkP : ~ In k (map fst P)).
    { intros Hin. apply NoDup_remove_2 in Hnd. apply Hnd.
      apply in_or_app. left. exact Hin. }
    assert (HkR : ~ In k (map fst R)).
    { intros Hin. apply NoDup_remove_2 in Hnd. apply Hnd.
      apply in_or_app. right. exact Hin. }
    cbv zeta.
    rewrite groupOf_app_absent by exact HkP.
    cbn [groupOf]. rewrite Z.eqb_refl.
    rewrite assign_app_absent by exact HkP.
    cbn [assign]. rewrite Z.eqb_refl.
    unfold filteredGroups at 1. cbn [map List.filter fst snd].
    fold (filteredGroups sessionId R).
    destruct (length (List.filter (keepSession sessionId) g) =? 0)%nat
      eqn:E; cbn [negb].
    + unfold deleteKey. rewrite List.filter_app. cbn [List.filter fst].
      rewrite Z.eqb_refl. cbn [negb].
      fold (deleteKey k P). fold (deleteKey k R).
      rewrite !deleteKey_absent by assumption.
      apply IH. rewrite map_app.
      apply NoDup_remove_1 in Hnd. exact Hnd.
    + change (P ++ (k, List.filter (keepSession sessionId) g) :: R)
        with (P ++ [(k, List.filter (keepSession sessionId) g)] ++ R).
      rewrite app_assoc, IH.
      * rewrite <- app_assoc. reflexivity.
      * rewrite <- app_assoc, map_app. cbn [app map fst]. exact Hnd.
Qed.

Lemma updatedGrouped_filteredGroups (sessionId : string)
    (G : GroupedSessions) :
  List.NoDup (map fst G) ->
  updatedGrouped sessionId G = filteredGroups sessionId G.
Proof.
  intros H. exact (forEach_filteredGroups sessionId G [] H).
Qed.

Lemma filteredGroups_keys_In (sessionId : string) (k : Z)
    (G : GroupedSessions) :
  In k (map fst (filteredGroups sessionId G)) -> In k (map fst G).
Proof.
  unfold filteredGroups. intros H.
  apply in_map_iff in H as ([k' g'] & <- & H).
  apply List.filter_In in H as [H _].
  apply in_map_iff in H as ([k2 g2] & E & H). cbn in E.
  injection E as <- _. apply (in_map fst) in H. exact H.
Qed.

Lemma filteredGroups_nonempty (sessionId : string) (G : GroupedSessions) :
  List.Forall (fun e => snd e <> []) (filteredGroups sessionId G).
Proof.
  apply List.Forall_forall. intros [k g] H. unfold filteredGroups in H.
  apply List.filter_In in H as [_ H]. cbn in H. cbn. intros ->.
  discriminate H.
Qed.

Lemma filteredGroups_cons (sessionId : string) (k : Z)
    (g : list WorkSession) (G : GroupedSessions) :
  filteredGroups sessionId ((k, g) :: G)
  = if (length (List.filter (keepSession sessionId) g) =? 0)%nat
    then filteredGroups sessionId G
    else (k, List.filter (keepSession sessionId) g)
           :: filteredGroups sessionId G.
Proof.
  unfold filteredGroups. cbn [map List.filter fst snd].
  destruct (length _ =? 0)%nat; reflexivity.
Qed.

Lemma filteredGroups_groupOf (sessionId : string) (k : Z)
    (G : GroupedSessions) :
  List.NoDup (map fst G) ->
  groupOf k (filteredGroups sessionId G)
  = List.filter (keepSession sessionId) (groupOf k G).
Proof.
  induction G as [|[key g] G IH]; [reflexivity|].
  cbn [map fst]. intros Hnd. inversion Hnd as [|? ? Hkey Hnd']; subst.
  rewrite filteredGroups_cons. cbn [groupOf].
  destruct (length (List.filter (keepSession sessionId) g) =? 0)%nat eqn:E;
    cbn [groupOf].
  - destruct (Z.eqb_spec key k) as [->|_]; [|exact (IH Hnd')].
    apply Nat.eqb_eq in E. apply length_zero_iff_nil in E. rewrite E.
    apply groupOf_absent. intros Hin. apply Hkey.
    exact (filteredGroups_keys_In _ _ _ Hin).
  - destruct (key =? k); [reflexivity | exact (IH Hnd')].
Qed.

Lemma filteredGroups_descending (sessionId : string) (G : GroupedSessions) :
  descending (map fst G) -> descending (map fst (filteredGroups sessionId G)).
Proof.
  unfold descending.
  induction G as [|[key g] G IH]; [intros _; constructor|].
  cbn [map fst]. intros H. apply StronglySorted_inv in H as [HG Hkey].
  rewrite filteredGroups_cons.
  destruct (length _ =? 0)%nat; [exact (IH HG)|].
  cbn [map fst]. constructor; [exact (IH HG)|].
  apply List.Forall_forall. intros k Hin.
  apply filteredGroups_keys_In in Hin.
  rewrite List.Forall_forall in Hkey. exact (Hkey _ Hin).
Qed.

Lemma filteredGroups_NoDup (sessionId : string) (G : GroupedSessions) :
  List.NoDup (map fst G) -> List.NoDup (map fst (filteredGroups sessionId G)).
Proof.
  induction G as [|[key g] G IH]; [intros _; constructor|].
  cbn [map fst]. intros H. inversion H as [|? ? Hkey HG]; subst.
  rewrite filteredGroups_cons.
  destruct (length _ =? 0)%nat; [exact (IH HG)|].
  cbn [map fst]. constructor; [|exact (IH HG)].
  intros Hin. apply Hkey. exact (filteredGroups_keys_In _ _ _ Hin).
Qed.

Lemma keys_iff_groupOf (k : Z) (G : GroupedSessions) :
  List.NoDup (map fst G) ->
  List.Forall (fun e => snd e <> []) G ->
  In k (map fst G) <-> groupOf k G <> [].
Proof.
  intros Hnd Hne. split.
  - intros Hin. apply in_map_iff in Hin as ([k' g] & <- & Hin).
    cbn [fst]. rewrite (groupOf_entry _ _ _ Hnd Hin).
    rewrite List.Forall_forall in Hne. exact (Hne _ Hin).
  - intros H. destruct (in_dec Z.eq_dec k (map fst G)) as [Hin|Hout];
      [exact Hin|]. exfalso. apply H. apply groupOf_absent. exact Hout.
Qed.

(** Two grouped logs with descending keys and no empty group are the
    same as soon as they hold the same group under every date. *)
Lemma descending_ext (G1 G2 : GroupedSessions) :
  descending (map fst G1) -> descending (map fst G2) ->
  List.Forall (fun e => snd e <> []) G1 ->
  List.Forall (fun e => snd e <> []) G2 ->
  (forall k, groupOf k G1 = groupOf k G2) ->
  G1 = G2.
Proof.
  unfold descending. revert G2.
  induction G1 as [|[k1 g1] G1 IH]; intros [|[k2 g2] G2] S1 S2 N1 N2 E.
  - reflexivity.
  - exfalso. specialize (E k2). cbn [groupOf] in E.
    rewrite Z.eqb_refl in E. inversion N2; subst. cbn in *. congruence.
  - exfalso. specialize (E k1). cbn [groupOf] in E.
    rewrite Z.eqb_refl in E. inversion N1; subst. cbn in *. congruence.
  - cbn [map fst] in S1, S2.
    apply StronglySorted_inv in S1 as [S1 K1].
    apply StronglySorted_inv in S2 as [S2 K2].
    inversion N1 as [|? ? Hg1 N1']; subst.
    inversion N2 as [|? ? Hg2 N2']; subst. cbn [snd] in Hg1, Hg2.
    rewrite List.Forall_forall in K1, K2.
    assert (A1 : ~ In k1 (map fst G1))
      by (intros Hin; specialize (K1 _ Hin); lia).
    assert (A2 : ~ In k2 (map fst G2))
      by (intros Hin; specialize (K2 _ Hin); lia).
    assert (Hk : k1 = k2).
    { destruct (Z.lt_trichotomy k1 k2) as [Hlt|[Heq|Hgt]]; [|exact Heq|].
      - exfalso. pose proof (E k2) as E2. cbn [groupOf] in E2.
        rewrite Z.eqb_refl in E2.
        destruct (Z.eqb_spec k1 k2) as [|_]; [lia|].
        rewrite groupOf_absent in E2; [congruence|].
        intros Hin. specialize (K1 _ Hin). lia.
      - exfalso. pose proof (E k1) as E1. cbn [groupOf] in E1.
        rewrite Z.eqb_refl in E1.
        destruct (Z.eqb_spec k2 k1) as [|_]; [lia|].
        rewrite groupOf_absent in E1; [congruence|].
        intros Hin. specialize (K2 _ Hin). lia. }
    subst k2.
    assert (Hg : g1 = g2).
    { pose proof (E k1) as E1. cbn [groupOf] in E1.
      rewrite Z.eqb_refl in E1. exact E1. }
    subst g2. f_equal. apply IH; try assumption.
    intros k. specialize (E k). cbn [groupOf] in E.
    destruct (Z.eqb_spec k1 k) as [Ek|_]; [subst k|exact E].
    rewrite !groupOf_absent by assumption. reflexivity.
Qed.

Lemma filter_filter_comm {A} (f g : A -> bool) (l : list A) :
  List.filter f (List.filter g l) = List.filter g (List.filter f l).
Proof.
  induction l as [|a l IH]; cbn [List.filter]; [reflexivity|].
  destruct (f a) eqn:Ef, (g a) eqn:Eg; cbn [List.filter];
    rewrite ?Ef, ?Eg, IH; reflexivity.
Qed.

(** *** After a deletion *)

(** X23.  [handleDelete] updates the list and the grouped log apart; under
    every date the updated grouped log holds what grouping the updated
    list gives, and both have the same dates. *)
Theorem handleDelete_groups_agree (tz : Z) (sessionId : string)
    (sessions : list WorkSession) (date : Z) :
  let after := updatedGrouped sessionId (groupSessions tz sessions) in
  let regrouped := groupSessions tz (updatedSessions sessionId sessions) in
  groupOf date after = groupOf date regrouped
  /\ (In date (map fst after) <-> In date (map fst regrouped))
  /\ List.Forall (fun e => snd e <> []) after.
Proof.
  cbv zeta.
  destruct (groupSessions_partition tz sessions) as (Hnd & _ & _).
  destruct (groupSessions_partition tz (updatedSessions sessionId sessions))
    as (Hnd' & Hgroups' & _).
  rewrite (updatedGrouped_filteredGroups _ _ Hnd).
  assert (E : forall k,
             groupOf k (filteredGroups sessionId (groupSessions tz sessions))
             = groupOf k
                 (groupSessions tz (updatedSessions sessionId sessions))).
  { intros k. rewrite (filteredGroups_groupOf _ _ _ Hnd).
    unfold groupSessions. rewrite !fold_push_groupOf. cbn [groupOf app].
    unfold updatedSessions. apply filter_filter_comm. }
  split; [apply E|]. split; [|apply filteredGroups_nonempty].
  rewrite keys_iff_groupOf.
  - rewrite keys_iff_groupOf; [rewrite E; reflexivity | exact Hnd' |].
    apply List.Forall_forall. intros [k g] Hin.
    exact (proj1 (Hgroups' _ _ Hin)).
  - apply filteredGroups_NoDup. exact Hnd.
  - apply filteredGroups_nonempty.
Qed.

(** X24.  On a newest-first list the updated grouped log is the grouping of
    the updated list, key order included, and the updated list is
    newest first again. *)
Theorem handleDelete_keeps_grouping (tz : Z) (sessionId : string)
    (sessions : list WorkSession) :
  newestFirst sessions ->
  updatedGrouped sessionId (groupSessions tz sessions)
  = groupSessions tz (updatedSessions sessionId sessions)
  /\ newestFirst (updatedSessions sessionId sessions).
Proof.
  intros Hsorted.
  assert (Hsorted' : newestFirst (updatedSessions sessionId sessions))
    by (apply newestFirst_filter; exact Hsorted).
  split; [|exact Hsorted'].
  destruct (groupSessions_sorted tz _ Hsorted) as [_ Hdesc].
  destruct (groupSessions_sorted tz _ Hsorted') as [_ Hdesc'].
  destruct (groupSessions_partition tz (updatedSessions sessionId sessions))
    as (_ & Hgroups' & _).
  pose proof (descending_NoDup _ Hdesc) as Hnd.
  rewrite (updatedGrouped_filteredGroups _ _ Hnd).
  apply descending_ext.
  - apply filteredGroups_descending. exact Hdesc.
  - exact Hdesc'.
  - apply filteredGroups_nonempty.
  - apply List.Forall_forall. intros [k g] Hin.
    exact (proj1 (Hgroups' _ _ Hin)).
  - intros k. rewrite (filteredGroups_groupOf _ _ _ Hnd).
    unfold groupSessions. rewrite !fold_push_groupOf. cbn [groupOf app].
    unfold updatedSessions. apply filter_filter_comm.
Qed.

Lemma handleDelete_keeps_grouping_witness :
  let sessions :=
    [ mkWorkSession "c" 1704200000 1704203600;
      mkWorkSession "b" 1704110000 1704113600;
      mkWorkSession "a" 1704100000 1704103600 ] in
  newestFirst sessions
  /\ updatedGrouped "b" (groupSessions 0 sessions)
     = groupSessions 0 (updatedSessions "b" sessions).
Proof.
  cbv zeta.
  assert (H : newestFirst
                [ mkWorkSession "c" 1704200000 1704203600;
                  mkWorkSession "b" 1704110000 1704113600;
                  mkWorkSession "a" 1704100000 1704103600 ]).
  { unfold newestFirst. repeat constructor; cbn; lia. }
  split; [exact H|].
  exact (proj1 (handleDelete_keeps_grouping 0 "b" _ H)).
Defined.

(** X25.  A newest-first list read group after group is the list itself: the
    log shows every session once, in the order fetched, under dates that
    go strictly back in time. *)
Theorem grouped_log_reads_as_list (tz : Z) (sessions : list WorkSession) :
  newestFirst sessions ->
  concat (map snd (groupSessions tz sessions)) = sessions
  /\ descending (map fst (groupSessions tz sessions)).
Proof.
  exact (groupSessions_sorted tz sessions).
Qed.

Lemma grouped_log_reads_as_list_witness :
  let sessions :=
    [ mkWorkSession "c" 1704200000 1704203600;
      mkWorkSession "b" 1704110000 1704113600;
      mkWorkSession "a" 1704100000 1704103600 ] in
  newestFirst sessions
  /\ concat (map snd (groupSessions 0 sessions)) = sessions.
Proof.
  cbv zeta.
  assert (H : newestFirst
                [ mkWorkSession "c" 1704200000 1704203600;
                  mkWorkSession "b" 1704110000 1704113600;
                  mkWorkSession "a" 1704100000 1704103600 ]).
  { unfold newestFirst. repeat constructor; cbn; lia. }
  split; [exact H|].
  exact (proj1 (grouped_log_reads_as_list 0 _ H)).
Defined.

End DeleteFacts.

(* ------------------------------------------------------------------ *)
(** ** Facts about friend requests and usernames *)

Module FriendsFacts.
Import Friends.

(** Looks a key up in a collection written out with [insert]. *)
Ltac lookup_written :=
  repeat (rewrite lookup_insert_ne by discriminate);
  first [apply lookup_insert_eq | apply lookup_empty].

Lemma arrayUnion_In (x y : string) (array : list string) :
  In y (arrayUnion x array) <-> y = x \/ In y array.
Proof.
  unfold arrayUnion. destruct (existsb _ _) eqn:E.
  - split; [tauto|]. intros [->|H]; [|exact H].
    apply existsb_exists in E as (z & Hz & Ez).
    apply String.eqb_eq in Ez. subst z. exact Hz.
  - rewrite in_app_iff. cbn. intuition congruence.
Qed.

Lemma arrayRemove_In (x y : string) (array : list string) :
  In y (arrayRemove x array) <-> In y array /\ y <> x.
Proof.
  unfold arrayRemove. rewrite List.filter_In.
  destruct (String.eqb_spec y x); cbn; intuition congruence.
Qed.

Lemma arrayRemove_absent (x : string) (array : list string) :
  ~ In x array -> arrayRemove x array = array.
Proof.
  unfold arrayRemove. induction array as [|y array IH]; cbn [List.filter];
    [reflexivity|].
  intros H. destruct (String.eqb_spec y x) as [->|_]; cbn [negb].
  - exfalso. apply H. left. reflexivity.
  - rewrite IH; [reflexivity|]. intros Hin. apply H. right. exact Hin.
Qed.

Lemma arrayRemove_arrayUnion (x : string) (array : list string) :
  ~ In x array -> arrayRemove x (arrayUnion x array) = array.
Proof.
  intros H. unfold arrayUnion. destruct (existsb _ _) eqn:E.
  - apply arrayRemove_absent, H.
  - unfold arrayRemove. rewrite List.filter_app. cbn [List.filter].
    rewrite String.eqb_refl. cbn [negb]. rewrite app_nil_r.
    apply arrayRemove_absent, H.
Qed.

Lemma updateDoc_own (uid : string) (update : UserProfile -> UserProfile)
    (users : Users) (me : UserProfile) :
  users !! uid = Some me ->
  updateDoc (Some uid) uid update users = Some (<[uid := update me]> users).
Proof.
  intros H. unfold updateDoc, isOwner. rewrite String.eqb_refl, H.
  reflexivity.
Qed.

Lemma updateDoc_other (uid key : string)
    (update : UserProfile -> UserProfile) (users : Users) :
  uid <> key -> updateDoc (Some uid) key update users = None.
Proof.
  intros H. unfold updateDoc, isOwner.
  apply String.eqb_neq in H. rewrite H. reflexivity.
Qed.

(** X26.  Under the rules of the repository, accepting a request from
    another user stops in the [catch] after the accepter's own document
    is written: the friend is added there and the request removed, and
    no other document changes, the friend's included, so the friendship
    is recorded on one side only. *)
Theorem acceptFriendRequest_writes_own_document_only
    (uid friendId : string) (users : Users) (me : UserProfile) :
  users !! uid = Some me ->
  uid <> friendId ->
  exists users' me',
    acceptFriendRequest uid friendId users = Caught users'
    /\ users' !! uid = Some me'
    /\ (forall x, In x (friends me') <-> x = friendId \/ In x (friends me))
    /\ (forall x, In x (incoming (friendRequests me'))
                  <-> In x (incoming (friendRequests me)) /\ x <> friendId)
    /\ outgoing (friendRequests me') = outgoing (friendRequests me)
    /\ (forall key, key <> uid -> users' !! key = users !! key).
Proof.
  intros Hme Hne. unfold acceptFriendRequest.
  rewrite (updateDoc_own _ _ _ _ Hme).
  rewrite (updateDoc_other _ _ _ _ Hne).
  eexists _, _. split; [reflexivity|].
  split; [apply lookup_insert_eq|].
  cbn. repeat apply conj; try reflexivity.
  - intros x. apply arrayUnion_In.
  - intros x. apply arrayRemove_In.
  - intros key Hkey. rewrite lookup_insert_ne by congruence. reflexivity.
Qed.

Lemma acceptFriendRequest_writes_own_document_only_witness :
  let ann := mkUserProfile "u1" "ann@example.org" "ann" None 0
               [] (mkFriendRequests ["u2"] [])
               (mkPrivacySettings true true true) in
  let bob := mkUserProfile "u2" "bob@example.org" "bob" None 0
               [] (mkFriendRequests [] ["u1"])
               (mkPrivacySettings true true true) in
  let users : Users := <["u1" := ann]> (<["u2" := bob]> ∅) in
  exists users' me',
    acceptFriendRequest "u1" "u2" users = Caught users'
    /\ users' !! "u1" = Some me'
    /\ In "u2" (friends me')
    /\ users' !! "u2" = Some bob.
Proof.
  cbv zeta.
  lazymatch goal with
  | |- context [acceptFriendRequest _ _ ?users] =>
      edestruct (acceptFriendRequest_writes_own_document_only "u1" "u2"
                   users)
        as (users' & me' & H1 & H2 & H3 & _ & _ & H6)
  end; [lookup_written | discriminate |].
  exists users', me'.
  repeat apply conj; try assumption.
  - apply H3. left. reflexivity.
  - rewrite H6 by discriminate. lookup_written.
Defined.

(** X27.  Under the rules of the repository, a request sent to another
    user is never delivered and a rejection never withdraws it: sending
    stops in the [catch] with the target only in the sender's outgoing
    requests and the target's document as it was, and the target's
    rejection then stops in the [catch] too, leaving the sender's
    document as the sending left it. *)
Theorem request_stays_with_its_sender
    (sender target : string) (users : Users) (from to : UserProfile) :
  users !! sender = Some from ->
  users !! target = Some to ->
  sender <> target ->
  exists sent after from',
    sendFriendRequest sender target users = Caught sent
    /\ sent !! target = Some to
    /\ sent !! sender = Some from'
    /\ In target (outgoing (friendRequests from'))
    /\ rejectFriendRequest target sender sent = Caught after
    /\ after !! sender = Some from'.
Proof.
  intros Hfrom Hto Hne.
  assert (Hto' : <[sender := addOutgoing target from]> users !! target
                 = Some to)
    by (rewrite lookup_insert_ne by exact Hne; exact Hto).
  exists (<[sender := addOutgoing target from]> users),
    (<[target := removeIncoming sender to]>
       (<[sender := addOutgoing target from]> users)),
    (addOutgoing target from).
  split.
  { unfold sendFriendRequest.
    rewrite (updateDoc_own _ _ _ _ Hfrom).
    rewrite (updateDoc_other _ _ _ _ Hne). reflexivity. }
  split; [exact Hto'|].
  split; [apply lookup_insert_eq|].
  split; [cbn; apply arrayUnion_In; left; reflexivity|].
  split.
  { unfold rejectFriendRequest.
    rewrite (updateDoc_own _ _ _ _ Hto').
    rewrite updateDoc_other by congruence. reflexivity. }
  rewrite lookup_insert_ne by congruence. apply lookup_insert_eq.
Qed.

Lemma request_stays_with_its_sender_witness :
  let ann := mkUserProfile "u1" "ann@example.org" "ann" None 0
               ["u3"] (mkFriendRequests [] ["u3"])
               (mkPrivacySettings true true true) in
  let bob := mkUserProfile "u2" "bob@example.org" "bob" None 0
               [] (mkFriendRequests ["u4"] [])
               (mkPrivacySettings true false true) in
  let users : Users := <["u1" := ann]> (<["u2" := bob]> ∅) in
  exists sent after from',
    sendFriendRequest "u1" "u2" users = Caught sent
    /\ sent !! "u2" = Some bob
    /\ rejectFriendRequest "u2" "u1" sent = Caught after
    /\ after !! "u1" = Some from'
    /\ In "u2" (outgoing (friendRequests from')).
Proof.
  cbv zeta.
  lazymatch goal with
  | |- context [sendFriendRequest _ _ ?users] =>
      edestruct (request_stays_with_its_sender "u1" "u2" users)
        as (sent & after & from' & H1 & H2 & H3 & H4 & H5 & H6)
  end; [lookup_written | lookup_written | discriminate |].
  exists sent, after, from'. repeat apply conj; assumption.
Defined.

(** X28.  A request to a user without a document stops in the [catch] with
    the sender's document already written: the request stays recorded
    on the sender's side only. *)
Theorem sendFriendRequest_unknown_target
    (sender target : string) (users : Users) (from : UserProfile) :
  users !! sender = Some from ->
  users !! target = None ->
  exists left_ from',
    sendFriendRequest sender target users = Caught left_
    /\ left_ !! sender = Some from'
    /\ In target (outgoing (friendRequests from'))
    /\ left_ !! target = None
    /\ (forall key, key <> sender -> left_ !! key = users !! key).
Proof.
  intros Hfrom Hnone.
  assert (Hne : sender <> target) by congruence.
  unfold sendFriendRequest.
  rewrite (updateDoc_own _ _ _ _ Hfrom).
  rewrite (updateDoc_other _ _ _ _ Hne).
  eexists _, _. split; [reflexivity|].
  split; [apply lookup_insert_eq|].
  split; [cbn; apply arrayUnion_In; left; reflexivity|].
  split; [rewrite lookup_insert_ne by exact Hne; exact Hnone|].
  intros key Hkey. rewrite lookup_insert_ne by congruence. reflexivity.
Qed.

Lemma sendFriendRequest_unknown_target_witness :
  let ann := mkUserProfile "u1" "ann@example.org" "ann" None 0
               [] (mkFriendRequests [] [])
               (mkPrivacySettings true true true) in
  let users : Users := <["u1" := ann]> ∅ in
  exists left_ from',
    sendFriendRequest "u1" "u2" users = Caught left_
    /\ left_ !! "u1" = Some from'
    /\ In "u2" (outgoing (friendRequests from')).
Proof.
  cbv zeta.
  lazymatch goal with
  | |- context [sendFriendRequest _ _ ?users] =>
      edestruct (sendFriendRequest_unknown_target "u1" "u2" users)
        as (left_ & from' & H1 & H2 & H3 & _)
  end; [lookup_written | lookup_written |].
  exists left_, from'. repeat apply conj; assumption.
Defined.

(** *** Usernames *)

Lemma usernameSnapshot_empty (name : string) (users : Users) :
  length (usernameSnapshot name users) = 0%nat
  <-> forall key p, users !! key = Some p -> username p <> name.
Proof.
  unfold usernameSnapshot. rewrite length_zero_iff_nil. split.
  - intros H key p Hp E.
    assert (Hin : In (key, p)
                    (List.filter
                       (fun entry => String.eqb (username (snd entry)) name)
                       (map_to_list users))).
    { apply List.filter_In. split.
      - apply list_elem_of_In, elem_of_map_to_list. exact Hp.
      - cbn. apply String.eqb_eq. exact E. }
    rewrite H in Hin. exact Hin.
  - intros H.
    destruct (List.filter _ _) as [|[key p] rest] eqn:E; [reflexivity|].
    exfalso.
    assert (Hin : In (key, p)
                    (List.filter
                       (fun entry => String.eqb (username (snd entry)) name)
                       (map_to_list users)))
      by (rewrite E; left; reflexivity).
    apply List.filter_In in Hin as [Hin Hname].
    apply list_elem_of_In, elem_of_map_to_list in Hin.
    apply String.eqb_eq in Hname. exact (H _ _ Hin Hname).
Qed.

(** X29.  Setting up a username keeps usernames unique: a name some document
    carries is refused with nothing written, and any other name is
    stored in lower case in a fresh profile under the user's id. *)
Theorem handleSubmit_keeps_usernames_unique
    (toLowerCase : string -> string) (uid userEmail : string)
    (userDisplayName : option string) (now : Z) (name : string)
    (users : Users) :
  uniqueUsernames users ->
  let outcome :=
    handleSubmit toLowerCase uid userEmail userDisplayName now name users in
  uniqueUsernames (stored outcome)
  /\ ((exists key p,
         users !! key = Some p /\ username p = toLowerCase name)
      -> outcome = Returned users)
  /\ ((forall key p,
         users !! key = Some p -> username p <> toLowerCase name)
      -> exists p,
           stored outcome !! uid = Some p
           /\ username p = toLowerCase name
           /\ friends p = []
           /\ (forall key, key <> uid ->
                           stored outcome !! key = users !! key)).
Proof.
  intros Hunique. cbv zeta. unfold handleSubmit, setDoc, isOwner.
  rewrite String.eqb_refl.
  destruct (length (usernameSnapshot (toLowerCase name) users) =? 0)%nat
    eqn:E; cbn [negb stored].
  - apply Nat.eqb_eq in E.
    pose proof (proj1 (usernameSnapshot_empty _ _) E) as Hfree. clear E.
    rename Hfree into E.
    split; [|split].
    + intros key1 key2 p1 p2 H1 H2 Hname.
      destruct (decide (key1 = uid)) as [->|N1];
        destruct (decide (key2 = uid)) as [->|N2]; [reflexivity| | |].
      * rewrite lookup_insert_eq in H1. injection H1 as <-.
        rewrite lookup_insert_ne in H2 by congruence.
        cbn in Hname. exfalso. exact (E _ _ H2 (eq_sym Hname)).
      * rewrite lookup_insert_eq in H2. injection H2 as <-.
        rewrite lookup_insert_ne in H1 by congruence.
        cbn in Hname. exfalso. exact (E _ _ H1 Hname).
      * rewrite lookup_insert_ne in H1, H2 by congruence.
        exact (Hunique _ _ _ _ H1 H2 Hname).
    + intros (key & p & Hp & Hname). exfalso. exact (E _ _ Hp Hname).
    + intros _. eexists.
      split; [apply lookup_insert_eq|]. cbn.
      repeat apply conj; try reflexivity.
      intros key Hkey. rewrite lookup_insert_ne by congruence. reflexivity.
  - split; [exact Hunique|]. split; [reflexivity|].
    intros Hfree. exfalso.
    apply (proj2 (usernameSnapshot_empty _ _)) in Hfree.
    rewrite Hfree in E. discriminate E.
Qed.

Lemma handleSubmit_keeps_usernames_unique_witness :
  let ann := mkUserProfile "u1" "ann@example.org" "ann" None 0
               [] (mkFriendRequests [] [])
               (mkPrivacySettings true true true) in
  let users : Users := <["u1" := ann]> ∅ in
  uniqueUsernames users
  /\ uniqueUsernames
       (stored (handleSubmit (fun s => s) "u2" "bob@example.org" None 5
                  "bob" users)).
Proof.
  cbv zeta.
  assert (H : uniqueUsernames
                (<["u1" := mkUserProfile "u1" "ann@example.org" "ann" None 0
                             [] (mkFriendRequests [] [])
                             (mkPrivacySettings true true true)]>
                   (∅ : Users))).
  { intros key1 key2 p1 p2 H1 H2 _.
    apply lookup_insert_Some in H1 as [[<- _]|[_ H1]];
      [|rewrite lookup_empty in H1; discriminate H1].
    apply lookup_insert_Some in H2 as [[<- _]|[_ H2]];
      [|rewrite lookup_empty in H2; discriminate H2].
    reflexivity. }
  split; [exact H|].
  exact (proj1 (handleSubmit_keeps_usernames_unique
                  (fun s => s) "u2" "bob@example.org" None 5 "bob" _ H)).
Defined.

End FriendsFacts.
(* ------------------------------------------------------------------ *)
(** ** Facts about the day calendar *)

Module DayCalendarFacts.
Import WorkSessionLog DayCalendar.

Local Open Scope Z_scope.

(** The block's top is the local minute of the day, counted from six
    o'clock. *)
Lemma startMinutes_minute_of_day (tz : Z) (session : WorkSession) :
  startMinutes tz session
  = ((startTime_seconds session * 1000 + tz) mod Analytics.DAY) / 60000
    - 360.
Proof.
  unfold startMinutes, getHours, getMinutes, Analytics.DAY. cbv zeta.
  set (L := startTime_seconds session * 1000 + tz). clearbody L.
  Z.to_euclidean_division_equations. lia.
Qed.

Lemma startMinutes_whole_minute (tz : Z) (session : WorkSession) :
  (startTime_seconds session * 1000 + tz) mod 60000 = 0 ->
  60000 * startMinutes tz session
  = startTime_seconds session * 1000 + tz
    - Analytics.localDay tz (startTime_seconds session * 1000)
      * Analytics.DAY
    - 360 * 60000.
Proof.
  rewrite startMinutes_minute_of_day.
  unfold Analytics.localDay, Analytics.DAY.
  set (L := startTime_seconds session * 1000 + tz). clearbody L.
  intros H. Z.to_euclidean_division_equations. lia.
Qed.

Lemma minutes_le (x k : Z) :
  x <= 60000 * k ->
  (Analytics.num x / Analytics.num (1000 * 60) <= Analytics.num k)%Qc.
Proof.
  intros H. change (1000 * 60) with 60000.
  unfold Qcle, Qcdiv, Qcmult, Qcinv, Q2Qc. cbn [this].
  rewrite !Qred_correct, !AnalyticsFacts.num_this.
  apply Qle_shift_div_r; [reflexivity|].
  rewrite <- inject_Z_mult, <- Zle_Qle. lia.
Qed.

(** X30.  Two sessions shown on the calendar of a day, both starting on a
    whole minute of the local clock, the first ending no later than the
    second starts: the block of the first ends at or above the top of
    the block of the second. *)
Theorem blocks_do_not_cover_each_other (tz selectedDate : Z)
    (sessions : list WorkSession) (a b : WorkSession) :
  In a (shownSessions tz selectedDate sessions) ->
  In b (shownSessions tz selectedDate sessions) ->
  (startTime_seconds a * 1000 + tz) mod 60000 = 0 ->
  (startTime_seconds b * 1000 + tz) mod 60000 = 0 ->
  endTime_seconds a <= startTime_seconds b ->
  (Analytics.num (startMinutes tz a) + durationMinutes a
   <= Analytics.num (startMinutes tz b))%Qc.
Proof.
  intros Ha Hb Ma Mb Hab.
  unfold shownSessions in Ha, Hb.
  apply List.filter_In in Ha as [_ Ha]. apply Z.eqb_eq in Ha.
  apply List.filter_In in Hb as [_ Hb]. apply Z.eqb_eq in Hb.
  pose proof (startMinutes_whole_minute tz a Ma) as Ea.
  pose proof (startMinutes_whole_minute tz b Mb) as Eb.
  rewrite Ha in Ea. rewrite Hb in Eb.
  replace (startMinutes tz b)
    with (startMinutes tz a + (startMinutes tz b - startMinutes tz a))
    by lia.
  rewrite AnalyticsFacts.num_add.
  apply Qcplus_le_compat; [apply Qcle_refl|].
  unfold durationMinutes. cbv zeta. apply minutes_le. lia.
Qed.

Lemma blocks_do_not_cover_each_other_witness :
  let a := mkWorkSession "a" 1704099600 1704103200 in
  let b := mkWorkSession "b" 1704103200 1704105000 in
  (Analytics.num (startMinutes 3600000 a) + durationMinutes a
   <= Analytics.num (startMinutes 3600000 b))%Qc.
Proof.
  cbv zeta.
  apply (blocks_do_not_cover_each_other 3600000 1704100000000
           [ mkWorkSession "a" 1704099600 1704103200;
             mkWorkSession "b" 1704103200 1704105000 ]).
  - vm_compute. left. reflexivity.
  - vm_compute. right. left. reflexivity.
  - reflexivity.
  - reflexivity.
  - cbn. lia.
Defined.

(** The lines of the calendar stand an hour apart from the top: the
    eighteen slots are drawn at 0, 60, ..., 1020 pixels, whatever the
    date and the zone. *)
Lemma slot_lines_every_sixty_pixels (tz date : Z) :
  map (slotTop tz) (timeSlots tz date)
  = map (fun i => 60 * Z.of_nat i) (seq 0 18).
Proof.
  unfold timeSlots. rewrite map_map.
  change (seq 6 18) with (map (fun i => (i + 6)%nat) (seq 0 18)).
  rewrite map_map. apply map_ext_in. intros i Hi.
  apply in_seq in Hi.
  unfold slotTop, getHours, setHours, Analytics.DAY.
  set (D := Analytics.localDay tz date). clearbody D.
  replace (D * 86400000 - tz + Z.of_nat (i + 6) * 3600000 + tz)
    with (Z.of_nat (i + 6) * 3600000 + D * 86400000) by lia.
  rewrite Z_mod_plus_full.
  rewrite Z.mod_small by lia.
  rewrite Z.div_mul by lia. lia.
Qed.

End DayCalendarFacts.
